(** * UUID index over an HDF5 container: [server/hdf5db.py]

    A shallow embedding of the [Hdf5db] class.  The h5py/HDF5 engine the
    class drives is external to the repository; Part 1 gives it a small
    executable model (objects at addresses, groups as ordered link tables,
    string attributes), Part 2 the Python-level state and exceptions, Part 3
    sample containers, Part 4 the methods of [Hdf5db] transcribed statement
    by statement, Part 5 the vocabulary of the properties, Part 6 the
    properties and Part 7 their instances on the sample containers. *)

From Stdlib Require Import ZArith NArith String Ascii Lia Bool.
From stdpp Require Import base option list strings pretty gmap.

Local Open Scope string_scope.
Local Open Scope Z_scope.

(* ===================================================================== *)
(** * Part 1.  The storage engine (h5py objects)                           *)
(* ===================================================================== *)

Module H5.

(** The link a group holds under a name: a hard link to the object at an
    address, a symbolic link to a path, an external link to a path of
    another container, or a link of a class that h5py does not know (a
    user-defined link of the HDF5 library). *)
Inductive LinkObj : Type :=
  | HardLink (target : N)
  | SoftLink (path : string)
  | ExternalLink (filename path : string)
  | OtherLink.

Definition LinkTable : Type := list (string * LinkObj).

(** The classes of stored objects.  A group owns its links, kept in the
    engine's native iteration order. *)
Inductive Kind : Type :=
  | Group (links : LinkTable)
  | Dataset
  | Datatype
  | Other.

Record HObj : Type := mkObj { kind : Kind; attrs : gmap string string }.

(** A container: the object table, keyed by physical address, and the
    address of the root group. *)
Record File : Type := mkFile { objs : gmap N HObj; root : N }.

(** A live Python handle: [obj.__class__.__name__], the address that
    [h5py.h5o.get_info(obj.id).addr] reports, and [obj.name]. *)
Record HLObject : Type :=
  mkHL { o_class : string; o_addr : N; o_name : string }.

#[global] Instance LinkObj_eq_dec : EqDecision LinkObj.
Proof. solve_decision. Defined.
#[global] Instance HLObject_eq_dec : EqDecision HLObject.
Proof. solve_decision. Defined.

Definition class_name (k : Kind) : string :=
  match k with
  | Group _ => "Group"
  | Dataset => "Dataset"
  | Datatype => "Datatype"
  | Other => "HLObject"
  end.

(** Handles compare by the identity of the object they denote. *)
Definition obj_eq (a b : HLObject) : bool := N.eqb (o_addr a) (o_addr b).

(** ** Link tables *)

Fixpoint assoc (n : string) (l : LinkTable) : option LinkObj :=
  match l with
  | [] => None
  | (k, v) :: l' => if String.eqb k n then Some v else assoc n l'
  end.

Definition remove_link (n : string) (l : LinkTable) : LinkTable :=
  filter (λ e, negb (String.eqb (fst e) n) = true) l.

(** The engine goes through the members of a group in the order of their
    names: a new link takes its place before the first member with a
    greater name. *)
Fixpoint add_link (n : string) (v : LinkObj) (l : LinkTable) : LinkTable :=
  match l with
  | [] => [(n, v)]
  | (k, w) :: l' =>
      if String.ltb n k then (n, v) :: (k, w) :: l'
      else (k, w) :: add_link n v l'
  end.

Definition links_of (file : File) (a : N) : option LinkTable :=
  match objs file !! a with
  | Some (mkObj (Group l) _) => Some l
  | _ => None
  end.

(** ** Paths *)

(** The pieces of a path between slashes. *)
Fixpoint split_slash (s : string) : list string :=
  match s with
  | EmptyString => [EmptyString]
  | String c s' =>
      if Ascii.eqb c "/" then EmptyString :: split_slash s'
      else match split_slash s' with
           | p :: ps => String c p :: ps
           | [] => [String c EmptyString]
           end
  end.

(** The engine ignores repeated and trailing slashes and the component
    [.]. *)
Definition path_parts (p : string) : list string :=
  filter (λ c, negb (String.eqb c "" || String.eqb c ".") = true)
         (split_slash p).

Definition absolute (p : string) : bool :=
  match p with String c _ => Ascii.eqb c "/" | EmptyString => false end.

Fixpoint has_slash (s : string) : bool :=
  match s with
  | EmptyString => false
  | String c s' => Ascii.eqb c "/" || has_slash s'
  end.

(** A name that is a single path component, as every link name is. *)
Definition simple_name (n : string) : bool :=
  negb (String.eqb n "") && negb (String.eqb n ".") && negb (has_slash n).

(** Path traversal from [cur]: hard links lead to their target, a
    symbolic link is resolved in turn (at most [nlinks] nested times, the
    engine's bound on link traversals), external links leave the container
    and are not followed here. *)
Fixpoint walk (nlinks : nat) (file : File) {struct nlinks}
  : N → list string → option N :=
  fix go (cur : N) (parts : list string) {struct parts} : option N :=
    match parts with
    | [] => match objs file !! cur with Some _ => Some cur | None => None end
    | c :: rest =>
        match links_of file cur with
        | None => None
        | Some l =>
            match assoc c l with
            | Some (HardLink a) => go a rest
            | Some (SoftLink p) =>
                match nlinks with
                | O => None
                | S n =>
                    match walk n file (if absolute p then root file else cur)
                               (path_parts p) with
                    | Some a => go a rest
                    | None => None
                    end
                end
            | _ => None
            end
        end
    end.

Definition nlinks_max : nat := 16.

Definition child_name (g : HLObject) (p : string) : string :=
  if absolute p then p
  else if String.eqb (o_name g) "/" then "/" +:+ p
  else o_name g +:+ "/" +:+ p.

Definition handle (file : File) (a : N) (name : string) : option HLObject :=
  match objs file !! a with
  | Some o => Some (mkHL (class_name (kind o)) a name)
  | None => None
  end.

(** [g[p]]: the object a path leads to, if any. *)
Definition getitem (file : File) (g : HLObject) (p : string)
  : option HLObject :=
  if String.eqb p "" then None
  else
    match walk nlinks_max file (if absolute p then root file else o_addr g)
               (path_parts p) with
    | Some a => handle file a (child_name g p)
    | None => None
    end.

(** Whether a chain of links spells out [parts] from [cur].  The
    component [.] stays in the present group.  Every component but the
    last must lead to a group; of the last one it is enough that the link
    is there, whether or not it leads to an object. *)
Fixpoint path_valid (file : File) (cur : N) (parts : list string) : bool :=
  match parts with
  | [] => true
  | c :: rest =>
      if String.eqb c "." then path_valid file cur rest
      else
        match links_of file cur with
        | Some l =>
            match assoc c l, rest with
            | None, _ => false
            | Some _, [] => true
            | Some _, _ :: _ =>
                match walk nlinks_max file cur [c] with
                | Some a =>
                    match links_of file a with
                    | Some _ => path_valid file a rest
                    | None => false
                    end
                | None => false
                end
            end
        | None => false
        end
  end.

(** [p in g]: the empty path is in no group, a path of slashes only is in
    every group, and any other path is looked up link by link. *)
Definition contains (file : File) (g : HLObject) (p : string) : bool :=
  if String.eqb p "" then false
  else
    path_valid file (if absolute p then root file else o_addr g)
      (filter (λ c, negb (String.eqb c "") = true) (split_slash p)).
Arguments contains : simpl never.

(** The file object itself, used as its root group. *)
Definition root_group (file : File) : HLObject :=
  mkHL "Group" (root file) "/".

(** [for k in g]: the member names, read once before the loop body runs. *)
Definition keys (file : File) (g : HLObject) : option (list string) :=
  match links_of file (o_addr g) with
  | Some l => Some (map fst l)
  | None => None
  end.

(** The link that [g] holds under the member name [n]. *)
Definition getlink (file : File) (g : HLObject) (n : string)
  : option LinkObj :=
  match links_of file (o_addr g) with
  | Some l => assoc n l
  | None => None
  end.

(** ** Updates *)

Definition set_links (file : File) (a : N) (l : LinkTable) : File :=
  match objs file !! a with
  | Some o => mkFile (<[a := mkObj (Group l) (attrs o)]> (objs file)) (root file)
  | None => file
  end.

Definition new_addr (file : File) : N := fresh (dom (objs file)).

(** [g.create_group(n)] for a single-component name: a new empty group at
    an unused address, linked from [g]; refused when [n] is taken. *)
Definition create_group (file : File) (g : HLObject) (n : string)
  : option (HLObject * File) :=
  match links_of file (o_addr g) with
  | Some l =>
      match assoc n l with
      | Some _ => None
      | None =>
          if simple_name n then
            let a := new_addr file in
            let file1 := set_links file (o_addr g) (add_link n (HardLink a) l) in
            Some (mkHL "Group" a (child_name g n),
                  mkFile (<[a := mkObj (Group []) ∅]> (objs file1)) (root file1))
          else None
      end
  | None => None
  end.

(** [g[n] = obj]: a new hard link to an existing object. *)
Definition setitem (file : File) (g : HLObject) (n : string) (obj : HLObject)
  : option File :=
  match links_of file (o_addr g), objs file !! o_addr obj with
  | Some l, Some _ =>
      match assoc n l with
      | Some _ => None
      | None =>
          if simple_name n
          then Some (set_links file (o_addr g) (add_link n (HardLink (o_addr obj)) l))
          else None
      end
  | _, _ => None
  end.

(** [del g[n]] *)
Definition delitem (file : File) (g : HLObject) (n : string) : option File :=
  match links_of file (o_addr g) with
  | Some l =>
      match assoc n l with
      | Some _ => Some (set_links file (o_addr g) (remove_link n l))
      | None => None
      end
  | None => None
  end.

(** ** Attributes *)

Definition attrs_of (file : File) (a : N) : option (gmap string string) :=
  match objs file !! a with Some o => Some (attrs o) | None => None end.

Definition attr_get (file : File) (o : HLObject) (k : string) : option string :=
  match attrs_of file (o_addr o) with Some m => m !! k | None => None end.

Definition attr_contains (file : File) (o : HLObject) (k : string) : bool :=
  match attr_get file o k with Some _ => true | None => false end.

Definition attr_len (file : File) (o : HLObject) : Z :=
  match attrs_of file (o_addr o) with
  | Some m => Z.of_nat (size m)
  | None => 0
  end.

Definition set_attrs (file : File) (a : N) (m : gmap string string) : File :=
  match objs file !! a with
  | Some o => mkFile (<[a := mkObj (kind o) m]> (objs file)) (root file)
  | None => file
  end.

(** [o.attrs[k] = v] *)
Definition attr_set (file : File) (o : HLObject) (k v : string)
  : option File :=
  match attrs_of file (o_addr o) with
  | Some m => Some (set_attrs file (o_addr o) (<[k := v]> m))
  | None => None
  end.

(** [del o.attrs[k]] *)
Definition attr_del (file : File) (o : HLObject) (k : string) : option File :=
  match attrs_of file (o_addr o) with
  | Some m =>
      match m !! k with
      | Some _ => Some (set_attrs file (o_addr o) (delete k m))
      | None => None
      end
  | None => None
  end.

(** [g[n] = h5py.SoftLink(p)] for a single-component name: a new symbolic
    link; refused when [n] is taken or when the target path is empty. *)
Definition setitem_soft (file : File) (g : HLObject) (n p : string)
  : option File :=
  match links_of file (o_addr g) with
  | Some l =>
      match assoc n l with
      | Some _ => None
      | None =>
          if simple_name n && negb (String.eqb p "")
          then Some (set_links file (o_addr g) (add_link n (SoftLink p) l))
          else None
      end
  | None => None
  end.

(** [len(g)]: the number of members. *)
Definition group_len (file : File) (g : HLObject) : option Z :=
  match links_of file (o_addr g) with
  | Some l => Some (Z.of_nat (length l))
  | None => None
  end.

End H5.

(* ===================================================================== *)
(** * Part 2.  Python-level state and exceptions                           *)
(* ===================================================================== *)

Import H5.

Inductive Exn : Type :=
  | KeyError | ValueError | NameError | UnboundLocalError
  | TypeError | AttributeError | Exception.

Inductive Res (A : Type) : Type :=
  | Ok (a : A)
  | Raise (e : Exn).
Arguments Ok {A} a.
Arguments Raise {A} e.

(** The fields of an [Hdf5db] instance.  [dbGrp] is [None] until
    [initFile] assigns it; [uuid_clock] counts the identifiers that
    [uuid.uuid1()] has handed out. *)
Record Hdf5db : Type := mkDb {
  f : File;
  dbf : option File;
  readonly : bool;
  dbGrp : option HLObject;
  httpStatus : Z;
  httpMessage : option string;
  uuid_clock : N
}.

Definition set_f (x : File) (s : Hdf5db) : Hdf5db :=
  mkDb x (dbf s) (readonly s) (dbGrp s) (httpStatus s) (httpMessage s)
       (uuid_clock s).
Definition set_dbf (x : option File) (s : Hdf5db) : Hdf5db :=
  mkDb (f s) x (readonly s) (dbGrp s) (httpStatus s) (httpMessage s)
       (uuid_clock s).
Definition set_dbGrp (x : option HLObject) (s : Hdf5db) : Hdf5db :=
  mkDb (f s) (dbf s) (readonly s) x (httpStatus s) (httpMessage s)
       (uuid_clock s).
Definition set_http (c : Z) (m : option string) (s : Hdf5db) : Hdf5db :=
  mkDb (f s) (dbf s) (readonly s) (dbGrp s) c m (uuid_clock s).
Definition set_clock (n : N) (s : Hdf5db) : Hdf5db :=
  mkDb (f s) (dbf s) (readonly s) (dbGrp s) (httpStatus s) (httpMessage s) n.

(** A method body: it runs on the instance and either returns or raises;
    what it changed before raising stays changed. *)
Definition M (A : Type) : Type := Hdf5db → Res A * Hdf5db.

Definition ret {A} (a : A) : M A := λ s, (Ok a, s).
Definition bind {A B} (m : M A) (k : A → M B) : M B := λ s,
  match m s with
  | (Ok a, s') => k a s'
  | (Raise e, s') => (Raise e, s')
  end.

Declare Scope py_scope.
Delimit Scope py_scope with py.
Bind Scope py_scope with M.
Notation "x ← y ; z" := (bind y (λ x, z))
  (at level 20, y at level 100, z at level 200, only parsing) : py_scope.
Notation "y ;; z" := (bind y (λ _, z))
  (at level 100, z at level 200, only parsing, right associativity) : py_scope.
Local Open Scope py_scope.

Definition raise {A} (e : Exn) : M A := λ s, (Raise e, s).
Definition gets {A} (g : Hdf5db → A) : M A := λ s, (Ok (g s), s).
Definition modify (u : Hdf5db → Hdf5db) : M unit := λ s, (Ok tt, u s).

Definition lift_opt {A} (e : Exn) (o : option A) : M A :=
  match o with Some a => ret a | None => raise e end.

(** [for x in xs: body] *)
Fixpoint for_ {A} (xs : list A) (body : A → M unit) : M unit :=
  match xs with
  | [] => ret tt
  | x :: xs' => body x ;; for_ xs' body
  end.

(** ** The two containers

    Objects reached through [self.f] live in the source container.  The
    index ([self.dbGrp] and the collections below it) lives in [self.dbf]
    when the instance is read-only and in [self.f] otherwise. *)

Definition dbfile : M File := λ s,
  if readonly s then
    match dbf s with
    | Some d => (Ok d, s)
    | None => (Raise TypeError, s)
    end
  else (Ok (f s), s).

Definition put_dbfile (d : File) : M unit := λ s,
  if readonly s then (Ok tt, set_dbf (Some d) s) else (Ok tt, set_f d s).

Definition the_dbGrp : M HLObject := λ s,
  match dbGrp s with
  | Some g => (Ok g, s)
  | None => (Raise AttributeError, s)
  end.

Definition f_getitem (g : HLObject) (p : string) : M HLObject :=
  file ← gets f; lift_opt KeyError (getitem file g p).
Definition f_root : M HLObject := gets (λ s, root_group (f s)).
Definition f_contains (g : HLObject) (p : string) : M bool :=
  file ← gets f; ret (contains file g p).
Definition f_keys (g : HLObject) : M (list string) :=
  file ← gets f; lift_opt TypeError (keys file g).
(** [g.get(n, None, False, True)] for a member name: an instance of
    [HardLink], [SoftLink] or [ExternalLink], the default [None] when the
    name is not in the group, and [TypeError] for a link of any other
    class. *)
Definition f_getlink (g : HLObject) (n : string) : M (option LinkObj) :=
  file ← gets f;
  match getlink file g n with
  | Some OtherLink => raise TypeError
  | r => ret r
  end.
Definition f_delitem (g : HLObject) (n : string) : M unit :=
  file ← gets f; file' ← lift_opt KeyError (delitem file g n);
  modify (set_f file').
Definition f_setitem (g : HLObject) (n : string) (o : HLObject) : M unit :=
  file ← gets f; file' ← lift_opt ValueError (setitem file g n o);
  modify (set_f file').
Definition f_create_group (g : HLObject) (n : string) : M HLObject :=
  file ← gets f; r ← lift_opt ValueError (create_group file g n);
  modify (set_f r.2);; ret r.1.
Definition f_attr_len (o : HLObject) : M Z :=
  file ← gets f; ret (attr_len file o).

Definition db_getitem (g : HLObject) (p : string) : M HLObject :=
  file ← dbfile; lift_opt KeyError (getitem file g p).
Definition db_contains (g : HLObject) (p : string) : M bool :=
  file ← dbfile; ret (contains file g p).
Definition db_keys (g : HLObject) : M (list string) :=
  file ← dbfile; lift_opt TypeError (keys file g).
Definition db_create_group (g : HLObject) (n : string) : M HLObject :=
  file ← dbfile; r ← lift_opt ValueError (create_group file g n);
  put_dbfile r.2;; ret r.1.
Definition db_setitem (g : HLObject) (n : string) (o : HLObject) : M unit :=
  file ← dbfile; file' ← lift_opt ValueError (setitem file g n o);
  put_dbfile file'.
Definition db_delitem (g : HLObject) (n : string) : M unit :=
  file ← dbfile; file' ← lift_opt KeyError (delitem file g n);
  put_dbfile file'.
Definition db_attr_get (o : HLObject) (k : string) : M string :=
  file ← dbfile; lift_opt KeyError (attr_get file o k).
Definition db_attr_contains (o : HLObject) (k : string) : M bool :=
  file ← dbfile; ret (attr_contains file o k).
Definition db_attr_set (o : HLObject) (k v : string) : M unit :=
  file ← dbfile; file' ← lift_opt KeyError (attr_set file o k v);
  put_dbfile file'.
Definition db_attr_del (o : HLObject) (k : string) : M unit :=
  file ← dbfile; file' ← lift_opt KeyError (attr_del file o k);
  put_dbfile file'.
Definition db_len (g : HLObject) : M Z :=
  file ← dbfile; lift_opt TypeError (group_len file g).

Definition f_setitem_soft (g : HLObject) (n p : string) : M unit :=
  file ← gets f; file' ← lift_opt ValueError (setitem_soft file g n p);
  modify (set_f file').

(** [del g[n]] on an instance of either mode.  The source container of a
    read-only instance was opened with mode ['r']: the engine refuses the
    update, and h5py reports the refusal as it reports a missing link. *)
Definition f_delitem_mode (g : HLObject) (n : string) : M unit :=
  ro ← gets readonly;
  if ro then raise KeyError else f_delitem g n.

(** [self.dbGrp[n]] and [n in self.dbGrp] *)
Definition dbGrp_getitem (n : string) : M HLObject :=
  g ← the_dbGrp; db_getitem g n.
Definition dbGrp_contains (n : string) : M bool :=
  g ← the_dbGrp; db_contains g n.
Definition dbGrp_create_group (n : string) : M HLObject :=
  g ← the_dbGrp; db_create_group g n.

(** [str(addr)] of an integer address. *)
Definition str_addr (a : N) : string := pretty a.

(** Python values stored in an item descriptor. *)
Inductive PyVal : Type :=
  | VStr (s : string)
  | VInt (z : Z)
  | VNone.

(** A descriptor is a [dict] with string keys. *)
Definition Item : Type := list (string * PyVal).

Fixpoint dict_set (d : Item) (k : string) (v : PyVal) : Item :=
  match d with
  | [] => [(k, v)]
  | (k', v') :: d' =>
      if String.eqb k' k then (k, v) :: d' else (k', v') :: dict_set d' k v
  end.

Definition opt_val (o : option string) : PyVal :=
  match o with Some s => VStr s | None => VNone end.

(** Truth value of an optional string argument: [None] and [''] are
    false. *)
Definition truthy (o : option string) : bool :=
  match o with
  | Some s => negb (String.eqb s "")
  | None => false
  end.

(** [x != 'lit'] for an optional string. *)
Definition opt_neq (o : option string) (lit : string) : bool :=
  match o with
  | Some s => negb (String.eqb s lit)
  | None => true
  end.

(* ===================================================================== *)
(** * Part 3.  Sample containers                                           *)
(* ===================================================================== *)

Module Ex.

(** The session's identifiers and the traversal of the sample container. *)
Definition uuid_str (n : N) : string := "uuid-" +:+ pretty n.

Definition grp (l : LinkTable) : HObj := mkObj (Group l) ∅.

(** Root [/] with members [a] (a group holding [x]), [b] (a symbolic
    link), [c] (a dataset), [d] (a datatype) and [e] (a second hard link
    to [a]). *)
Definition file : File :=
  mkFile (list_to_map
    [(0%N, grp [("a", HardLink 1); ("b", SoftLink "/a"); ("c", HardLink 2);
                ("d", HardLink 3); ("e", HardLink 1)]);
     (1%N, grp [("x", HardLink 2)]);
     (2%N, mkObj Dataset ∅);
     (3%N, mkObj Datatype ∅)]) 0.

Definition visititems (_ : File) : list (string * HLObject) :=
  [("a", mkHL "Group" 1 "/a"); ("a/x", mkHL "Dataset" 2 "/a/x");
   ("d", mkHL "Datatype" 3 "/d")].

(** A writable instance just opened on [file]. *)
Definition db : Hdf5db := mkDb file None false None 0 None 100.

(** The same five members, with [c] an external link. *)
Definition file_ext : File :=
  mkFile (list_to_map
    [(0%N, grp [("a", HardLink 1); ("b", HardLink 1);
                ("c", ExternalLink "other.h5" "/data"); ("d", HardLink 1);
                ("e", HardLink 1)]);
     (1%N, grp [])]) 0.
Definition visititems_ext (_ : File) : list (string * HLObject) :=
  [("a", mkHL "Group" 1 "/a")].
Definition db_ext : Hdf5db := mkDb file_ext None false None 0 None 100.

(** A root whose only member is an external link. *)
Definition file_ext1 : File :=
  mkFile (list_to_map
    [(0%N, grp [("c", ExternalLink "other.h5" "/data")])]) 0.
Definition visititems_none (_ : File) : list (string * HLObject) := [].
Definition db_ext1 : Hdf5db := mkDb file_ext1 None false None 0 None 100.

(** A root with a dataset [a] and a member [z] whose link is of no known
    class. *)
Definition file_other : File :=
  mkFile (list_to_map
    [(0%N, grp [("a", HardLink 1); ("z", OtherLink)]);
     (1%N, mkObj Dataset ∅)]) 0.
Definition visititems_other (_ : File) : list (string * HLObject) :=
  [("a", mkHL "Dataset" 1 "/a")].
Definition db_other : Hdf5db := mkDb file_other None false None 0 None 100.

(** A writable container that already has a member [__db__], an empty
    group. *)
Definition file_partial : File :=
  mkFile (list_to_map
    [(0%N, grp [("a", HardLink 1); ("__db__", HardLink 2)]);
     (1%N, grp []);
     (2%N, grp [])]) 0.
Definition visititems_partial (_ : File) : list (string * HLObject) :=
  [("a", mkHL "Group" 1 "/a"); ("__db__", mkHL "Group" 2 "/__db__")].
Definition db_partial : Hdf5db := mkDb file_partial None false None 0 None 100.

(** A read-only instance on [file] whose shadow container was just
    created. *)
Definition shadow_empty : File := mkFile (list_to_map [(0%N, grp [])]) 0.
Definition db_ro : Hdf5db :=
  mkDb file (Some shadow_empty) true None 0 None 100.

(** A writable container whose root holds a symbolic link [s] that
    leads nowhere. *)
Definition file_dangling : File :=
  mkFile (list_to_map
    [(0%N, grp [("a", HardLink 1); ("s", SoftLink "/nowhere");
                ("c", HardLink 2)]);
     (1%N, grp []);
     (2%N, mkObj Dataset ∅)]) 0.
Definition visititems_dangling (_ : File) : list (string * HLObject) :=
  [("a", mkHL "Group" 1 "/a"); ("c", mkHL "Dataset" 2 "/c")].
Definition db_dangling : Hdf5db :=
  mkDb file_dangling None false None 0 None 100.

End Ex.

(* ===================================================================== *)
(** * Part 4.  The methods of [Hdf5db]                                     *)
(* ===================================================================== *)

Section Methods.

(** [str(uuid.uuid1())]: the text of the [n]-th identifier the generator
    hands out. *)
Variable uuid_str : N → string.

(** [file.visititems]: the (path, object) pairs the engine's recursive
    traversal reports for a container, in its order. *)
Variable h5_visititems : File → list (string * HLObject).

Definition uuid1 : M string := λ s,
  (Ok (uuid_str (uuid_clock s)), set_clock (N.succ (uuid_clock s)) s).

(** [len(path) >= 6 and path[:6] == '__db__'] *)
Definition under_db (path : string) : bool :=
  (6 <=? String.length path)%nat && String.eqb (substring 0 6 path) "__db__".

(** [Hdf5db.visit], lines 172-187: the object gets its identifier, its
    entry in the collection [col] (or in the path map) and its entry in
    the address map. *)
Definition visit_register (col obj : HLObject) : M unit :=
  id ← uuid1;
  addrGrp ← dbGrp_getitem "{addr}";
  ro ← gets readonly;
  (if negb ro then db_setitem col id obj
   else
     c ← dbGrp_contains "{paths}";
     if negb c then raise Exception
     else
       paths ← dbGrp_getitem "{paths}";
       db_attr_set paths id (o_name obj));;
  let addr := o_addr obj in
  db_attr_set addrGrp (str_addr addr) id.

(** [Hdf5db.visit], lines 155-187. *)
Definition visit (path : string) (obj : HLObject) : M unit :=
  let name := o_class obj in
  if under_db path then ret tt
  else if String.eqb name "Group" then
    col ← dbGrp_getitem "{groups}"; visit_register col obj
  else if String.eqb name "Dataset" then
    col ← dbGrp_getitem "{datasets}"; visit_register col obj
  else if String.eqb name "Datatype" then
    col ← dbGrp_getitem "{datatypes}"; visit_register col obj
  else
    modify (set_http 500 (Some "Unexpected error")).

(** The module-level callback [visitObj] finds the instance registered
    for the file and calls its [visit]. *)
Definition visitObj (po : string * HLObject) : M unit := visit po.1 po.2.

(** [Hdf5db.initFile], lines 145-151: the root identifier and the
    collections. *)
Definition initFile_collections : M unit :=
  u ← uuid1;
  g ← the_dbGrp;
  db_attr_set g "rootUUID" u;;
  dbGrp_create_group "{groups}";;
  dbGrp_create_group "{datasets}";;
  dbGrp_create_group "{datatypes}";;
  dbGrp_create_group "{addr}";;
  ro ← gets readonly;
  if ro then dbGrp_create_group "{paths}";; ret tt
  else ret tt.

(** [Hdf5db.initFile], line 153: [self.f.visititems(visitObj)]. *)
Definition initFile_traverse : M unit :=
  file ← gets f;
  for_ (h5_visititems file) visitObj.

(** [Hdf5db.initFile], lines 144-153: the part after the two
    already-initialized tests. *)
Definition initFile_create : M unit :=
  initFile_collections;; initFile_traverse.

(** [Hdf5db.initFile], lines 127-153. *)
Definition initFile : M unit :=
  modify (set_http 200 None);;
  ro ← gets readonly;
  if ro then
    modify (λ s, set_dbGrp (root_group <$> dbf s) s);;
    file ← dbfile;
    if contains file (root_group file) "{groups}" then ret tt
    else initFile_create
  else
    r ← f_root;
    c ← f_contains r "__db__";
    if c then
      g ← f_getitem r "__db__";
      modify (set_dbGrp (Some g))
    else
      g ← f_create_group r "__db__";
      modify (set_dbGrp (Some g));;
      initFile_create.

(** [Hdf5db.getUUIDByAddress], lines 189-197. *)
Definition getUUIDByAddress (addr : N) : M (option string) :=
  c ← dbGrp_contains "{addr}";
  if negb c then raise Exception
  else
    addrGrp ← dbGrp_getitem "{addr}";
    c ← db_attr_contains addrGrp (str_addr addr);
    if c then v ← db_attr_get addrGrp (str_addr addr); ret (Some v)
    else ret None.

(** [Hdf5db.getUUIDByPath], lines 199-211. *)
Definition getUUIDByPath (path : string) : M (option string) :=
  initFile;;
  if under_db path then raise Exception
  else if String.eqb path "/" then
    g ← the_dbGrp; v ← db_attr_get g "rootUUID"; ret (Some v)
  else
    r ← f_root;
    obj ← f_getitem r path;
    let addr := o_addr obj in
    getUUIDByAddress addr.

(** The tail shared by the two [get...ByUuid] methods. *)
Definition not_found_if_none (obj : option HLObject) : M (option HLObject) :=
  match obj with
  | None => modify (set_http 404 (Some "Resource not found"));; ret None
  | Some o => ret (Some o)
  end.

(** The read-only branch of the two [get...ByUuid] methods: the path
    recorded for the identifier, reopened and checked for its class. *)
Definition by_path (objUuid cls : string) : M (option HLObject) :=
  c ← dbGrp_contains "{paths}";
  if negb c then raise Exception
  else
    paths ← dbGrp_getitem "{paths}";
    c ← db_attr_contains paths objUuid;
    if c then
      path ← db_attr_get paths objUuid;
      r ← f_root;
      obj ← f_getitem r path;
      if negb (String.eqb (o_class obj) cls) then ret None
      else ret (Some obj)
    else ret None.

(** [Hdf5db.getDatasetByUuid], lines 219-241. *)
Definition getDatasetByUuid (objUuid : string) : M (option HLObject) :=
  initFile;;
  ro ← gets readonly;
  obj ← (if negb ro then
           datasets ← dbGrp_getitem "{datasets}";
           c ← db_contains datasets objUuid;
           if c then o ← db_getitem datasets objUuid; ret (Some o)
           else ret None
         else by_path objUuid "Dataset");
  not_found_if_none obj.

(** [Hdf5db.getGroupByUuid], lines 243-268. *)
Definition getGroupByUuid (objUuid : string) : M (option HLObject) :=
  initFile;;
  g ← the_dbGrp;
  rootUUID ← db_attr_get g "rootUUID";
  ro ← gets readonly;
  obj ← (if String.eqb objUuid rootUUID then
           r ← f_root; o ← f_getitem r "/"; ret (Some o)
         else if negb ro then
           groups ← dbGrp_getitem "{groups}";
           c ← db_contains groups objUuid;
           if c then o ← db_getitem groups objUuid; ret (Some o)
           else ret None
         else by_path objUuid "Group");
  not_found_if_none obj.

(** ** [getItems] *)

(** The local variables of [getItems] that live across iterations;
    [objClass] is [None] while the name is still unbound. *)
Record Locals : Type := mkLocals {
  items : list Item;
  gotMarker : bool;
  count : Z;
  objClass : option string
}.

Inductive Flow : Type :=
  | Continue (l : Locals)
  | Break (l : Locals).

(** [typeFilter] is bound nowhere: not in the function, not in the module,
    not among the builtins.  Evaluating it raises. *)
Definition typeFilter : M (option string) := raise NameError.

(** Lines 327-331: [items.append(item)], the counter and the limit. *)
Definition append_item (limit : Z) (item : Item) (l : Locals) : Flow :=
  let l' := mkLocals (items l ++ [item])%list (gotMarker l) (count l + 1)
                     (objClass l) in
  if (0 <? limit) && (count l' =? limit) then Break l' else Continue l'.

(** One pass through the loop body, lines 289-331. *)
Definition getItems_body (parent : HLObject) (classFilter marker : option string)
    (limit : Z) (k : string) (l : Locals) : M Flow :=
  if String.eqb k "__db__" then ret (Continue l)
  else if negb (gotMarker l) then
    if bool_decide (Some k = marker) then
      ret (Continue (mkLocals (items l) true (count l) (objClass l)))
    else ret (Continue l)
  else
    let item : Item := [("name", VStr k)] in
    linkObj ← f_getlink parent k;
    match linkObj with
    | Some (SoftLink path) =>
        if truthy classFilter && opt_neq classFilter "SoftLink"
        then ret (Continue l)
        else
          let item := dict_set item "class" (VStr "SoftLink") in
          let item := dict_set item "path" (VStr path) in
          ret (append_item limit item l)
    | Some (ExternalLink filename path) =>
        tf ← typeFilter;
        if truthy tf && opt_neq tf "ExternalLink"
        then ret (Continue l)
        else
          let item := dict_set item "class" (VStr "ExternalLink") in
          let item := dict_set item "path" (VStr path) in
          let item := dict_set item "filename" (VStr path) in
          ret (append_item limit item l)
    | Some (HardLink _) =>
        obj ← f_getitem parent k;
        let cls := o_class obj in
        let l := mkLocals (items l) (gotMarker l) (count l) (Some cls) in
        if truthy classFilter && negb (bool_decide (Some cls = classFilter))
        then ret (Continue l)
        else
          let addr := o_addr obj in
          let item := dict_set item "class" (VStr cls) in
          u ← getUUIDByAddress addr;
          let item := dict_set item "uuid" (opt_val u) in
          n ← f_attr_len obj;
          let item := dict_set item "attributeCount" (VInt n) in
          ret (append_item limit item l)
    | _ =>
        match objClass l with
        | None => raise UnboundLocalError
        | Some _ => ret (Continue l)
        end
    end.

(** [for k in parent: ...], with [continue] and [break]. *)
Fixpoint getItems_loop (parent : HLObject) (classFilter marker : option string)
    (limit : Z) (ks : list string) (l : Locals) : M Locals :=
  match ks with
  | [] => ret l
  | k :: ks' =>
      fl ← getItems_body parent classFilter marker limit k l;
      match fl with
      | Continue l' => getItems_loop parent classFilter marker limit ks' l'
      | Break l' => ret l'
      end
  end.

(** [Hdf5db.getItems], lines 270-332.  [None] is the absent result. *)
Definition getItems (grpUuid : string) (classFilter marker : option string)
    (limit : Z) : M (option (list Item)) :=
  initFile;;
  parent ← getGroupByUuid grpUuid;
  match parent with
  | None => ret None
  | Some parent =>
      let gotMarker := match marker with Some _ => false | None => true end in
      ks ← f_keys parent;
      l ← getItems_loop parent classFilter marker limit ks
            (mkLocals [] gotMarker 0 None);
      ret (Some (items l))
  end.

(** [Hdf5db.linkObject], lines 334-359. *)
Definition linkObject (parentUUID childUUID linkName : string) : M bool :=
  initFile;;
  ro ← gets readonly;
  if ro then
    modify (set_http 403 (Some "Updates are not allowed"));; ret false
  else
    parentObj ← getGroupByUuid parentUUID;
    match parentObj with
    | None =>
        modify (set_http 404 (Some "Parent Group not found"));; ret false
    | Some parentObj =>
        childObj ← getDatasetByUuid childUUID;
        childObj ← (match childObj with
                    | None => getGroupByUuid childUUID
                    | Some o => ret (Some o)
                    end);
        match childObj with
        | None =>
            modify (set_http 404 (Some "Child object not found"));; ret false
        | Some childObj =>
            c ← f_contains parentObj linkName;
            (if c then f_delitem parentObj linkName else ret tt);;
            f_setitem parentObj linkName childObj;;
            ret true
        end
    end.

(** [Hdf5db.unlinkObject], lines 393-403. *)
Definition unlinkObject (parentGrp tgtObj : HLObject) : M bool :=
  names ← f_keys parentGrp;
  for_ names (λ name,
    linkObj ← f_getlink parentGrp name;
    match linkObj with
    | Some (HardLink _) =>
        obj ← f_getitem parentGrp name;
        if obj_eq obj tgtObj then f_delitem_mode parentGrp name else ret tt
    | _ => ret tt
    end);;
  ret true.

(** [Hdf5db.deleteGroup], lines 433-443: the cascade that follows the
    three early returns. *)
Definition deleteGroup_cascade (objUuid : string) (tgtGrp : HLObject)
  : M unit :=
  r ← f_root;
  rootGrp ← f_getitem r "/";
  unlinkObject rootGrp tgtGrp;;
  groups ← dbGrp_getitem "{groups}";
  names ← db_keys groups;
  for_ names (λ uuidName,
    grp ← db_getitem groups uuidName;
    unlinkObject grp tgtGrp;; ret tt);;
  let addr := o_addr tgtGrp in
  addrGrp ← dbGrp_getitem "{addr}";
  db_attr_del addrGrp (str_addr addr);;
  db_delitem groups objUuid.

(** [Hdf5db.deleteGroup], lines 420-443.  The result is [Some false] for
    [False] and [None] where the method falls off its end. *)
Definition deleteGroup (objUuid : string) : M (option bool) :=
  initFile;;
  ro ← gets readonly;
  if ro then
    modify (set_http 403 (Some "Updates are not allowed"));;
    ret (Some false)
  else
    g ← the_dbGrp;
    rootUUID ← db_attr_get g "rootUUID";
    if String.eqb objUuid rootUUID then
      modify (set_http 403 (Some "Can't delete root group"));;
      ret (Some false)
    else
      tgtGrp ← getGroupByUuid objUuid;
      match tgtGrp with
      | None => ret (Some false)
      | Some tgtGrp => deleteGroup_cascade objUuid tgtGrp;; ret None
      end.

(** [Hdf5db.getObjByPath], lines 213-217. *)
Definition getObjByPath (path : string) : M (option HLObject) :=
  if under_db path then ret None
  else
    r ← f_root;
    obj ← f_getitem r path;
    ret (Some obj).

(** [Hdf5db.createSoftLink], lines 361-377. *)
Definition createSoftLink (parentUUID linkPath linkName : string) : M bool :=
  initFile;;
  ro ← gets readonly;
  if ro then
    modify (set_http 403 (Some "Updates are not allowed"));; ret false
  else
    parentObj ← getGroupByUuid parentUUID;
    match parentObj with
    | None =>
        modify (set_http 404 (Some "Parent Group not found"));; ret false
    | Some parentObj =>
        c ← f_contains parentObj linkName;
        (if c then f_delitem parentObj linkName else ret tt);;
        f_setitem_soft parentObj linkName linkPath;;
        ret true
    end.

(** [Hdf5db.unlinkItem], lines 379-391.  Only the status code is set on
    the failure path; the message is left as [getGroupByUuid] set it. *)
Definition unlinkItem (grpUuid linkName : string) : M bool :=
  grp ← getGroupByUuid grpUuid;
  match grp with
  | None => modify (λ s, set_http 404 (httpMessage s) s);; ret false
  | Some grp =>
      c ← f_contains grp linkName;
      if negb c then ret true
      else f_delitem_mode grp linkName;; ret true
  end.

(** [Hdf5db.createGroup], lines 405-418.  [None] is the result of the
    read-only branch. *)
Definition createGroup : M (option string) :=
  initFile;;
  ro ← gets readonly;
  if ro then
    modify (set_http 403 (Some "Updates are not allowed"));; ret None
  else
    groups ← dbGrp_getitem "{groups}";
    objUuid ← uuid1;
    newGroup ← db_create_group groups objUuid;
    let addr := o_addr newGroup in
    addrGrp ← dbGrp_getitem "{addr}";
    db_attr_set addrGrp (str_addr addr) objUuid;;
    ret (Some objUuid).

(** [Hdf5db.getNumberOfGroups], lines 445-448. *)
Definition getNumberOfGroups : M Z :=
  initFile;;
  groups ← dbGrp_getitem "{groups}";
  n ← db_len groups;
  ret (n + 1).

(** [Hdf5db.getNumberOfDatasets], lines 451-454. *)
Definition getNumberOfDatasets : M Z :=
  initFile;;
  datasets ← dbGrp_getitem "{datasets}";
  db_len datasets.

(** [Hdf5db.getNumberOfDatatypes], lines 456-459. *)
Definition getNumberOfDatatypes : M Z :=
  initFile;;
  datatypes ← dbGrp_getitem "{datatypes}";
  db_len datatypes.

(* ===================================================================== *)
(** * Part 5.  Vocabulary of the properties                                *)
(* ===================================================================== *)

(** Truth value of what [deleteGroup] returns. *)
Definition py_truth (v : option bool) : bool :=
  match v with Some b => b | None => false end.

(** The link a group at address [a] holds under the name [n], and the
    class of the object at [a]. *)
Definition link_at (F : File) (a : N) (n : string) : option LinkObj :=
  match links_of F a with Some l => assoc n l | None => None end.

Definition class_at (F : File) (a : N) : option string :=
  match objs F !! a with
  | Some o => Some (class_name (kind o))
  | None => None
  end.

(** [F'] has every object and every link of [F]: nothing was unlinked or
    retyped on the way from [F] to [F']. *)
Definition file_le (F F' : File) : Prop :=
  root F' = root F ∧
  (∀ a c, class_at F a = Some c → class_at F' a = Some c) ∧
  (∀ a n v, link_at F a n = Some v → link_at F' a n = Some v).

(** The container that holds the index, and its replacement. *)
Definition the_db (s : Hdf5db) : option File :=
  if readonly s then dbf s else Some (f s).

Definition with_db (D : File) (s : Hdf5db) : Hdf5db :=
  if readonly s then set_dbf (Some D) s else set_f D s.

(** From [s] to [s'] the index container was only extended, the instance
    kept its mode and its [dbGrp], and a read-only instance kept its
    source container as it was. *)
Definition st_le (s s' : Hdf5db) : Prop :=
  readonly s' = readonly s ∧ dbGrp s' = dbGrp s ∧
  (readonly s = true → f s' = f s) ∧
  (∀ D, the_db s = Some D → ∃ D', the_db s' = Some D' ∧ file_le D D').

Definition extends {A} (m : M A) : Prop := ∀ s, st_le s (m s).2.

(** The test of lines 133 and 138, on which [initFile] takes the index to
    be there: the member [{groups}] of the shadow container, the member
    [__db__] of a writable container. *)
Definition initialized (s : Hdf5db) : bool :=
  if readonly s then
    match dbf s with
    | Some D => contains D (root_group D) "{groups}"
    | None => false
    end
  else contains (f s) (root_group (f s)) "__db__".

(** Whether [visit] gives the object an identifier: it is not below
    [__db__] and is a group, a dataset or a datatype. *)
Definition registrable (po : string * HLObject) : bool :=
  negb (under_db po.1) &&
  (String.eqb (o_class po.2) "Group" || String.eqb (o_class po.2) "Dataset"
   || String.eqb (o_class po.2) "Datatype").

(** The (address, identifier) pairs a traversal hands out, in order, when
    the generator stands at [c]. *)
Fixpoint assigned (c : N) (tr : list (string * HLObject)) : list (N * string) :=
  match tr with
  | [] => []
  | po :: tr' =>
      if registrable po then (o_addr po.2, uuid_str c) :: assigned (N.succ c) tr'
      else assigned c tr'
  end.

(** The address map after these pairs were written into [m] one by one. *)
Definition record_all (m : gmap string string) (l : list (N * string))
  : gmap string string :=
  foldl (λ m au, <[str_addr au.1 := au.2]> m) m l.

(** The handles of the index: [dbGrp] and the collections below it. *)
Record IndexHandles : Type := mkIx {
  ix_db : HLObject;
  ix_groups : HLObject;
  ix_datasets : HLObject;
  ix_datatypes : HLObject;
  ix_addr : HLObject;
  ix_paths : option HLObject
}.

(** The index as [initFile] lays it out in the container [D]: the
    collections are members of [dbGrp], the address map is an object of
    its own, and so is the path map of a read-only instance. *)
Definition laid_out (ro : bool) (D : File) (ix : IndexHandles) : Prop :=
  getitem D (ix_db ix) "{groups}" = Some (ix_groups ix) ∧
  getitem D (ix_db ix) "{datasets}" = Some (ix_datasets ix) ∧
  getitem D (ix_db ix) "{datatypes}" = Some (ix_datatypes ix) ∧
  getitem D (ix_db ix) "{addr}" = Some (ix_addr ix) ∧
  o_addr (ix_addr ix) ≠ o_addr (ix_db ix) ∧
  (ro = true →
   ∃ hpa, ix_paths ix = Some hpa ∧
     getitem D (ix_db ix) "{paths}" = Some hpa ∧
     o_addr hpa ≠ o_addr (ix_addr ix) ∧ o_addr hpa ≠ o_addr (ix_db ix)).

(** The state of a traversal under way over the index laid out in [Dc]:
    the index container extends [Dc], the address map holds [m], the
    generator stands at [c], and the attributes of [dbGrp] are those of
    [Dc]. *)
Definition traversing (Dc : File) (ix : IndexHandles) (s : Hdf5db)
    (m : gmap string string) (c : N) : Prop :=
  ∃ D, the_db s = Some D ∧ file_le Dc D ∧
       dbGrp s = Some (ix_db ix) ∧ uuid_clock s = c ∧
       attrs_of D (o_addr (ix_addr ix)) = Some m ∧
       attrs_of D (o_addr (ix_db ix)) = attrs_of Dc (o_addr (ix_db ix)).

(** ** Vocabulary of the cascade *)

(** A hard link to the object at [a]. *)
Definition is_hard (a : N) (v : LinkObj) : bool :=
  match v with HardLink b => N.eqb b a | _ => false end.

(** The container after every hard link to [a] was taken out of the
    group at [p]. *)
Definition unlink_all (F : File) (p a : N) : File :=
  match links_of F p with
  | Some l => set_links F p (filter (λ e, is_hard a e.2 = false) l)
  | None => F
  end.

(** What the engine guarantees of a link table that h5py wrote: member
    names are single path components, no name occurs twice, hard links
    lead to objects, and every link is a hard, a symbolic or an external
    link. *)
Definition entry_ok (F : File) (e : string * LinkObj) : bool :=
  simple_name e.1 &&
  match e.2 with
  | HardLink b => bool_decide (is_Some (objs F !! b))
  | SoftLink _ | ExternalLink _ _ => true
  | OtherLink => false
  end.

Definition table_ok (F : File) (l : LinkTable) : bool :=
  bool_decide (NoDup (map fst l)) && forallb (entry_ok F) l.





(** ** Vocabulary of the listing *)

(** [d[k]] on a descriptor. *)
Fixpoint dict_get (d : Item) (k : string) : option PyVal :=
  match d with
  | [] => None
  | (k', v) :: d' => if String.eqb k' k then Some v else dict_get d' k
  end.

Definition flow_locals (fl : Flow) : Locals :=
  match fl with Continue l => l | Break l => l end.

(** The member names a listing gets to describe: those after the marker
    (all of them once the marker was seen or when there is none), the
    name [__db__] left out. *)
Fixpoint window (marker : option string) (got : bool) (ks : list string)
  : list string :=
  match ks with
  | [] => []
  | k :: ks' =>
      if String.eqb k "__db__" then window marker got ks'
      else if got then k :: window marker true ks'
      else window marker (bool_decide (Some k = marker)) ks'
  end.

(** Members whose link is a hard link or a symbolic link. *)
Definition listed (F : File) (parent : HLObject) (k : string) : bool :=
  match getlink F parent k with
  | Some (HardLink _) | Some (SoftLink _) => true
  | _ => false
  end.

(** The first [limit] entries, all of them when [limit] is not
    positive; [n] entries are already taken. *)
Definition page (limit n : Z) (ks : list string) : list string :=
  if 0 <? limit then take (Z.to_nat (limit - n)) ks else ks.

(** A descriptor as the loop builds it: it has a name other than
    [__db__] and a class, the class the filter asks for when there is
    one. *)
Definition item_ok (classFilter : option string) (it : Item) : Prop :=
  ∃ k cls, dict_get it "name" = Some (VStr k) ∧ k ≠ "__db__" ∧
    dict_get it "class" = Some (VStr cls) ∧
    (truthy classFilter = true → classFilter = Some cls).

(** ** Vocabulary of the read-only mode *)

(** On a read-only instance the computation leaves the source container
    and the mode as they were, also when it raises. *)
Definition ro_safe {A} (m : M A) : Prop :=
  ∀ s, readonly s = true → f (m s).2 = f s ∧ readonly (m s).2 = true.

(** ** Vocabulary of the link updates *)

(** From [F] to [F'] nothing changed but what the group at [p] holds
    under the name [n]: every other link, every attribute, every class
    and the root are as they were. *)
Definition same_but (F F' : File) (p : N) (n : string) : Prop :=
  (∀ k, k ≠ n → link_at F' p k = link_at F p k) ∧
  (∀ a, a ≠ p → links_of F' a = links_of F a) ∧
  (∀ a, attrs_of F' a = attrs_of F a) ∧
  (∀ a, class_at F' a = class_at F a) ∧
  root F' = root F.




(** The collection [visit] files an object of class [cls] in. *)
Definition coll (ix : IndexHandles) (cls : string) : HLObject :=
  if String.eqb cls "Group" then ix_groups ix
  else if String.eqb cls "Dataset" then ix_datasets ix
  else ix_datatypes ix.

(* ===================================================================== *)
(** * Part 6.  Properties                                                  *)
(* ===================================================================== *)

(** ** Running a method body *)

Lemma bind_ok {A B} (m : M A) (k : A → M B) s a s' :
  m s = (Ok a, s') → bind m k s = k a s'.
Proof. unfold bind. intros ->. reflexivity. Qed.

Lemma bind_raise {A B} (m : M A) (k : A → M B) s e s' :
  m s = (Raise e, s') → bind m k s = (Raise e, s').
Proof. unfold bind. intros ->. reflexivity. Qed.

Lemma bind_inv_ok {A B} (m : M A) (k : A → M B) s b s2 :
  bind m k s = (Ok b, s2) →
  ∃ a s1, m s = (Ok a, s1) ∧ k a s1 = (Ok b, s2).
Proof.
  unfold bind. destruct (m s) as [[a|e] s1]; intros H.
  - eauto.
  - discriminate.
Qed.

(** ** The engine model: paths *)

Lemma walk_nil k F cur :
  walk k F cur [] = match objs F !! cur with Some _ => Some cur | None => None end.
Proof. destruct k; reflexivity. Qed.

Lemma walk_cons k F cur c rest :
  walk k F cur (c :: rest) =
  match link_at F cur c with
  | Some (HardLink a) => walk k F a rest
  | Some (SoftLink p) =>
      match k with
      | O => None
      | S n =>
          match walk n F (if absolute p then root F else cur) (path_parts p) with
          | Some a => walk k F a rest
          | None => None
          end
      end
  | _ => None
  end.
Proof. unfold link_at. destruct k; cbn; destruct (links_of F cur); reflexivity. Qed.

Lemma class_at_Some F a c :
  class_at F a = Some c ↔ ∃ o, objs F !! a = Some o ∧ class_name (kind o) = c.
Proof.
  unfold class_at. destruct (objs F !! a) as [o|]; split.
  - intros [= <-]. eauto.
  - intros (o' & [= <-] & <-). reflexivity.
  - discriminate.
  - intros (o' & [=] & _).
Qed.

Lemma file_le_refl F : file_le F F.
Proof. repeat split; auto. Qed.

Lemma file_le_trans F1 F2 F3 : file_le F1 F2 → file_le F2 F3 → file_le F1 F3.
Proof.
  intros (Hr & Hc & Hl) (Hr' & Hc' & Hl'). repeat split.
  - congruence.
  - eauto.
  - eauto.
Qed.

Lemma walk_mono k F F' cur parts b :
  file_le F F' → walk k F cur parts = Some b → walk k F' cur parts = Some b.
Proof.
  intros (Hr & Hc & Hl). revert cur parts b.
  induction k as [|k IHk]; intros cur parts; revert cur;
    induction parts as [|c rest IH]; intros cur b; rewrite ?walk_nil, ?walk_cons.
  - pose proof (Hc cur) as Hcc. unfold class_at in Hcc.
    destruct (objs F !! cur); [|discriminate].
    specialize (Hcc _ eq_refl). destruct (objs F' !! cur); [auto|discriminate].
  - destruct (link_at F cur c) as [v|] eqn:E; [|discriminate].
    rewrite (Hl _ _ _ E). destruct v; auto.
  - pose proof (Hc cur) as Hcc. unfold class_at in Hcc.
    destruct (objs F !! cur); [|discriminate].
    specialize (Hcc _ eq_refl). destruct (objs F' !! cur); [auto|discriminate].
  - destruct (link_at F cur c) as [v|] eqn:E; [|discriminate].
    rewrite (Hl _ _ _ E). destruct v; auto.
    rewrite Hr.
    destruct (walk k F (if absolute path then root F else cur) (path_parts path))
      as [a|] eqn:Ew; [|discriminate].
    rewrite (IHk _ _ _ Ew). auto.
Qed.

Lemma handle_class F a name :
  handle F a name = (λ c, mkHL c a name) <$> class_at F a.
Proof. unfold handle, class_at. destruct (objs F !! a); reflexivity. Qed.

Lemma getitem_mono F F' g p h :
  file_le F F' → getitem F g p = Some h → getitem F' g p = Some h.
Proof.
  intros Hle. pose proof Hle as (Hr & Hc & _). unfold getitem.
  destruct (String.eqb p ""); [discriminate|].
  destruct (walk nlinks_max F _ _) as [a|] eqn:Ew; [|discriminate].
  rewrite Hr, (walk_mono _ _ _ _ _ _ Hle Ew), !handle_class.
  destruct (class_at F a) as [c|] eqn:Ec; [|discriminate].
  rewrite (Hc _ _ Ec). auto.
Qed.

Lemma links_of_class F b l : links_of F b = Some l → class_at F b = Some "Group".
Proof.
  unfold links_of, class_at. destruct (objs F !! b) as [[k m]|]; [|discriminate].
  destruct k; try discriminate. reflexivity.
Qed.

Lemma class_links_of F b : class_at F b = Some "Group" → is_Some (links_of F b).
Proof.
  unfold links_of, class_at. destruct (objs F !! b) as [[k m]|]; [|discriminate].
  destruct k; try discriminate. eauto.
Qed.

Lemma path_valid_mono F F' cur parts :
  file_le F F' → path_valid F cur parts = true → path_valid F' cur parts = true.
Proof.
  intros Hle. pose proof Hle as (Hr & Hc & Hl). revert cur.
  induction parts as [|c rest IH]; intros cur; [reflexivity|].
  cbn [path_valid]. destruct (String.eqb c "."); [apply IH|].
  destruct (links_of F cur) as [l|] eqn:El; [|discriminate].
  destruct (assoc c l) as [v|] eqn:Ea; [|discriminate].
  assert (Hv : link_at F' cur c = Some v).
  { apply Hl. unfold link_at. rewrite El. exact Ea. }
  unfold link_at in Hv. destruct (links_of F' cur) as [l'|]; [|discriminate].
  rewrite Hv. destruct rest as [|c' rest']; [reflexivity|].
  destruct (walk nlinks_max F cur [c]) as [a|] eqn:Ew; [|discriminate].
  rewrite (walk_mono _ _ _ _ _ _ Hle Ew).
  destruct (links_of F a) as [la|] eqn:Ela; [|discriminate].
  destruct (class_links_of F' a) as [la' ->]; [|apply IH].
  eauto using links_of_class.
Qed.

Lemma contains_mono F F' g p :
  file_le F F' → contains F g p = true → contains F' g p = true.
Proof.
  unfold contains. intros Hle. destruct (String.eqb p ""); [discriminate|].
  rewrite (proj1 Hle). now apply path_valid_mono.
Qed.

(** ** The engine model: updates *)

Lemma links_of_set_links F a l b :
  is_Some (objs F !! a) →
  links_of (set_links F a l) b = if decide (b = a) then Some l else links_of F b.
Proof.
  intros [o Ho]. unfold set_links, links_of. rewrite Ho. cbn.
  destruct (decide (b = a)) as [->|Hne].
  - rewrite lookup_insert_eq. reflexivity.
  - rewrite lookup_insert_ne by congruence. reflexivity.
Qed.

Lemma attrs_of_set_links F a l b :
  links_of F a ≠ None → attrs_of (set_links F a l) b = attrs_of F b.
Proof.
  unfold set_links, links_of, attrs_of. intros H.
  destruct (objs F !! a) as [o|] eqn:Ho; [|done]. cbn.
  destruct (decide (b = a)) as [->|Hne].
  - rewrite lookup_insert_eq, Ho. reflexivity.
  - rewrite lookup_insert_ne by congruence. reflexivity.
Qed.

Lemma class_at_set_links F a l b :
  links_of F a ≠ None → class_at (set_links F a l) b = class_at F b.
Proof.
  unfold set_links, links_of, class_at. intros H.
  destruct (objs F !! a) as [[k m]|] eqn:Ho; [|done]. cbn.
  destruct (decide (b = a)) as [->|Hne].
  - rewrite lookup_insert_eq, Ho. destruct k; done.
  - rewrite lookup_insert_ne by congruence. reflexivity.
Qed.

Lemma root_set_links F a l : root (set_links F a l) = root F.
Proof. unfold set_links. destruct (objs F !! a); reflexivity. Qed.

Lemma links_of_set_attrs F a m b : links_of (set_attrs F a m) b = links_of F b.
Proof.
  unfold set_attrs, links_of. destruct (objs F !! a) as [o|] eqn:Ho; [|done].
  cbn. destruct (decide (b = a)) as [->|Hne].
  - rewrite lookup_insert_eq, Ho. destruct o; reflexivity.
  - rewrite lookup_insert_ne by congruence. reflexivity.
Qed.

Lemma class_at_set_attrs F a m b : class_at (set_attrs F a m) b = class_at F b.
Proof.
  unfold set_attrs, class_at. destruct (objs F !! a) as [o|] eqn:Ho; [|done].
  cbn. destruct (decide (b = a)) as [->|Hne].
  - rewrite lookup_insert_eq, Ho. reflexivity.
  - rewrite lookup_insert_ne by congruence. reflexivity.
Qed.

Lemma attrs_of_set_attrs F a m b :
  is_Some (objs F !! a) →
  attrs_of (set_attrs F a m) b = if decide (b = a) then Some m else attrs_of F b.
Proof.
  intros [o Ho]. unfold set_attrs, attrs_of. rewrite Ho. cbn.
  destruct (decide (b = a)) as [->|Hne].
  - rewrite lookup_insert_eq. reflexivity.
  - rewrite lookup_insert_ne by congruence. reflexivity.
Qed.

Lemma root_set_attrs F a m : root (set_attrs F a m) = root F.
Proof. unfold set_attrs. destruct (objs F !! a); reflexivity. Qed.

Lemma link_at_set_attrs F a m b n : link_at (set_attrs F a m) b n = link_at F b n.
Proof. unfold link_at. rewrite links_of_set_attrs. reflexivity. Qed.

Lemma links_of_Some_obj F a l : links_of F a = Some l → is_Some (objs F !! a).
Proof. unfold links_of. destruct (objs F !! a); [eauto|discriminate]. Qed.

Lemma attrs_of_Some_obj F a m : attrs_of F a = Some m → is_Some (objs F !! a).
Proof. unfold attrs_of. destruct (objs F !! a); [eauto|discriminate]. Qed.

Lemma assoc_app_Some n l l' v :
  assoc n l = Some v → assoc n (l ++ l')%list = Some v.
Proof.
  induction l as [|[k x] l IH]; cbn; [discriminate|].
  destruct (String.eqb k n); auto.
Qed.

Lemma assoc_app_None n l l' :
  assoc n l = None → assoc n (l ++ l')%list = assoc n l'.
Proof.
  induction l as [|[k x] l IH]; cbn; [reflexivity|].
  destruct (String.eqb k n); [discriminate|auto].
Qed.

Lemma assoc_add_link_ne k n v l :
  k ≠ n → assoc k (add_link n v l) = assoc k l.
Proof.
  intros Hk.
  assert (E : String.eqb n k = false) by (apply String.eqb_neq; congruence).
  induction l as [|[k' w] l IH]; cbn [add_link assoc]; [now rewrite E|].
  destruct (String.ltb n k'); cbn [assoc]; [now rewrite E|].
  now rewrite IH.
Qed.

Lemma assoc_add_link_eq n v l :
  assoc n l = None → assoc n (add_link n v l) = Some v.
Proof.
  induction l as [|[k w] l IH]; cbn [add_link assoc]; intros H.
  - now rewrite String.eqb_refl.
  - destruct (String.eqb k n) eqn:E; [discriminate|].
    destruct (String.ltb n k); cbn [assoc].
    + now rewrite String.eqb_refl.
    + rewrite E. auto.
Qed.

Lemma length_add_link n v l : length (add_link n v l) = S (length l).
Proof.
  induction l as [|[k w] l IH]; cbn [add_link length]; [reflexivity|].
  destruct (String.ltb n k); cbn [length]; [reflexivity|]. now rewrite IH.
Qed.

(** A link under a free name is an extension of the container. *)
Lemma file_le_add_link F a l n v :
  links_of F a = Some l → assoc n l = None →
  file_le F (set_links F a (add_link n v l)).
Proof.
  intros Hl Hfree. assert (Hn : links_of F a ≠ None) by congruence.
  repeat split.
  - apply root_set_links.
  - intros b c. now rewrite class_at_set_links.
  - intros b k x. unfold link_at.
    rewrite links_of_set_links by eauto using links_of_Some_obj.
    destruct (decide (b = a)) as [->|]; [|done].
    rewrite Hl. intros Hk. rewrite assoc_add_link_ne; [exact Hk|].
    intros ->. congruence.
Qed.

Lemma file_le_set_attrs F a m : file_le F (set_attrs F a m).
Proof.
  repeat split.
  - apply root_set_attrs.
  - intros b c. now rewrite class_at_set_attrs.
  - intros b k x. now rewrite link_at_set_attrs.
Qed.

Lemma file_le_setitem F g n o F' : setitem F g n o = Some F' → file_le F F'.
Proof.
  unfold setitem. destruct (links_of F (o_addr g)) as [l|] eqn:Hl; [|discriminate].
  destruct (objs F !! o_addr o); [|discriminate].
  destruct (assoc n l) eqn:Ha; [discriminate|].
  destruct (simple_name n); [|discriminate].
  intros [= <-]. now apply file_le_add_link.
Qed.

Lemma file_le_attr_set F o k v F' : attr_set F o k v = Some F' → file_le F F'.
Proof.
  unfold attr_set. destruct (attrs_of F (o_addr o)); [|discriminate].
  intros [= <-]. apply file_le_set_attrs.
Qed.

Lemma new_addr_fresh F : objs F !! new_addr F = None.
Proof. apply not_elem_of_dom. unfold new_addr. apply is_fresh. Qed.

Lemma file_le_new_obj F o :
  file_le F (mkFile (<[new_addr F := o]> (objs F)) (root F)).
Proof.
  pose proof (new_addr_fresh F) as Hf.
  assert (Hlk : ∀ b x, objs F !! b = Some x →
            <[new_addr F := o]> (objs F) !! b = Some x).
  { intros b x Hb. rewrite lookup_insert_ne; [done|]. intros E. rewrite E in Hf. congruence. }
  repeat split.
  - intros b c. unfold class_at. cbn.
    destruct (objs F !! b) as [x|] eqn:Hb; [|discriminate].
    rewrite (Hlk _ _ Hb). done.
  - intros b k x. unfold link_at, links_of. cbn.
    destruct (objs F !! b) as [y|] eqn:Hb; [|discriminate].
    rewrite (Hlk _ _ Hb). done.
Qed.

Lemma file_le_create_group F g n h F' :
  create_group F g n = Some (h, F') → file_le F F'.
Proof.
  unfold create_group.
  destruct (links_of F (o_addr g)) as [l|] eqn:Hl; [|discriminate].
  destruct (assoc n l) eqn:Ha; [discriminate|].
  destruct (simple_name n); [|discriminate].
  intros [= <- <-].
  eapply file_le_trans;
    [apply (file_le_add_link _ _ _ n (HardLink (new_addr F)) Hl Ha)|].
  set (F1 := set_links F _ _).
  assert (new_addr F1 = new_addr F) as <-.
  { unfold new_addr, F1, set_links.
    destruct (objs F !! o_addr g) as [x|] eqn:Hx; [|done]. cbn.
    f_equal. apply dom_insert_lookup_L. eauto. }
  apply file_le_new_obj.
Qed.

(** ** Listing with a marker that never shows up *)

Lemma getItems_loop_marker_absent parent classFilter m limit ks l s :
  gotMarker l = false → m ∉ ks →
  getItems_loop parent classFilter (Some m) limit ks l s = (Ok l, s).
Proof.
  revert l. induction ks as [|k ks IH]; intros l Hg Hm; [reflexivity|].
  apply not_elem_of_cons in Hm as [Hk Hks].
  cbn [getItems_loop]. unfold bind, getItems_body.
  destruct (String.eqb k "__db__"); [now apply IH|].
  rewrite Hg. cbn [negb].
  rewrite bool_decide_eq_false_2 by congruence.
  now apply IH.
Qed.

(** C9. For a group that [getGroupByUuid] resolves and a marker that is
    the name of none of its members, [getItems] returns the empty list:
    neither an exception nor the absent result [None]. *)
Theorem getItems_marker_absent grpUuid classFilter m limit s s0 s1 parent names :
  initFile s = (Ok tt, s0) →
  getGroupByUuid grpUuid s0 = (Ok (Some parent), s1) →
  keys (f s1) parent = Some names →
  m ∉ names →
  getItems grpUuid classFilter (Some m) limit s = (Ok (Some []), s1).
Proof.
  intros Hi Hg Hk Hm. unfold getItems.
  rewrite (bind_ok _ _ _ _ _ Hi), (bind_ok _ _ _ _ _ Hg).
  unfold f_keys, gets, lift_opt, bind. rewrite Hk. unfold ret.
  rewrite getItems_loop_marker_absent by done. reflexivity.
Qed.

(** ** Members the loop body cannot describe *)

Lemma getItems_body_external parent classFilter marker limit k l s fn p :
  k ≠ "__db__" → gotMarker l = true →
  getlink (f s) parent k = Some (ExternalLink fn p) →
  getItems_body parent classFilter marker limit k l s = (Raise NameError, s).
Proof.
  intros Hk Hg Hl. unfold getItems_body.
  rewrite (proj2 (String.eqb_neq _ _) Hk), Hg. cbn [negb].
  cbv [bind f_getlink gets ret]. rewrite Hl. reflexivity.
Qed.

(** A member whose link is of no known class stops the loop at line 299,
    whatever the loop has seen before. *)
Lemma getItems_body_other parent classFilter marker limit k l s :
  k ≠ "__db__" → gotMarker l = true →
  getlink (f s) parent k = Some OtherLink →
  getItems_body parent classFilter marker limit k l s = (Raise TypeError, s).
Proof.
  intros Hk Hg Hl. unfold getItems_body.
  rewrite (proj2 (String.eqb_neq _ _) Hk), Hg. cbn [negb].
  cbv [bind f_getlink gets ret raise]. rewrite Hl. reflexivity.
Qed.

(** ** Paths that lead nowhere *)

(** C4 (as the code has it). For a path other than [/], not below
    [__db__], that the engine cannot resolve, [getUUIDByPath] lets the
    engine's [KeyError] escape: the caller gets an exception, not an
    absent result. *)
Theorem getUUIDByPath_unresolved_raises path s s1 :
  initFile s = (Ok tt, s1) →
  under_db path = false →
  path ≠ "/" →
  getitem (f s1) (root_group (f s1)) path = None →
  getUUIDByPath path s = (Raise KeyError, s1).
Proof.
  intros Hi Hu Hp Hr. unfold getUUIDByPath.
  rewrite (bind_ok _ _ _ _ _ Hi), Hu, (proj2 (String.eqb_neq _ _) Hp).
  cbv [bind f_root f_getitem gets lift_opt]. rewrite Hr. reflexivity.
Qed.

(** ** What [deleteGroup] returns *)

(** C10. [deleteGroup] returns [None] where it succeeds and [False] on
    each failure path (read-only instance, root group, group not found):
    whenever it returns, the value is false in a truth test, so the result
    alone does not tell success from failure. *)
Theorem deleteGroup_result_falsy objUuid s :
  (∀ v s', deleteGroup objUuid s = (Ok v, s') → py_truth v = false) ∧
  (∀ s1, initFile s = (Ok tt, s1) → readonly s1 = true →
     deleteGroup objUuid s
     = (Ok (Some false), set_http 403 (Some "Updates are not allowed") s1)) ∧
  (∀ s1 g, initFile s = (Ok tt, s1) → readonly s1 = false →
     dbGrp s1 = Some g → attr_get (f s1) g "rootUUID" = Some objUuid →
     deleteGroup objUuid s
     = (Ok (Some false), set_http 403 (Some "Can't delete root group") s1)) ∧
  (∀ s1 g r s2, initFile s = (Ok tt, s1) → readonly s1 = false →
     dbGrp s1 = Some g → attr_get (f s1) g "rootUUID" = Some r →
     objUuid ≠ r →
     getGroupByUuid objUuid s1 = (Ok None, s2) →
     deleteGroup objUuid s = (Ok (Some false), s2)) ∧
  (∀ s1 g r t s2 s3, initFile s = (Ok tt, s1) → readonly s1 = false →
     dbGrp s1 = Some g → attr_get (f s1) g "rootUUID" = Some r →
     objUuid ≠ r →
     getGroupByUuid objUuid s1 = (Ok (Some t), s2) →
     deleteGroup_cascade objUuid t s2 = (Ok tt, s3) →
     deleteGroup objUuid s = (Ok None, s3)).
Proof.
  unfold deleteGroup. split; [|split; [|split; [|split]]].
  - intros v s'. unfold bind at 1.
    destruct (initFile s) as [[[]|e] s1]; [|discriminate].
    cbv [bind gets modify ret the_dbGrp db_attr_get dbfile lift_opt].
    repeat case_match; intros; simplify_eq; reflexivity.
  - intros s1 Hi Hr. rewrite (bind_ok _ _ _ _ _ Hi).
    cbv [bind gets modify ret]. rewrite Hr. reflexivity.
  - intros s1 g Hi Hr Hg Ha. rewrite (bind_ok _ _ _ _ _ Hi).
    cbv [bind gets modify ret the_dbGrp db_attr_get dbfile lift_opt].
    rewrite Hr; cbv beta iota. rewrite Hg; cbv beta iota.
    rewrite Hr; cbv beta iota. rewrite Ha, String.eqb_refl. reflexivity.
  - intros s1 g r s2 Hi Hr Hg Ha Hne Hq. rewrite (bind_ok _ _ _ _ _ Hi).
    cbv [bind gets modify ret the_dbGrp db_attr_get dbfile lift_opt].
    rewrite Hr; cbv beta iota. rewrite Hg; cbv beta iota.
    rewrite Hr; cbv beta iota. rewrite Ha; cbv beta iota.
    rewrite (proj2 (String.eqb_neq _ _) Hne), Hq. reflexivity.
  - intros s1 g r t s2 s3 Hi Hr Hg Ha Hne Hq Hc. rewrite (bind_ok _ _ _ _ _ Hi).
    cbv [bind gets modify ret the_dbGrp db_attr_get dbfile lift_opt].
    rewrite Hr; cbv beta iota. rewrite Hg; cbv beta iota.
    rewrite Hr; cbv beta iota. rewrite Ha; cbv beta iota.
    rewrite (proj2 (String.eqb_neq _ _) Hne), Hq, Hc. reflexivity.
Qed.

(** ** Extensions of the index *)

Lemma st_le_refl s : st_le s s.
Proof.
  repeat split; auto. intros D HD. exists D. auto using file_le_refl.
Qed.

Lemma st_le_trans s1 s2 s3 : st_le s1 s2 → st_le s2 s3 → st_le s1 s3.
Proof.
  intros (Hr & Hg & Hf & Hd) (Hr' & Hg' & Hf' & Hd'). repeat split.
  - congruence.
  - congruence.
  - intros H. rewrite Hf' by congruence. auto.
  - intros D HD. destruct (Hd _ HD) as (D' & HD' & Hle).
    destruct (Hd' _ HD') as (D'' & HD'' & Hle').
    exists D''. eauto using file_le_trans.
Qed.

Lemma extends_ret {A} (a : A) : extends (ret a).
Proof. intros s. apply st_le_refl. Qed.

Lemma extends_raise {A} e : extends (@raise A e).
Proof. intros s. apply st_le_refl. Qed.

Lemma extends_gets {A} (g : Hdf5db → A) : extends (gets g).
Proof. intros s. apply st_le_refl. Qed.

Lemma extends_lift_opt {A} e (o : option A) : extends (lift_opt e o).
Proof. destruct o; [apply extends_ret|apply extends_raise]. Qed.

Lemma extends_bind {A B} (m : M A) (k : A → M B) :
  extends m → (∀ a, extends (k a)) → extends (bind m k).
Proof.
  intros Hm Hk s. unfold bind. specialize (Hm s).
  destruct (m s) as [[a|e] s1]; [|exact Hm].
  eapply st_le_trans; [exact Hm|apply Hk].
Qed.

Lemma extends_for {A} (xs : list A) (body : A → M unit) :
  (∀ x, extends (body x)) → extends (for_ xs body).
Proof.
  intros Hb. induction xs as [|x xs IH]; cbn [for_].
  - apply extends_ret.
  - apply extends_bind; auto.
Qed.

Lemma extends_set_http c m : extends (modify (set_http c m)).
Proof. intros s. repeat split; auto. intros D HD. exists D. auto using file_le_refl. Qed.

Lemma extends_uuid1 : extends uuid1.
Proof. intros s. repeat split; auto. intros D HD. exists D. auto using file_le_refl. Qed.

Lemma extends_dbfile : extends dbfile.
Proof.
  intros s. unfold dbfile. destruct (readonly s); [destruct (dbf s)|];
    apply st_le_refl.
Qed.

Lemma extends_the_dbGrp : extends the_dbGrp.
Proof. intros s. unfold the_dbGrp. destruct (dbGrp s); apply st_le_refl. Qed.

Lemma the_db_with_db D s : the_db (with_db D s) = Some D.
Proof. unfold the_db, with_db. destruct (readonly s) eqn:E; cbn; rewrite ?E; done. Qed.

Lemma put_dbfile_run D s : put_dbfile D s = (Ok tt, with_db D s).
Proof. unfold put_dbfile, with_db. destruct (readonly s); reflexivity. Qed.

Lemma dbfile_run s D : the_db s = Some D → dbfile s = (Ok D, s).
Proof.
  unfold the_db, dbfile. destruct (readonly s); [intros ->|intros [= <-]]; done.
Qed.

Lemma dbfile_inv s D s' : dbfile s = (Ok D, s') → the_db s = Some D ∧ s' = s.
Proof.
  unfold the_db, dbfile. destruct (readonly s); [destruct (dbf s)|];
    intros [=]; subst; auto.
Qed.

Lemma st_le_with_db s D D' :
  the_db s = Some D → file_le D D' → st_le s (with_db D' s).
Proof.
  intros HD Hle. unfold st_le. rewrite the_db_with_db.
  split; [|split; [|split]].
  - unfold with_db. destruct (readonly s) eqn:E; cbn; auto.
  - unfold with_db. destruct (readonly s) eqn:E; cbn; auto.
  - unfold with_db. intros ->. reflexivity.
  - intros D0 HD0. exists D'. split; [reflexivity|congruence].
Qed.

(** An update of the index container that only extends it. *)
Lemma extends_db_update {A} (op : File → option (A * File)) e :
  (∀ D r, op D = Some r → file_le D r.2) →
  extends (file ← dbfile; r ← lift_opt e (op file); put_dbfile r.2;; ret r.1).
Proof.
  intros Hop s. unfold bind.
  pose proof (extends_dbfile s) as Hd.
  destruct (dbfile s) as [[D|x] s0] eqn:Ed; [|exact Hd].
  apply dbfile_inv in Ed as [HD ->].
  destruct (op D) as [r|] eqn:Eo; cbn; [|apply st_le_refl].
  rewrite put_dbfile_run. cbn. eapply st_le_with_db; eauto.
Qed.

Ltac ext_read :=
  unfold bind; intros s;
  pose proof (extends_dbfile s) as Hd;
  destruct (dbfile s) as [[D|x] s0]; [|exact Hd];
  eapply st_le_trans; [exact Hd|];
  first [apply extends_lift_opt | apply extends_ret].

Ltac ext_update lem :=
  intros s; unfold bind;
  pose proof (extends_dbfile s) as Hd;
  destruct (dbfile s) as [[D|x] s0] eqn:Ed; [|exact Hd];
  apply dbfile_inv in Ed as [HD ->];
  match goal with |- context [lift_opt _ ?o] => destruct o eqn:Eo end;
  cbn; [|apply st_le_refl];
  rewrite ?put_dbfile_run; cbn; eapply st_le_with_db; eauto using lem.

Lemma extends_db_getitem g p : extends (db_getitem g p).
Proof. unfold db_getitem. ext_read. Qed.

Lemma extends_db_contains g p : extends (db_contains g p).
Proof. unfold db_contains. ext_read. Qed.

Lemma extends_db_attr_get o k : extends (db_attr_get o k).
Proof. unfold db_attr_get. ext_read. Qed.

Lemma extends_db_attr_contains o k : extends (db_attr_contains o k).
Proof. unfold db_attr_contains. ext_read. Qed.

Lemma extends_db_setitem g n o : extends (db_setitem g n o).
Proof. unfold db_setitem. ext_update file_le_setitem. Qed.

Lemma extends_db_attr_set o k v : extends (db_attr_set o k v).
Proof. unfold db_attr_set. ext_update file_le_attr_set. Qed.

Lemma extends_db_create_group g n : extends (db_create_group g n).
Proof.
  unfold db_create_group. intros s. unfold bind.
  pose proof (extends_dbfile s) as Hd.
  destruct (dbfile s) as [[D|x] s0] eqn:Ed; [|exact Hd].
  apply dbfile_inv in Ed as [HD ->].
  destruct (create_group D g n) as [[h D']|] eqn:Eo; cbn; [|apply st_le_refl].
  rewrite put_dbfile_run. cbn. eapply st_le_with_db; eauto using file_le_create_group.
Qed.

Create HintDb ext.

#[local] Hint Resolve extends_ret extends_raise extends_gets extends_lift_opt
  extends_set_http extends_uuid1 extends_dbfile extends_the_dbGrp
  extends_db_getitem extends_db_contains extends_db_attr_get
  extends_db_attr_contains extends_db_setitem extends_db_attr_set
  extends_db_create_group : ext.

Ltac ext :=
  repeat first
    [ solve [auto with ext]
    | apply extends_for; intros ?
    | apply extends_bind; [|intros ?]
    | match goal with |- extends (if ?b then _ else _) => destruct b end
    | match goal with |- extends (match ?x with _ => _ end) => destruct x end ].

Lemma extends_dbGrp_getitem n : extends (dbGrp_getitem n).
Proof. unfold dbGrp_getitem. ext. Qed.

Lemma extends_dbGrp_contains n : extends (dbGrp_contains n).
Proof. unfold dbGrp_contains. ext. Qed.

Lemma extends_dbGrp_create_group n : extends (dbGrp_create_group n).
Proof. unfold dbGrp_create_group. ext. Qed.

#[local] Hint Resolve extends_dbGrp_getitem extends_dbGrp_contains
  extends_dbGrp_create_group : ext.

Lemma extends_visit_register col obj : extends (visit_register col obj).
Proof. unfold visit_register. ext. Qed.

#[local] Hint Resolve extends_visit_register : ext.

Lemma extends_visit path obj : extends (visit path obj).
Proof. unfold visit. ext. Qed.

Lemma extends_visitObj po : extends (visitObj po).
Proof. apply extends_visit. Qed.

#[local] Hint Resolve extends_visit extends_visitObj : ext.

Lemma extends_initFile_collections : extends initFile_collections.
Proof. unfold initFile_collections. ext. Qed.

Lemma extends_initFile_traverse : extends initFile_traverse.
Proof. unfold initFile_traverse. ext. Qed.

Lemma extends_initFile_create : extends initFile_create.
Proof.
  unfold initFile_create.
  apply extends_bind; auto using extends_initFile_collections, extends_initFile_traverse.
Qed.

(** ** A read-only instance *)

Lemma bind_modify {B} u (k : unit → M B) s : bind (modify u) k s = k tt (u s).
Proof. reflexivity. Qed.

Lemma bind_gets {A B} (g : Hdf5db → A) (k : A → M B) s :
  bind (gets g) k s = k (g s) s.
Proof. reflexivity. Qed.

Lemma bind_ret {A B} (a : A) (k : A → M B) s : bind (ret a) k s = k a s.
Proof. reflexivity. Qed.

Ltac st_cbn :=
  unfold set_f, set_dbf, set_dbGrp, set_http, set_clock in *;
  cbn [f dbf readonly dbGrp httpStatus httpMessage uuid_clock fst snd] in *.

Ltac mrun := repeat (rewrite ?bind_modify, ?bind_gets, ?bind_ret; st_cbn).

Lemma initFile_readonly s :
  readonly s = true →
  f (initFile s).2 = f s ∧ readonly (initFile s).2 = true.
Proof.
  destruct s as [F Dbf ro g hs hm c]. cbn [readonly f]. intros ->.
  unfold initFile. mrun.
  set (s0 := mkDb F Dbf true _ _ _ _).
  pose proof (extends_dbfile s0) as Hd. unfold bind.
  destruct (dbfile s0) as [[D|x] s1] eqn:Ed.
  - apply dbfile_inv in Ed as [_ ->].
    destruct (contains D (root_group D) "{groups}"); [cbn; auto|].
    destruct (extends_initFile_create s0) as (Hr & _ & Hf & _).
    rewrite Hr, Hf by reflexivity. auto.
  - destruct Hd as (Hr & _ & Hf & _). cbn [snd] in *.
    rewrite Hr, Hf by reflexivity. auto.
Qed.

Lemma initFile_readonly_initialized s D :
  readonly s = true → dbf s = Some D →
  contains D (root_group D) "{groups}" = true →
  initFile s = (Ok tt, set_dbGrp (Some (root_group D)) (set_http 200 None s)).
Proof.
  destruct s as [F Dbf ro g hs hm c]. cbn [readonly dbf]. intros -> -> Hc.
  unfold initFile. mrun. unfold bind, dbfile. st_cbn.
  rewrite Hc. reflexivity.
Qed.

(** C8 (as the code has it). On a read-only instance [linkObject] never
    changes the source container and, whenever it returns, returns [False]
    with status 403; when the shadow container already holds the index it
    returns just that and leaves the shadow container as it was. *)
Theorem linkObject_readonly parentUUID childUUID linkName s :
  readonly s = true →
  f (linkObject parentUUID childUUID linkName s).2 = f s ∧
  (∀ b s', linkObject parentUUID childUUID linkName s = (Ok b, s') →
     b = false ∧ httpStatus s' = 403 ∧
     httpMessage s' = Some "Updates are not allowed") ∧
  (∀ D, dbf s = Some D → contains D (root_group D) "{groups}" = true →
     linkObject parentUUID childUUID linkName s
     = (Ok false,
        set_http 403 (Some "Updates are not allowed")
          (set_dbGrp (Some (root_group D)) s))).
Proof.
  intros Hro. destruct (initFile_readonly s Hro) as [Hf Hr].
  unfold linkObject. split; [|split].
  - unfold bind at 1. destruct (initFile s) as [[[]|e] s1]; [|exact Hf].
    cbn [snd] in Hr, Hf. destruct s1. mrun. subst. reflexivity.
  - intros b s'. unfold bind at 1.
    destruct (initFile s) as [[[]|e] s1]; [|discriminate].
    cbn [snd] in Hr. destruct s1. mrun. subst.
    intros [= <- <-]. auto.
  - intros D HD Hc.
    rewrite (bind_ok _ _ _ _ _ (initFile_readonly_initialized s D Hro HD Hc)).
    destruct s. mrun. subst. reflexivity.
Qed.

(** ** The engine model: single-component names *)

Lemma split_slash_no_slash n : has_slash n = false → split_slash n = [n].
Proof.
  induction n as [|c n IH]; cbn; [reflexivity|].
  destruct (Ascii.eqb c "/"); cbn; [discriminate|].
  intros H. rewrite (IH H). reflexivity.
Qed.

Lemma simple_name_spec n :
  simple_name n = true →
  n ≠ "" ∧ String.eqb n "" = false ∧ absolute n = false ∧ path_parts n = [n].
Proof.
  unfold simple_name. intros H.
  apply andb_prop in H as [H Hs]. apply andb_prop in H as [He Hd].
  apply negb_true_iff in He, Hd, Hs.
  repeat split.
  - intros ->. discriminate.
  - exact He.
  - destruct n as [|c n]; [reflexivity|]. cbn in Hs |- *.
    destruct (Ascii.eqb c "/"); [discriminate|reflexivity].
  - unfold path_parts. rewrite (split_slash_no_slash _ Hs).
    rewrite filter_cons_True; [reflexivity|].
    rewrite He, Hd. reflexivity.
Qed.

(** A hard link under a single-component name leads to its target. *)
Lemma getitem_hard F g n a c :
  simple_name n = true →
  link_at F (o_addr g) n = Some (HardLink a) →
  class_at F a = Some c →
  getitem F g n = Some (mkHL c a (child_name g n)).
Proof.
  intros Hn Hl Hc. destruct (simple_name_spec _ Hn) as (_ & He & Ha & Hp).
  unfold getitem. rewrite He, Ha, Hp, walk_cons, Hl, walk_nil.
  unfold class_at in Hc. unfold handle.
  destruct (objs F !! a) as [o|] eqn:E; [|discriminate]. cbn. rewrite E.
  congruence.
Qed.

(** A name the group does not hold leads nowhere. *)
Lemma getitem_absent F g n :
  simple_name n = true → link_at F (o_addr g) n = None → getitem F g n = None.
Proof.
  intros Hn Hl. destruct (simple_name_spec _ Hn) as (_ & He & Ha & Hp).
  unfold getitem. rewrite He, Ha, Hp, walk_cons, Hl. reflexivity.
Qed.

(** For a single-component name, [in] asks whether the group holds a link
    under that name. *)
Lemma contains_simple F g n :
  simple_name n = true →
  contains F g n
  = match link_at F (o_addr g) n with Some _ => true | None => false end.
Proof.
  intros Hn. destruct (simple_name_spec _ Hn) as (_ & He & Ha & _).
  unfold simple_name in Hn.
  apply andb_prop in Hn as [Hn Hs]. apply andb_prop in Hn as [_ Hd].
  apply negb_true_iff in Hd, Hs.
  unfold contains, link_at. rewrite He, Ha, (split_slash_no_slash _ Hs).
  rewrite filter_cons_True by (now rewrite He). rewrite filter_nil.
  cbn [path_valid]. rewrite Hd.
  destruct (links_of F (o_addr g)) as [l|]; [|reflexivity].
  destruct (assoc n l); reflexivity.
Qed.


Lemma contains_absent F g n :
  simple_name n = true → link_at F (o_addr g) n = None →
  contains F g n = false.
Proof. intros Hn Hl. now rewrite contains_simple, Hl. Qed.

(** A name that leads to an object is in the group. *)
Lemma contains_getitem F g n h :
  simple_name n = true → getitem F g n = Some h → contains F g n = true.
Proof.
  intros Hn Hg. rewrite contains_simple by exact Hn.
  destruct (link_at F (o_addr g) n) eqn:E; [reflexivity|].
  rewrite (getitem_absent _ _ _ Hn E) in Hg. discriminate.
Qed.

Lemma getitem_addr_exists F g p h :
  getitem F g p = Some h → class_at F (o_addr h) = Some (o_class h).
Proof.
  unfold getitem. destruct (String.eqb p ""); [discriminate|].
  destruct (walk _ _ _ _) as [a|]; [|discriminate].
  rewrite handle_class. destruct (class_at F a) eqn:E; [|discriminate].
  intros [= <-]. exact E.
Qed.

(** What [create_group] leaves behind. *)
Lemma create_group_spec F g n h F' :
  create_group F g n = Some (h, F') →
  h = mkHL "Group" (new_addr F) (child_name g n) ∧
  simple_name n = true ∧
  objs F !! o_addr h = None ∧
  file_le F F' ∧
  getitem F' g n = Some h ∧
  attrs_of F' (o_addr h) = Some ∅ ∧
  (∀ b, b ≠ o_addr h → attrs_of F' b = attrs_of F b).
Proof.
  intros Hc. pose proof (file_le_create_group _ _ _ _ _ Hc) as Hle.
  unfold create_group in Hc.
  destruct (links_of F (o_addr g)) as [l|] eqn:Hl; [|discriminate].
  destruct (assoc n l) eqn:Ha; [discriminate|].
  destruct (simple_name n) eqn:Hn; [|discriminate].
  injection Hc as <- <-. cbn [o_addr].
  pose proof (new_addr_fresh F) as Hf.
  assert (Hne : o_addr g ≠ new_addr F).
  { intros E. rewrite E in Hl. unfold links_of in Hl. rewrite Hf in Hl. discriminate. }
  assert (Hnl : links_of F (o_addr g) ≠ None) by congruence.
  set (F1 := set_links F (o_addr g) (add_link n (HardLink (new_addr F)) l)) in *.
  assert (Hr1 : root F1 = root F) by apply root_set_links.
  split; [reflexivity|]. split; [reflexivity|]. split; [exact Hf|].
  split; [exact Hle|]. split; [|split].
  - eapply getitem_hard; [exact Hn| |].
    + unfold link_at, links_of. cbn [objs].
      rewrite lookup_insert_ne by congruence.
      fold (links_of F1 (o_addr g)). unfold F1.
      rewrite links_of_set_links by eauto using links_of_Some_obj.
      rewrite decide_True by reflexivity.
      now apply assoc_add_link_eq.
    + unfold class_at. cbn [objs]. rewrite lookup_insert_eq. reflexivity.
  - unfold attrs_of. cbn [objs]. rewrite lookup_insert_eq. reflexivity.
  - intros b Hb. unfold attrs_of at 1. cbn [objs].
    rewrite lookup_insert_ne by congruence.
    fold (attrs_of F1 b). unfold F1. now rewrite attrs_of_set_links.
Qed.

(** ** Running the index operations *)

Lemma with_db_props D s :
  the_db (with_db D s) = Some D ∧ dbGrp (with_db D s) = dbGrp s ∧
  readonly (with_db D s) = readonly s ∧
  uuid_clock (with_db D s) = uuid_clock s ∧
  httpStatus (with_db D s) = httpStatus s ∧
  (readonly s = true → f (with_db D s) = f s) ∧
  (readonly s = false → f (with_db D s) = D ∧ dbf (with_db D s) = dbf s).
Proof.
  split; [apply the_db_with_db|]. unfold with_db.
  destruct s as [F Dbf ro g hs hm c]. destruct ro; st_cbn; repeat split; auto; discriminate.
Qed.

Lemma the_dbGrp_run s g : dbGrp s = Some g → the_dbGrp s = (Ok g, s).
Proof. unfold the_dbGrp. now intros ->. Qed.

Lemma the_dbGrp_inv s g s' : the_dbGrp s = (Ok g, s') → dbGrp s = Some g ∧ s' = s.
Proof. unfold the_dbGrp. destruct (dbGrp s); intros [=]; subst; auto. Qed.

Lemma db_getitem_run s D g p h :
  the_db s = Some D → getitem D g p = Some h → db_getitem g p s = (Ok h, s).
Proof.
  intros HD Hg. unfold db_getitem.
  rewrite (bind_ok _ _ _ _ _ (dbfile_run _ _ HD)), Hg. reflexivity.
Qed.

Lemma dbGrp_getitem_run s D g p h :
  the_db s = Some D → dbGrp s = Some g → getitem D g p = Some h →
  dbGrp_getitem p s = (Ok h, s).
Proof.
  intros HD Hg Hi. unfold dbGrp_getitem.
  rewrite (bind_ok _ _ _ _ _ (the_dbGrp_run _ _ Hg)).
  eapply db_getitem_run; eauto.
Qed.

Lemma dbGrp_contains_run s D g p :
  the_db s = Some D → dbGrp s = Some g →
  dbGrp_contains p s = (Ok (contains D g p), s).
Proof.
  intros HD Hg. unfold dbGrp_contains, db_contains.
  rewrite (bind_ok _ _ _ _ _ (the_dbGrp_run _ _ Hg)).
  rewrite (bind_ok _ _ _ _ _ (dbfile_run _ _ HD)). reflexivity.
Qed.

Lemma db_attr_contains_run s D o k :
  the_db s = Some D → db_attr_contains o k s = (Ok (attr_contains D o k), s).
Proof.
  intros HD. unfold db_attr_contains.
  rewrite (bind_ok _ _ _ _ _ (dbfile_run _ _ HD)). reflexivity.
Qed.

Lemma db_attr_get_run s D o k v :
  the_db s = Some D → attr_get D o k = Some v → db_attr_get o k s = (Ok v, s).
Proof.
  intros HD Hv. unfold db_attr_get.
  rewrite (bind_ok _ _ _ _ _ (dbfile_run _ _ HD)), Hv. reflexivity.
Qed.

Lemma lift_opt_inv {A} e (o : option A) s a s' :
  lift_opt e o s = (Ok a, s') → o = Some a ∧ s' = s.
Proof. destruct o; intros [=]; subst; auto. Qed.

Lemma db_attr_set_inv o k v s s' :
  db_attr_set o k v s = (Ok tt, s') →
  ∃ D D', the_db s = Some D ∧ attr_set D o k v = Some D' ∧ s' = with_db D' s.
Proof.
  unfold db_attr_set. intros H.
  apply bind_inv_ok in H as (D & s1 & Hd & H). apply dbfile_inv in Hd as [HD ->].
  apply bind_inv_ok in H as (D' & s1 & Hl & H). apply lift_opt_inv in Hl as [Hs ->].
  rewrite put_dbfile_run in H. injection H as <-. eauto.
Qed.

Lemma db_setitem_inv g n o s s' :
  db_setitem g n o s = (Ok tt, s') →
  ∃ D D', the_db s = Some D ∧ setitem D g n o = Some D' ∧ s' = with_db D' s.
Proof.
  unfold db_setitem. intros H.
  apply bind_inv_ok in H as (D & s1 & Hd & H). apply dbfile_inv in Hd as [HD ->].
  apply bind_inv_ok in H as (D' & s1 & Hl & H). apply lift_opt_inv in Hl as [Hs ->].
  rewrite put_dbfile_run in H. injection H as <-. eauto.
Qed.

Lemma dbGrp_create_group_inv n s h s' :
  dbGrp_create_group n s = (Ok h, s') →
  ∃ g D D', dbGrp s = Some g ∧ the_db s = Some D ∧
    create_group D g n = Some (h, D') ∧ s' = with_db D' s.
Proof.
  unfold dbGrp_create_group, db_create_group. intros H.
  apply bind_inv_ok in H as (g & s1 & Hg & H). apply the_dbGrp_inv in Hg as [Hg ->].
  apply bind_inv_ok in H as (D & s1 & Hd & H). apply dbfile_inv in Hd as [HD ->].
  apply bind_inv_ok in H as ([h' D'] & s1 & Hl & H). apply lift_opt_inv in Hl as [Hs ->].
  unfold bind in H. rewrite put_dbfile_run in H. cbn in H. injection H as <- <-.
  exists g, D, D'. auto.
Qed.

(** ** The engine model: what the updates change *)

Lemma attr_set_spec D o k v D' :
  attr_set D o k v = Some D' →
  ∃ m, attrs_of D (o_addr o) = Some m ∧
       attrs_of D' (o_addr o) = Some (<[k := v]> m) ∧
       (∀ b, b ≠ o_addr o → attrs_of D' b = attrs_of D b) ∧
       file_le D D'.
Proof.
  intros H. pose proof (file_le_attr_set _ _ _ _ _ H) as Hle.
  unfold attr_set in H. destruct (attrs_of D (o_addr o)) as [m|] eqn:Hm; [|discriminate].
  injection H as <-. exists m. split; [reflexivity|].
  pose proof (attrs_of_Some_obj _ _ _ Hm) as Ho.
  split; [|split; [|exact Hle]].
  - rewrite attrs_of_set_attrs by exact Ho. now rewrite decide_True.
  - intros b Hb. rewrite attrs_of_set_attrs by exact Ho. now rewrite decide_False.
Qed.

Lemma setitem_spec D g n o D' :
  setitem D g n o = Some D' →
  (∀ b, attrs_of D' b = attrs_of D b) ∧ file_le D D'.
Proof.
  intros H. pose proof (file_le_setitem _ _ _ _ _ H) as Hle.
  split; [|exact Hle]. unfold setitem in H.
  destruct (links_of D (o_addr g)) as [l|] eqn:Hl; [|discriminate].
  destruct (objs D !! o_addr o); [|discriminate].
  destruct (assoc n l); [discriminate|].
  destruct (simple_name n); [|discriminate].
  injection H as <-. intros b. apply attrs_of_set_links. congruence.
Qed.

Lemma file_le_exists D D' a :
  file_le D D' → is_Some (objs D !! a) → is_Some (objs D' !! a).
Proof.
  intros (_ & Hc & _) [o Ho]. specialize (Hc a (class_name (kind o))).
  unfold class_at in Hc. rewrite Ho in Hc. specialize (Hc eq_refl).
  destruct (objs D' !! a); [eauto|discriminate].
Qed.

(** ** The traversal *)

Lemma set_clock_props n s :
  the_db (set_clock n s) = the_db s ∧ dbGrp (set_clock n s) = dbGrp s ∧
  readonly (set_clock n s) = readonly s ∧ uuid_clock (set_clock n s) = n.
Proof. destruct s. repeat split. Qed.

Lemma set_http_props c m s :
  the_db (set_http c m s) = the_db s ∧ dbGrp (set_http c m s) = dbGrp s ∧
  readonly (set_http c m s) = readonly s ∧
  uuid_clock (set_http c m s) = uuid_clock s.
Proof. destruct s. repeat split. Qed.

Lemma uuid1_run s :
  uuid1 s = (Ok (uuid_str (uuid_clock s)), set_clock (N.succ (uuid_clock s)) s).
Proof. reflexivity. Qed.

Lemma visit_register_spec Dc ix col obj s m c s' :
  laid_out (readonly s) Dc ix →
  traversing Dc ix s m c →
  visit_register col obj s = (Ok tt, s') →
  readonly s' = readonly s ∧
  traversing Dc ix s' (<[str_addr (o_addr obj) := uuid_str c]> m) (N.succ c).
Proof.
  intros (_ & _ & _ & Had & Hne & Hpa) (D & HD & Hle & Hg & Hc & Hm & Hd) H.
  unfold visit_register in H.
  rewrite (bind_ok _ _ _ _ _ (uuid1_run s)) in H. rewrite Hc in H.
  destruct (set_clock_props (N.succ c) s) as (HD1 & Hg1 & Hr1 & Hc1).
  set (s1 := set_clock (N.succ c) s) in *.
  rewrite HD in HD1. rewrite Hg in Hg1.
  rewrite (bind_ok _ _ _ _ _
             (dbGrp_getitem_run _ _ _ _ _ HD1 Hg1 (getitem_mono _ _ _ _ _ Hle Had))) in H.
  rewrite bind_gets in H.
  apply bind_inv_ok in H as ([] & s2 & H2 & H).
  assert (H2' : readonly s2 = readonly s ∧ dbGrp s2 = Some (ix_db ix)
                ∧ uuid_clock s2 = N.succ c ∧
                ∃ D2, the_db s2 = Some D2 ∧ file_le Dc D2 ∧
                  attrs_of D2 (o_addr (ix_addr ix)) = Some m ∧
                  attrs_of D2 (o_addr (ix_db ix)) = attrs_of Dc (o_addr (ix_db ix))).
  { rewrite Hr1 in H2. destruct (readonly s) eqn:Hro; cbn [negb] in H2.
    - destruct (Hpa eq_refl) as (hpa & _ & Hgp & Hn1 & Hn2).
      pose proof (getitem_mono _ _ _ _ _ Hle Hgp) as Hgp'.
      rewrite (bind_ok _ _ _ _ _ (dbGrp_contains_run _ _ _ _ HD1 Hg1)) in H2.
      rewrite (contains_getitem _ _ "{paths}" _ eq_refl Hgp') in H2.
      cbn [negb] in H2.
      rewrite (bind_ok _ _ _ _ _ (dbGrp_getitem_run _ _ _ _ _ HD1 Hg1 Hgp')) in H2.
      apply db_attr_set_inv in H2 as (D1 & D2 & HD1' & Hs & ->).
      assert (D1 = D) as -> by congruence.
      apply attr_set_spec in Hs as (m0 & _ & _ & Hfr & Hle2).
      destruct (with_db_props D2 s1) as (Hw1 & Hw2 & Hw3 & Hw4 & _).
      rewrite Hw3, Hw2, Hw4.
      split; [congruence|]. split; [congruence|]. split; [congruence|].
      exists D2. split; [exact Hw1|]. split; [eauto using file_le_trans|]. split.
      + rewrite Hfr by congruence. exact Hm.
      + rewrite Hfr by congruence. exact Hd.
    - apply db_setitem_inv in H2 as (D1 & D2 & HD1' & Hs & ->).
      assert (D1 = D) as -> by congruence.
      apply setitem_spec in Hs as (Hfr & Hle2).
      destruct (with_db_props D2 s1) as (Hw1 & Hw2 & Hw3 & Hw4 & _).
      rewrite Hw3, Hw2, Hw4.
      split; [congruence|]. split; [congruence|]. split; [congruence|].
      exists D2. split; [exact Hw1|]. split; [eauto using file_le_trans|]. split.
      + rewrite Hfr. exact Hm.
      + rewrite Hfr. exact Hd. }
  destruct H2' as (Hr2 & Hg2 & Hc2 & D2 & HD2 & Hle2 & Hm2 & Hd2).
  apply db_attr_set_inv in H as (D2' & D3 & HD2' & Hs & ->).
  assert (D2' = D2) as -> by congruence.
  apply attr_set_spec in Hs as (m0 & Hm0 & Hm3 & Hfr & Hle3).
  assert (m0 = m) as -> by congruence.
  destruct (with_db_props D3 s2) as (Hw1 & Hw2 & Hw3 & Hw4 & _).
  split; [congruence|].
  exists D3. split; [exact Hw1|]. split; [eauto using file_le_trans|].
  split; [congruence|]. split; [congruence|]. split; [exact Hm3|].
  rewrite Hfr by congruence. exact Hd2.
Qed.

Lemma traversing_set_http Dc ix s m c h msg :
  traversing Dc ix s m c → traversing Dc ix (set_http h msg s) m c.
Proof.
  intros (D & HD & Hle & Hg & Hc & Hm & Hd).
  destruct (set_http_props h msg s) as (H1 & H2 & H3 & H4).
  exists D. rewrite H1, H2, H4. auto 10.
Qed.

Lemma visit_spec Dc ix path obj s m c s' :
  laid_out (readonly s) Dc ix →
  traversing Dc ix s m c →
  visit path obj s = (Ok tt, s') →
  readonly s' = readonly s ∧
  if registrable (path, obj)
  then traversing Dc ix s' (<[str_addr (o_addr obj) := uuid_str c]> m) (N.succ c)
  else traversing Dc ix s' m c.
Proof.
  intros Hlo Ht H. unfold visit in H. unfold registrable. cbn [fst snd].
  pose proof Hlo as (Hgg & Hgs & Hgt & _).
  pose proof Ht as (D & HD & Hle & Hg & _).
  destruct (under_db path); cbn [negb andb].
  { injection H as <-. auto. }
  destruct (String.eqb (o_class obj) "Group"); cbn [orb].
  { rewrite (bind_ok _ _ _ _ _
      (dbGrp_getitem_run _ _ _ _ _ HD Hg (getitem_mono _ _ _ _ _ Hle Hgg))) in H.
    eapply visit_register_spec; eauto. }
  destruct (String.eqb (o_class obj) "Dataset"); cbn [orb].
  { rewrite (bind_ok _ _ _ _ _
      (dbGrp_getitem_run _ _ _ _ _ HD Hg (getitem_mono _ _ _ _ _ Hle Hgs))) in H.
    eapply visit_register_spec; eauto. }
  destruct (String.eqb (o_class obj) "Datatype"); cbn [orb].
  { rewrite (bind_ok _ _ _ _ _
      (dbGrp_getitem_run _ _ _ _ _ HD Hg (getitem_mono _ _ _ _ _ Hle Hgt))) in H.
    eapply visit_register_spec; eauto. }
  injection H as <-. split.
  - apply set_http_props.
  - now apply traversing_set_http.
Qed.

Lemma for_cons_inv {A} (x : A) xs body s s' :
  for_ (x :: xs) body s = (Ok tt, s') →
  ∃ s1, body x s = (Ok tt, s1) ∧ for_ xs body s1 = (Ok tt, s').
Proof.
  cbn [for_]. intros H. apply bind_inv_ok in H as ([] & s1 & H1 & H2). eauto.
Qed.

(** A completed traversal wrote, in order, exactly the pairs of
    [assigned] into the address map. *)
Lemma traverse_spec Dc ix tr s m c s' :
  laid_out (readonly s) Dc ix →
  traversing Dc ix s m c →
  for_ tr visitObj s = (Ok tt, s') →
  readonly s' = readonly s ∧
  traversing Dc ix s' (record_all m (assigned c tr))
             (c + N.of_nat (length (assigned c tr))).
Proof.
  revert s m c. induction tr as [|[path obj] tr IH]; intros s m c Hlo Ht H.
  - injection H as <-. cbn. rewrite N.add_0_r. auto.
  - apply for_cons_inv in H as (s1 & H1 & H2).
    destruct (visit_spec _ _ _ _ _ _ _ _ Hlo Ht H1) as [Hr Ht1].
    rewrite <- Hr in Hlo. cbn [assigned]. cbn [fst snd] in Ht1.
    destruct (registrable (path, obj)).
    + destruct (IH _ _ _ Hlo Ht1 H2) as [Hr' Ht'].
      split; [congruence|]. cbn [record_all foldl length fst snd].
      replace (c + N.of_nat (S (length (assigned (N.succ c) tr))))%N
        with (N.succ c + N.of_nat (length (assigned (N.succ c) tr)))%N by lia.
      exact Ht'.
    + destruct (IH _ _ _ Hlo Ht1 H2) as [Hr' Ht'].
      split; [congruence|exact Ht'].
Qed.

(** ** Laying out the index *)

Lemma create_step n s h s' g D :
  dbGrp s = Some g → the_db s = Some D →
  dbGrp_create_group n s = (Ok h, s') →
  ∃ D', the_db s' = Some D' ∧ dbGrp s' = Some g ∧
    readonly s' = readonly s ∧ uuid_clock s' = uuid_clock s ∧
    file_le D D' ∧ getitem D' g n = Some h ∧
    objs D !! o_addr h = None ∧
    attrs_of D' (o_addr h) = Some ∅ ∧
    (∀ b, b ≠ o_addr h → attrs_of D' b = attrs_of D b).
Proof.
  intros Hg HD H.
  apply dbGrp_create_group_inv in H as (g' & D1 & D' & Hg' & HD' & Hc & ->).
  assert (g' = g) as -> by congruence. assert (D1 = D) as -> by congruence.
  apply create_group_spec in Hc as (_ & _ & Hf & Hle & Hi & Ha & Hfr).
  destruct (with_db_props D' s) as (H1 & H2 & H3 & H4 & _).
  exists D'. rewrite H2, H3, H4. auto 12.
Qed.

Lemma fresh_ne D a b : objs D !! a = None → is_Some (objs D !! b) → b ≠ a.
Proof. intros Ha [o Hb] ->. congruence. Qed.

Lemma initFile_collections_spec s dg D0 sc :
  dbGrp s = Some dg → the_db s = Some D0 →
  initFile_collections s = (Ok tt, sc) →
  ∃ Dc ix, the_db sc = Some Dc ∧ file_le D0 Dc ∧ ix_db ix = dg ∧
    dbGrp sc = Some dg ∧ readonly sc = readonly s ∧
    uuid_clock sc = N.succ (uuid_clock s) ∧
    laid_out (readonly s) Dc ix ∧
    attrs_of Dc (o_addr (ix_addr ix)) = Some ∅ ∧
    attr_get Dc dg "rootUUID" = Some (uuid_str (uuid_clock s)).
Proof.
  intros Hg HD H. unfold initFile_collections in H.
  rewrite (bind_ok _ _ _ _ _ (uuid1_run s)) in H.
  destruct (set_clock_props (N.succ (uuid_clock s)) s) as (HD1 & Hg1 & Hr1 & Hc1).
  set (s1 := set_clock _ s) in *. rewrite HD in HD1. rewrite Hg in Hg1.
  rewrite (bind_ok _ _ _ _ _ (the_dbGrp_run _ _ Hg1)) in H.
  apply bind_inv_ok in H as ([] & s2 & Ha & H).
  apply db_attr_set_inv in Ha as (D0' & Da & HD0' & Hs & ->).
  assert (D0' = D0) as -> by congruence.
  apply attr_set_spec in Hs as (m0 & Hm0 & Hma & _ & Hle_a).
  destruct (with_db_props Da s1) as (HDa & Hga & Hra & Hca & _).
  rewrite Hg1 in Hga. set (s2 := with_db Da s1) in *.
  assert (Hex0 : is_Some (objs D0 !! o_addr dg)) by eauto using attrs_of_Some_obj.
  apply bind_inv_ok in H as (hg & s3 & Hcg & H).
  destruct (create_step _ _ _ _ _ _ Hga HDa Hcg)
    as (Db & HDb & Hgb & Hrb & Hcb & Hle_b & Hig & Hfg & _ & Hfr_b).
  apply bind_inv_ok in H as (hds & s4 & Hcs & H).
  destruct (create_step _ _ _ _ _ _ Hgb HDb Hcs)
    as (Dd & HDd & Hgd & Hrd & Hcd & Hle_d & His & Hfs & _ & Hfr_d).
  apply bind_inv_ok in H as (hdt & s5 & Hct & H).
  destruct (create_step _ _ _ _ _ _ Hgd HDd Hct)
    as (De & HDe & Hge & Hre & Hce & Hle_e & Hit & Hft & _ & Hfr_e).
  apply bind_inv_ok in H as (had & s6 & Hca' & H).
  destruct (create_step _ _ _ _ _ _ Hge HDe Hca')
    as (Df & HDf & Hgf & Hrf & Hcf & Hle_f & Hia & Hfa & Haf & Hfr_f).
  rewrite bind_gets in H.
  assert (Hexa : is_Some (objs Da !! o_addr dg)) by eauto using file_le_exists.
  assert (Hexb : is_Some (objs Db !! o_addr dg)) by eauto using file_le_exists.
  assert (Hexd : is_Some (objs Dd !! o_addr dg)) by eauto using file_le_exists.
  assert (Hexe : is_Some (objs De !! o_addr dg)) by eauto using file_le_exists.
  assert (Hexf : is_Some (objs Df !! o_addr dg)) by eauto using file_le_exists.
  assert (Hdg_f : attrs_of Df (o_addr dg) = Some (<["rootUUID" := uuid_str (uuid_clock s)]> m0)).
  { rewrite Hfr_f by eauto using fresh_ne. rewrite Hfr_e by eauto using fresh_ne.
    rewrite Hfr_d by eauto using fresh_ne. rewrite Hfr_b by eauto using fresh_ne.
    exact Hma. }
  assert (Hro : readonly s6 = readonly s) by congruence.
  assert (Hck : uuid_clock s6 = N.succ (uuid_clock s)) by congruence.
  assert (Hlef : file_le D0 Df) by eauto 8 using file_le_trans.
  rewrite Hro in H. destruct (readonly s) eqn:Ero.
  - apply bind_inv_ok in H as (hpa & s7 & Hcp & H). injection H as <-.
    destruct (create_step _ _ _ _ _ _ Hgf HDf Hcp)
      as (Dg & HDg & Hgg & Hrg & Hcg' & Hle_g & Hip & Hfp & _ & Hfr_g).
    exists Dg, (mkIx dg hg hds hdt had (Some hpa)). cbn [ix_db ix_addr].
    split; [exact HDg|]. split; [eauto using file_le_trans|]. split; [reflexivity|].
    split; [exact Hgg|]. split; [congruence|]. split; [congruence|].
    assert (Hn1 : o_addr had ≠ o_addr hpa)
      by (eapply fresh_ne; eauto using attrs_of_Some_obj).
    assert (Hn2 : o_addr dg ≠ o_addr hpa) by eauto using fresh_ne.
    split; [|split].
    + unfold laid_out. cbn [ix_db ix_groups ix_datasets ix_datatypes ix_addr ix_paths].
      split; [eauto 8 using getitem_mono, file_le_trans|].
      split; [eauto 8 using getitem_mono, file_le_trans|].
      split; [eauto 8 using getitem_mono, file_le_trans|].
      split; [eauto 8 using getitem_mono, file_le_trans|].
      split; [apply not_eq_sym; eauto using fresh_ne|].
      intros _. exists hpa. auto.
    + rewrite Hfr_g by exact Hn1. exact Haf.
    + unfold attr_get. rewrite Hfr_g by exact Hn2. rewrite Hdg_f.
      apply lookup_insert_eq.
  - injection H as <-.
    exists Df, (mkIx dg hg hds hdt had None). cbn [ix_db ix_addr].
    split; [exact HDf|]. split; [exact Hlef|]. split; [reflexivity|].
    split; [exact Hgf|]. split; [congruence|]. split; [congruence|].
    split; [|split].
    + unfold laid_out. cbn [ix_db ix_groups ix_datasets ix_datatypes ix_addr ix_paths].
      split; [eauto 8 using getitem_mono, file_le_trans|].
      split; [eauto 8 using getitem_mono, file_le_trans|].
      split; [eauto 8 using getitem_mono, file_le_trans|].
      split; [exact Hia|].
      split; [apply not_eq_sym; eauto using fresh_ne|].
      discriminate.
    + exact Haf.
    + unfold attr_get. rewrite Hdg_f. apply lookup_insert_eq.
Qed.

(** ** The first run of [initFile] *)

Lemma f_create_group_inv g n s h s' :
  f_create_group g n s = (Ok h, s') →
  ∃ F', create_group (f s) g n = Some (h, F') ∧ s' = set_f F' s.
Proof.
  unfold f_create_group. rewrite bind_gets. intros H.
  apply bind_inv_ok in H as ([h' F'] & s1 & Hl & H).
  apply lift_opt_inv in Hl as [Hc ->].
  rewrite bind_modify in H. injection H as <- <-. eauto.
Qed.

Lemma initFile_create_inv sa s1 :
  initFile_create sa = (Ok tt, s1) →
  ∃ sc, initFile_collections sa = (Ok tt, sc) ∧
        for_ (h5_visititems (f sc)) visitObj sc = (Ok tt, s1).
Proof.
  unfold initFile_create. intros H.
  apply bind_inv_ok in H as ([] & sc & Hc & H). exists sc. split; [exact Hc|].
  unfold initFile_traverse in H. now rewrite bind_gets in H.
Qed.

(** What a completed [initFile_create] leaves, from a state whose [dbGrp]
    is the group [dg] of the index container [D0]. *)
Lemma initFile_create_spec sa dg D0 s1 :
  dbGrp sa = Some dg → the_db sa = Some D0 →
  initFile_create sa = (Ok tt, s1) →
  ∃ sc Dc ix D1,
    initFile_collections sa = (Ok tt, sc) ∧
    for_ (h5_visititems (f sc)) visitObj sc = (Ok tt, s1) ∧
    the_db sc = Some Dc ∧ file_le D0 Dc ∧ ix_db ix = dg ∧
    laid_out (readonly sa) Dc ix ∧
    attr_get Dc dg "rootUUID" = Some (uuid_str (uuid_clock sa)) ∧
    readonly s1 = readonly sa ∧ dbGrp s1 = Some dg ∧
    the_db s1 = Some D1 ∧ file_le Dc D1 ∧
    attrs_of D1 (o_addr (ix_addr ix))
    = Some (record_all ∅ (assigned (N.succ (uuid_clock sa)) (h5_visititems (f sc)))) ∧
    attrs_of D1 (o_addr dg) = attrs_of Dc (o_addr dg).
Proof.
  intros Hg HD H. apply initFile_create_inv in H as (sc & Hc & Ht).
  destruct (initFile_collections_spec _ _ _ _ Hg HD Hc)
    as (Dc & ix & HDc & Hle & Hix & Hgc & Hrc & Hcc & Hlo & Hea & Hru).
  assert (Htr : traversing Dc ix sc ∅ (N.succ (uuid_clock sa))).
  { exists Dc. rewrite Hix. auto 8 using file_le_refl. }
  rewrite <- Hrc in Hlo.
  destruct (traverse_spec _ _ _ _ _ _ _ Hlo Htr Ht)
    as (Hr1 & D1 & HD1 & Hle1 & Hg1 & _ & Hm1 & Hd1).
  rewrite Hrc in Hlo. rewrite Hix in Hg1, Hd1.
  exists sc, Dc, ix, D1. split; [exact Hc|]. split; [exact Ht|].
  split; [exact HDc|]. split; [exact Hle|]. split; [exact Hix|].
  split; [exact Hlo|]. split; [exact Hru|]. split; [congruence|].
  split; [exact Hg1|]. split; [exact HD1|]. split; [exact Hle1|].
  split; [exact Hm1|exact Hd1].
Qed.

Lemma f_contains_run g p s : f_contains g p s = (Ok (contains (f s) g p), s).
Proof. reflexivity. Qed.

Lemma f_getitem_run g p s h :
  getitem (f s) g p = Some h → f_getitem g p s = (Ok h, s).
Proof. unfold f_getitem. rewrite bind_gets. now intros ->. Qed.

Lemma f_root_run s : f_root s = (Ok (root_group (f s)), s).
Proof. reflexivity. Qed.

(** The two ways through [initFile]. *)
Lemma initFile_cases s s1 :
  initFile s = (Ok tt, s1) →
  (initialized s = true ∧ f s1 = f s ∧ dbf s1 = dbf s ∧
   uuid_clock s1 = uuid_clock s ∧ readonly s1 = readonly s ∧
   httpStatus s1 = 200 ∧ httpMessage s1 = None ∧
   dbGrp s1 = (if readonly s then root_group <$> dbf s
               else getitem (f s) (root_group (f s)) "__db__")) ∨
  (initialized s = false ∧
   ∃ sa dg D0, initFile_create sa = (Ok tt, s1) ∧
     dbGrp sa = Some dg ∧ the_db sa = Some D0 ∧
     readonly sa = readonly s ∧ uuid_clock sa = uuid_clock s ∧
     (if readonly s then f sa = f s ∧ dbf s = Some D0 ∧ dg = root_group D0
      else getitem D0 (root_group D0) "__db__" = Some dg)).
Proof.
  destruct s as [F Dbf ro g hs hm c]. unfold initFile, initialized.
  mrun. destruct ro.
  - mrun. unfold bind at 1, dbfile. st_cbn.
    destruct Dbf as [D|]; [|discriminate]. cbn [fmap option_fmap option_map].
    destruct (contains D (root_group D) "{groups}").
    + intros [= <-]. left. st_cbn. auto 10.
    + intros H. right. split; [reflexivity|].
      eexists _, (root_group D), D. split; [exact H|]. st_cbn. auto 10.
  - rewrite (bind_ok _ _ _ _ _ (f_root_run _)).
    rewrite (bind_ok _ _ _ _ _ (f_contains_run _ _ _)). st_cbn.
    destruct (contains F (root_group F) "__db__") eqn:Ec.
    + destruct (getitem F (root_group F) "__db__") as [h|] eqn:Eg.
      * erewrite bind_ok by (apply f_getitem_run; exact Eg).
        mrun. intros [= <-]. left. st_cbn. auto 10.
      * intros H. apply bind_inv_ok in H as (h & s2 & Hg & _).
        unfold f_getitem in Hg. rewrite bind_gets in Hg. cbn [f] in Hg.
        rewrite Eg in Hg. discriminate.
    + intros H. apply bind_inv_ok in H as (h & s2 & Hc & H).
      apply f_create_group_inv in Hc as (F' & Hc & ->). mrun.
      right. split; [reflexivity|].
      eexists _, h, F'. split; [exact H|]. st_cbn.
      apply create_group_spec in Hc as (_ & _ & _ & Hle & Hi & _).
      assert (root_group F' = root_group F) as ->.
      { unfold root_group. destruct Hle as (-> & _). reflexivity. }
      auto 10.
Qed.

(** ** [initFile] on an index that is there *)

Lemma initFile_initialized s :
  initialized s = true →
  (readonly s = false → is_Some (getitem (f s) (root_group (f s)) "__db__")) →
  initFile s
  = (Ok tt,
     set_dbGrp (if readonly s then root_group <$> dbf s
                else getitem (f s) (root_group (f s)) "__db__")
               (set_http 200 None s)).
Proof.
  destruct s as [F Dbf ro g hs hm c]. unfold initFile, initialized.
  mrun. destruct ro.
  - mrun. destruct Dbf as [D|]; [|discriminate]. intros Hc _.
    unfold bind, dbfile. st_cbn. rewrite Hc. reflexivity.
  - intros Hc Hs. rewrite (bind_ok _ _ _ _ _ (f_root_run _)).
    rewrite (bind_ok _ _ _ _ _ (f_contains_run _ _ _)). st_cbn. rewrite Hc.
    destruct (Hs eq_refl) as [h Eg]. cbn [f] in Eg.
    erewrite bind_ok by (apply f_getitem_run; exact Eg). rewrite Eg. reflexivity.
Qed.

Lemma initFile_again s :
  initialized s = true →
  is_Some (dbGrp s) →
  dbGrp s = (if readonly s then root_group <$> dbf s
             else getitem (f s) (root_group (f s)) "__db__") →
  initFile s = (Ok tt, set_http 200 None s).
Proof.
  intros Hi Hs Hg. rewrite (initFile_initialized s Hi), <- Hg.
  - destruct s. reflexivity.
  - intros Hr. rewrite Hr in Hg. now rewrite <- Hg.
Qed.

Lemma file_le_root_group D D' : file_le D D' → root_group D' = root_group D.
Proof. intros (Hr & _). unfold root_group. now rewrite Hr. Qed.

(** After a completed [initFile] the index is there, and [dbGrp] is what
    a second call would make it. *)
Lemma initFile_leaves_initialized s s1 :
  initFile s = (Ok tt, s1) →
  initialized s1 = true ∧
  is_Some (dbGrp s1) ∧
  dbGrp s1 = (if readonly s1 then root_group <$> dbf s1
              else getitem (f s1) (root_group (f s1)) "__db__").
Proof.
  intros H. destruct (initFile_cases _ _ H)
    as [(Hi & Hf & Hd & _ & Hr & _ & _ & Hg)
       |(Hi & sa & dg & D0 & Hc & Hg & HD & Hr & _ & Hm)].
  - unfold initialized in *. rewrite Hr, Hf, Hd. split; [exact Hi|].
    split; [|exact Hg]. rewrite Hg. revert H Hi.
    destruct s as [F Dbf ro g hs hm c]. cbn [readonly f dbf].
    destruct ro.
    + destruct Dbf; [eauto|discriminate].
    + unfold initFile. mrun. rewrite (bind_ok _ _ _ _ _ (f_root_run _)).
      rewrite (bind_ok _ _ _ _ _ (f_contains_run _ _ _)). st_cbn.
      intros H Hc. rewrite Hc in H.
      destruct (getitem F (root_group F) "__db__") eqn:Eg; [eauto|].
      apply bind_inv_ok in H as (h & s2 & Hg' & _).
      unfold f_getitem in Hg'. rewrite bind_gets in Hg'. cbn [f] in Hg'.
      rewrite Eg in Hg'. discriminate.
  - destruct (initFile_create_spec _ _ _ _ Hg HD Hc)
      as (sc & Dc & ix & D1 & _ & _ & _ & Hle & Hix & Hlo & _ & Hr1 & Hg1 & HD1
          & Hle1 & _).
    assert (Hle01 : file_le D0 D1) by eauto using file_le_trans.
    unfold initialized. unfold the_db in HD1. rewrite Hr1, Hr in *.
    destruct (readonly s).
    + destruct Hm as (_ & _ & ->). rewrite HD1. cbn.
      rewrite (file_le_root_group _ _ Hle01).
      destruct Hlo as (Hgg & _). rewrite Hix in Hgg.
      rewrite (contains_getitem _ _ "{groups}" _ eq_refl
                 (getitem_mono _ _ _ _ _ Hle1 Hgg)). eauto.
    + injection HD1 as <-. rewrite (file_le_root_group _ _ Hle01).
      rewrite (contains_getitem _ _ "__db__" _ eq_refl
                 (getitem_mono _ _ _ _ _ Hle01 Hm)).
      rewrite (getitem_mono _ _ _ _ _ Hle01 Hm). eauto.
Qed.

(** ** Reading the address map *)

Lemma getUUIDByAddress_run s D dg had m a :
  the_db s = Some D → dbGrp s = Some dg →
  getitem D dg "{addr}" = Some had →
  attrs_of D (o_addr had) = Some m →
  getUUIDByAddress a s = (Ok (m !! str_addr a), s).
Proof.
  intros HD Hg Hi Hm. unfold getUUIDByAddress.
  rewrite (bind_ok _ _ _ _ _ (dbGrp_contains_run _ _ _ _ HD Hg)).
  rewrite (contains_getitem _ _ "{addr}" _ eq_refl Hi). cbn [negb].
  rewrite (bind_ok _ _ _ _ _ (dbGrp_getitem_run _ _ _ _ _ HD Hg Hi)).
  rewrite (bind_ok _ _ _ _ _ (db_attr_contains_run _ _ _ _ HD)).
  unfold attr_contains, attr_get. rewrite Hm.
  destruct (m !! str_addr a) as [v|] eqn:Ev; [|reflexivity].
  erewrite bind_ok; [reflexivity|].
  eapply db_attr_get_run; [exact HD|]. unfold attr_get. now rewrite Hm.
Qed.

(** A lookup in the address map leaves the instance as it was. *)
Lemma getUUIDByAddress_pure a s : (getUUIDByAddress a s).2 = s.
Proof.
  unfold getUUIDByAddress, dbGrp_contains, dbGrp_getitem, db_contains,
    db_getitem, db_attr_contains, db_attr_get, the_dbGrp, dbfile.
  cbv [bind gets ret raise lift_opt].
  repeat (case_match; simplify_eq; cbn [snd]; try reflexivity).
Qed.

(** ** The pairs a traversal writes *)

Lemma str_addr_inj a b : str_addr a = str_addr b → a = b.
Proof. unfold str_addr. apply (inj pretty). Qed.

Lemma record_all_cons m a u l :
  record_all m ((a, u) :: l) = record_all (<[str_addr a := u]> m) l.
Proof. reflexivity. Qed.

Lemma record_all_notin m l a :
  a ∉ map fst l → record_all m l !! str_addr a = m !! str_addr a.
Proof.
  revert m. induction l as [|[b u] l IH]; intros m Hn; [reflexivity|].
  cbn [map fst] in Hn. apply not_elem_of_cons in Hn as [Hab Hn].
  rewrite record_all_cons, IH by exact Hn.
  apply lookup_insert_ne. intros E. apply str_addr_inj in E. congruence.
Qed.

Lemma record_all_lookup m l a u :
  NoDup (map fst l) → (a, u) ∈ l → record_all m l !! str_addr a = Some u.
Proof.
  revert m. induction l as [|[b v] l IH]; intros m Hnd Hin.
  - apply elem_of_nil in Hin. contradiction.
  - cbn [map fst] in Hnd. apply NoDup_cons in Hnd as [Hb Hnd].
    rewrite record_all_cons. apply elem_of_cons in Hin as [[= -> ->]|Hin].
    + rewrite record_all_notin by exact Hb. apply lookup_insert_eq.
    + now apply IH.
Qed.

Lemma record_all_inv m l k u :
  record_all m l !! k = Some u →
  m !! k = Some u ∨ ∃ a, k = str_addr a ∧ (a, u) ∈ l.
Proof.
  revert m. induction l as [|[b v] l IH]; intros m H; [now left|].
  rewrite record_all_cons in H. destruct (IH _ H) as [Hm|(a & -> & Hin)].
  - destruct (decide (str_addr b = k)) as [<-|Hne].
    + rewrite lookup_insert_eq in Hm. injection Hm as ->.
      right. exists b. split; [reflexivity|]. apply elem_of_cons. now left.
    + rewrite lookup_insert_ne in Hm by exact Hne. now left.
  - right. exists a. split; [reflexivity|]. apply elem_of_cons. now right.
Qed.

Lemma assigned_fst c tr :
  map fst (assigned c tr)
  = map (λ po, o_addr po.2) (filter (λ po, registrable po = true) tr).
Proof.
  revert c. induction tr as [|po tr IH]; intros c; [reflexivity|].
  cbn [assigned]. destruct (registrable po) eqn:E.
  - rewrite filter_cons_True by exact E. cbn. now rewrite IH.
  - rewrite filter_cons_False by (rewrite E; discriminate). apply IH.
Qed.

Lemma assigned_NoDup_fst c tr :
  NoDup (map (λ po, o_addr po.2) tr) → NoDup (map fst (assigned c tr)).
Proof.
  rewrite assigned_fst. revert c. induction tr as [|po tr IH]; intros c Hnd.
  - constructor.
  - cbn [map] in Hnd. apply NoDup_cons in Hnd as [Hn Hnd].
    destruct (registrable po) eqn:E.
    + rewrite filter_cons_True by exact E. cbn [map]. apply NoDup_cons. split.
      * intros Hin. apply Hn. apply list_elem_of_fmap in Hin as (po' & -> & Hin').
        apply list_elem_of_fmap. exists po'. split; [reflexivity|].
        apply list_elem_of_filter in Hin'. tauto.
      * now apply IH.
    + rewrite filter_cons_False by (rewrite E; discriminate). now apply IH.
Qed.

Lemma assigned_registrable c tr po :
  po ∈ tr → registrable po = true → ∃ u, (o_addr po.2, u) ∈ assigned c tr.
Proof.
  revert c. induction tr as [|po' tr IH]; intros c Hin Hr.
  - apply elem_of_nil in Hin. contradiction.
  - cbn [assigned]. apply elem_of_cons in Hin as [->|Hin].
    + rewrite Hr. eexists. apply elem_of_cons. now left.
    + destruct (IH (if registrable po' then N.succ c else c) Hin Hr) as [u Hu].
      exists u. destruct (registrable po'); [apply elem_of_cons; now right|exact Hu].
Qed.

Lemma assigned_uuid_ge c tr a u :
  (a, u) ∈ assigned c tr → ∃ n, (c <= n)%N ∧ u = uuid_str n.
Proof.
  revert c. induction tr as [|po tr IH]; intros c Hin.
  - apply elem_of_nil in Hin. contradiction.
  - cbn [assigned] in Hin. destruct (registrable po).
    + apply elem_of_cons in Hin as [[= -> ->]|Hin].
      * exists c. split; [lia|reflexivity].
      * destruct (IH _ Hin) as (n & Hn & ->). exists n. split; [lia|reflexivity].
    + eauto.
Qed.

Section Fresh.

Hypothesis uuid_str_inj : ∀ n n', uuid_str n = uuid_str n' → n = n'.

Lemma assigned_NoDup_snd c tr : NoDup (map snd (assigned c tr)).
Proof.
  revert c. induction tr as [|po tr IH]; intros c; cbn [assigned].
  - constructor.
  - destruct (registrable po); [|apply IH]. cbn [map snd]. apply NoDup_cons.
    split; [|apply IH]. intros Hin.
    apply list_elem_of_fmap in Hin as ([a u] & Hu & Hin). cbn [snd] in Hu.
    destruct (assigned_uuid_ge _ _ _ _ Hin) as (n & Hn & ->).
    apply uuid_str_inj in Hu. lia.
Qed.

(** Two pairs with the same identifier are the same pair. *)
Lemma assigned_same_uuid c tr a a' u :
  (a, u) ∈ assigned c tr → (a', u) ∈ assigned c tr → a = a'.
Proof.
  pose proof (assigned_NoDup_snd c tr) as Hnd.
  induction (assigned c tr) as [|[b v] l IH]; intros H1 H2.
  - apply elem_of_nil in H1. contradiction.
  - cbn [map snd] in Hnd. apply NoDup_cons in Hnd as [Hv Hnd].
    apply elem_of_cons in H1 as [E1|H1]; apply elem_of_cons in H2 as [E2|H2].
    + congruence.
    + exfalso. apply Hv. apply list_elem_of_fmap. exists (a', u).
      split; [cbn; congruence|exact H2].
    + exfalso. apply Hv. apply list_elem_of_fmap. exists (a, u).
      split; [cbn; congruence|exact H1].
    + auto.
Qed.

End Fresh.

Lemma record_all_is_Some m l k :
  is_Some (m !! k) → is_Some (record_all m l !! k).
Proof.
  revert m. induction l as [|[b v] l IH]; intros m H; [exact H|].
  rewrite record_all_cons. apply IH.
  destruct (decide (str_addr b = k)) as [<-|Hne].
  - rewrite lookup_insert_eq. eauto.
  - now rewrite lookup_insert_ne.
Qed.

Lemma record_all_elem m l a u :
  (a, u) ∈ l → is_Some (record_all m l !! str_addr a).
Proof.
  revert m. induction l as [|[b v] l IH]; intros m Hin.
  - apply elem_of_nil in Hin. contradiction.
  - rewrite record_all_cons. apply elem_of_cons in Hin as [[= -> ->]|Hin].
    + apply record_all_is_Some. rewrite lookup_insert_eq. eauto.
    + now apply IH.
Qed.

(** ** C1: [initFile] twice *)

(** C1 (as the code has it). After a completed [initFile] a second call
    changes nothing but the status fields.  The first call returns at once
    when the index is there, which the code tells by the member [__db__]
    of a writable container and by the member [{groups}] of the shadow
    container; otherwise it leaves the root identifier, the collections of
    the mode, and an address-map entry for every object that the
    traversal reported and [visit] registers. *)
Theorem initFile_idempotent s s1 :
  initFile s = (Ok tt, s1) →
  initFile s1 = (Ok tt, set_http 200 None s1) ∧
  (initialized s = true →
     f s1 = f s ∧ dbf s1 = dbf s ∧ uuid_clock s1 = uuid_clock s) ∧
  (initialized s = false →
     ∃ sc D1 dg had,
       initFile_traverse sc = (Ok tt, s1) ∧
       the_db s1 = Some D1 ∧ dbGrp s1 = Some dg ∧
       (if readonly s then dg = root_group D1
        else getitem D1 (root_group D1) "__db__" = Some dg) ∧
       attr_get D1 dg "rootUUID" = Some (uuid_str (uuid_clock s)) ∧
       contains D1 dg "{groups}" = true ∧
       contains D1 dg "{datasets}" = true ∧
       contains D1 dg "{datatypes}" = true ∧
       getitem D1 dg "{addr}" = Some had ∧
       (readonly s = true → contains D1 dg "{paths}" = true) ∧
       (∀ po, po ∈ h5_visititems (f sc) → registrable po = true →
          attr_contains D1 had (str_addr (o_addr po.2)) = true)).
Proof.
  intros H. split; [|split].
  - destruct (initFile_leaves_initialized _ _ H) as (Hi & Hs & Hg).
    now apply initFile_again.
  - intros Hi. destruct (initFile_cases _ _ H) as [(_ & Hf & Hd & Hc & _)|(Hi' & _)].
    + auto.
    + congruence.
  - intros Hi. destruct (initFile_cases _ _ H)
      as [(Hi' & _)|(_ & sa & dg & D0 & Hc & Hg & HD & Hr & Hck & Hm)];
      [congruence|].
    destruct (initFile_create_spec _ _ _ _ Hg HD Hc)
      as (sc & Dc & ix & D1 & _ & Ht & _ & Hle & Hix & Hlo & Hru & Hr1 & Hg1 & HD1
          & Hle1 & Hm1 & Hd1).
    destruct Hlo as (Hgg & Hgs & Hgt & Hga & _ & Hgp). rewrite Hix in *.
    exists sc, D1, dg, (ix_addr ix).
    split; [unfold initFile_traverse; now rewrite bind_gets|].
    split; [exact HD1|]. split; [exact Hg1|].
    assert (Hle01 : file_le D0 D1) by eauto using file_le_trans.
    split.
    { rewrite Hr in *. destruct (readonly s).
      - destruct Hm as (_ & _ & ->). symmetry. now apply file_le_root_group.
      - rewrite (file_le_root_group _ _ Hle01). eauto using getitem_mono. }
    split.
    { unfold attr_get in *. rewrite Hd1, <- Hck. exact Hru. }
    split.
    { apply (contains_getitem _ _ "{groups}" _ eq_refl
               (getitem_mono _ _ _ _ _ Hle1 Hgg)). }
    split.
    { apply (contains_getitem _ _ "{datasets}" _ eq_refl
               (getitem_mono _ _ _ _ _ Hle1 Hgs)). }
    split.
    { apply (contains_getitem _ _ "{datatypes}" _ eq_refl
               (getitem_mono _ _ _ _ _ Hle1 Hgt)). }
    split; [eauto using getitem_mono|]. split.
    { intros Hro. rewrite Hr in Hgp. destruct (Hgp Hro) as (hpa & _ & Hp & _).
      apply (contains_getitem _ _ "{paths}" _ eq_refl
               (getitem_mono _ _ _ _ _ Hle1 Hp)). }
    intros po Hin Hreg.
    destruct (assigned_registrable (N.succ (uuid_clock sa)) _ _ Hin Hreg) as [u Hu].
    unfold attr_contains, attr_get. rewrite Hm1.
    destruct (record_all_elem ∅ _ _ _ Hu) as [v ->]. reflexivity.
Qed.

(** ** C2: the address map of a first traversal *)

(** C2. When the first [initFile] of an instance has completed, with
    identifiers that never repeat and a traversal that reports no object
    twice: every object that [visit] registered is found in the address
    map under the identifier it was given, by a lookup that leaves the
    instance as it was; objects at different addresses were given
    different identifiers; and no identifier stands for two addresses. *)
Theorem traversal_uuids_unique_stable s s1 :
  (∀ n n', uuid_str n = uuid_str n' → n = n') →
  (∀ F, NoDup (map (λ po, o_addr po.2) (h5_visititems F))) →
  initialized s = false →
  initFile s = (Ok tt, s1) →
  ∃ sc,
    initFile_traverse sc = (Ok tt, s1) ∧
    (readonly s = true → f sc = f s) ∧
    let asg := assigned (uuid_clock sc) (h5_visititems (f sc)) in
    (∀ po, po ∈ h5_visititems (f sc) → registrable po = true →
       ∃ u, (o_addr po.2, u) ∈ asg) ∧
    (∀ a u, (a, u) ∈ asg → getUUIDByAddress a s1 = (Ok (Some u), s1)) ∧
    (∀ a u a' u', (a, u) ∈ asg → (a', u') ∈ asg → a ≠ a' → u ≠ u') ∧
    (∀ a a' u, getUUIDByAddress a s1 = (Ok (Some u), s1) →
       getUUIDByAddress a' s1 = (Ok (Some u), s1) → a = a').
Proof.
  intros Hinj Honce Hi H.
  destruct (initFile_cases _ _ H)
    as [(Hi' & _)|(_ & sa & dg & D0 & Hc & Hg & HD & Hr & Hck & Hm)];
    [congruence|].
  destruct (initFile_create_spec _ _ _ _ Hg HD Hc)
    as (sc & Dc & ix & D1 & Hcol & Ht & _ & Hle & Hix & Hlo & Hru & Hr1 & Hg1 & HD1
        & Hle1 & Hm1 & Hd1).
  destruct (initFile_collections_spec _ _ _ _ Hg HD Hcol)
    as (_ & _ & _ & _ & _ & _ & _ & Hcc & _).
  destruct (extends_initFile_collections sa) as (_ & _ & Hfc & _).
  rewrite Hcol in Hfc. cbn [snd] in Hfc.
  destruct Hlo as (_ & _ & _ & Hga & _).
  pose proof (getitem_mono _ _ _ _ _ Hle1 Hga) as Hga1. rewrite Hix in Hga1.
  exists sc. split; [unfold initFile_traverse; now rewrite bind_gets|].
  split.
  { intros Hro. rewrite Hfc by congruence. rewrite Hro in Hm. tauto. }
  cbv zeta. rewrite Hcc.
  set (asg := assigned (N.succ (uuid_clock sa)) (h5_visititems (f sc))) in *.
  assert (Hrun : ∀ a, getUUIDByAddress a s1
                      = (Ok (record_all ∅ asg !! str_addr a), s1))
    by (intros a; eapply getUUIDByAddress_run; eauto).
  assert (Hnd : NoDup (map fst asg)) by (apply assigned_NoDup_fst, Honce).
  split; [intros po Hin Hreg; now apply assigned_registrable|].
  split.
  { intros a u Hin. rewrite Hrun, (record_all_lookup _ _ _ _ Hnd Hin). reflexivity. }
  split.
  { intros a u a' u' H1 H2 Hne ->. apply Hne.
    eapply assigned_same_uuid; eauto. }
  intros a a' u Ha Ha'. rewrite Hrun in Ha, Ha'.
  injection Ha as Ha. injection Ha' as Ha'.
  apply record_all_inv in Ha as [Ha|(b & Eb & Hb)];
    [rewrite lookup_empty in Ha; discriminate|].
  apply record_all_inv in Ha' as [Ha'|(b' & Eb' & Hb')];
    [rewrite lookup_empty in Ha'; discriminate|].
  apply str_addr_inj in Eb, Eb'. subst b b'.
  eapply assigned_same_uuid; eauto.
Qed.

(** ** The listing loop *)

Lemma bind_f_getlink {B} g n (k : option LinkObj → M B) s :
  bind (f_getlink g n) k s
  = match getlink (f s) g n with
    | Some OtherLink => (Raise TypeError, s)
    | r => k r s
    end.
Proof.
  unfold f_getlink, bind, gets.
  destruct (getlink (f s) g n) as [[]|]; reflexivity.
Qed.

Lemma f_getitem_inv g p s h s' :
  f_getitem g p s = (Ok h, s') → getitem (f s) g p = Some h ∧ s' = s.
Proof. unfold f_getitem. rewrite bind_gets. apply lift_opt_inv. Qed.

Lemma filter_pass (c : bool) (o : option string) :
  truthy o && c = false → truthy o = true → c = false.
Proof. intros H Ht. rewrite Ht in H. exact H. Qed.

(** One pass of the loop body leaves the instance as it was, and either
    skips the member or appends its descriptor. *)
Lemma getItems_body_inv parent classFilter marker limit k l s fl s' :
  getItems_body parent classFilter marker limit k l s = (Ok fl, s') →
  s' = s ∧
  ((∃ l0, fl = Continue l0 ∧ items l0 = items l ∧ count l0 = count l ∧
      gotMarker l0
      = (if String.eqb k "__db__" then gotMarker l
         else gotMarker l || bool_decide (Some k = marker)) ∧
      (String.eqb k "__db__" = false → gotMarker l = true →
       truthy classFilter = false → listed (f s) parent k = false))
   ∨
   (∃ item l0, fl = append_item limit item l0 ∧ items l0 = items l ∧
      count l0 = count l ∧ gotMarker l0 = true ∧ gotMarker l = true ∧
      String.eqb k "__db__" = false ∧ listed (f s) parent k = true ∧
      dict_get item "name" = Some (VStr k) ∧
      ∃ cls, dict_get item "class" = Some (VStr cls) ∧
        (truthy classFilter = true → classFilter = Some cls))).
Proof.
  unfold getItems_body, listed.
  destruct (String.eqb k "__db__") eqn:Ek.
  { intros [= <- <-]. split; [reflexivity|]. left. exists l.
    split; [reflexivity|]. split; [reflexivity|]. split; [reflexivity|].
    split; [reflexivity|]. discriminate. }
  destruct (gotMarker l) eqn:Eg; cbn [negb orb].
  2:{ destruct (bool_decide (Some k = marker)); intros [= <- <-];
      (split; [reflexivity|]); left; eexists;
      (split; [reflexivity|]); cbn [items count gotMarker];
      (split; [reflexivity|]); (split; [reflexivity|]);
      (split; [first [reflexivity|exact Eg]|]); discriminate. }
  rewrite bind_f_getlink.
  destruct (getlink (f s) parent k) as [[b|path|fn path|]|] eqn:El.
  - intros H. apply bind_inv_ok in H as (obj & s1 & Hg & H).
    apply f_getitem_inv in Hg as [Hg ->].
    destruct (truthy classFilter
              && negb (bool_decide (Some (o_class obj) = classFilter))) eqn:Ec.
    + injection H as <- <-. split; [reflexivity|]. left. eexists.
      split; [reflexivity|]. cbn [items count gotMarker].
      split; [reflexivity|]. split; [reflexivity|]. split; [reflexivity|].
      intros _ _ Ht. rewrite Ht in Ec. discriminate.
    + apply bind_inv_ok in H as (u & s2 & Hu & H).
      pose proof (getUUIDByAddress_pure (o_addr obj) s) as Hp.
      rewrite Hu in Hp. cbn [snd] in Hp. subst s2.
      cbv [f_attr_len bind gets ret] in H. injection H as <- <-.
      split; [reflexivity|]. right. eexists _, _.
      split; [reflexivity|]. cbn [items count gotMarker].
      split; [reflexivity|]. split; [reflexivity|]. split; [reflexivity|].
      split; [reflexivity|]. split; [reflexivity|]. split; [reflexivity|].
      split; [reflexivity|]. exists (o_class obj). split; [reflexivity|].
      intros Ht. apply filter_pass in Ec; [|exact Ht].
      apply negb_false_iff, bool_decide_eq_true_1 in Ec. now symmetry.
  - destruct (truthy classFilter && opt_neq classFilter "SoftLink") eqn:Ec.
    + intros [= <- <-]. split; [reflexivity|]. left. exists l.
      split; [reflexivity|]. split; [reflexivity|]. split; [reflexivity|].
      split; [now rewrite Eg|].
      intros _ _ Ht. rewrite Ht in Ec. discriminate.
    + intros [= <- <-]. split; [reflexivity|]. right. eexists _, l.
      split; [reflexivity|]. split; [reflexivity|]. split; [reflexivity|].
      split; [exact Eg|]. split; [reflexivity|]. split; [reflexivity|].
      split; [reflexivity|]. split; [reflexivity|].
      exists "SoftLink". split; [reflexivity|].
      intros Ht. apply filter_pass in Ec; [|exact Ht].
      destruct classFilter as [c|]; [|discriminate]. cbn in Ec.
      apply negb_false_iff, String.eqb_eq in Ec. now subst.
  - unfold typeFilter, bind, raise. discriminate.
  - discriminate.
  - destruct (objClass l); [|discriminate].
    intros [= <- <-]. split; [reflexivity|]. left. exists l.
    split; [reflexivity|]. split; [reflexivity|]. split; [reflexivity|].
    split; [now rewrite Eg|]. reflexivity.
Qed.

Lemma append_item_inv limit item l0 :
  let l1 := mkLocals (items l0 ++ [item])%list (gotMarker l0) (count l0 + 1)
                     (objClass l0) in
  (append_item limit item l0 = Break l1 ∧ 0 < limit ∧ count l0 + 1 = limit) ∨
  (append_item limit item l0 = Continue l1 ∧ ¬ (0 < limit ∧ count l0 + 1 = limit)).
Proof.
  cbv zeta. unfold append_item. cbn [count].
  destruct (0 <? limit) eqn:E1; cbn [andb].
  - destruct (count l0 + 1 =? limit) eqn:E2.
    + left. split; [reflexivity|]. lia.
    + right. split; [reflexivity|]. lia.
  - right. split; [reflexivity|]. lia.
Qed.

(** What the loop keeps: the counter is the length of the list and stays
    below a positive limit while the loop runs, and every descriptor is
    well formed. *)
Lemma getItems_loop_inv parent classFilter marker limit ks l s l' s' :
  getItems_loop parent classFilter marker limit ks l s = (Ok l', s') →
  count l = Z.of_nat (length (items l)) →
  (0 < limit → count l < limit) →
  Forall (item_ok classFilter) (items l) →
  s' = s ∧
  count l' = Z.of_nat (length (items l')) ∧
  (0 < limit → count l' ≤ limit) ∧
  Forall (item_ok classFilter) (items l').
Proof.
  revert l. induction ks as [|k ks IH]; intros l H Hc Hl Hf.
  - injection H as <- <-. split; [reflexivity|]. split; [exact Hc|].
    split; [lia|exact Hf].
  - cbn [getItems_loop] in H. apply bind_inv_ok in H as (fl & s1 & Hb & H).
    apply getItems_body_inv in Hb
      as [-> [(l0 & -> & Hi & Hn & _)
             |(item & l0 & -> & Hi & Hn & _ & _ & Ek & _ & Hnm & cls & Hcl & Hcf)]].
    + apply IH in H; [exact H|congruence|intros; rewrite Hn; auto|now rewrite Hi].
    + assert (Hok : Forall (item_ok classFilter) (items l0 ++ [item])%list).
      { apply Forall_app. split; [now rewrite Hi|].
        apply Forall_cons. split; [|apply Forall_nil_2].
        exists k, cls. split; [exact Hnm|]. split; [|auto].
        intros ->. discriminate Ek. }
      assert (Hlen : count l0 + 1
                     = Z.of_nat (length (items l0 ++ [item])%list)).
      { rewrite length_app. cbn [length]. rewrite Hn, Hi, Hc. lia. }
      destruct (append_item_inv limit item l0) as [(E & H0 & H1)|(E & Hne)];
        rewrite E in H.
      * injection H as <- <-. cbn [items count].
        split; [reflexivity|]. split; [exact Hlen|]. split; [lia|exact Hok].
      * apply IH in H; [exact H|exact Hlen| |exact Hok].
        cbn [count]. intros H0. specialize (Hl H0). rewrite Hn. lia.
Qed.

Lemma f_keys_inv g s ks s' :
  f_keys g s = (Ok ks, s') → keys (f s) g = Some ks ∧ s' = s.
Proof. unfold f_keys. rewrite bind_gets. apply lift_opt_inv. Qed.

Lemma f_keys_run g s ks : keys (f s) g = Some ks → f_keys g s = (Ok ks, s).
Proof. intros H. unfold f_keys. rewrite bind_gets, H. reflexivity. Qed.

(** A listing that returns a list went through the loop once. *)
Lemma getItems_inv grpUuid classFilter marker limit s its s' :
  getItems grpUuid classFilter marker limit s = (Ok (Some its), s') →
  ∃ s0 parent ks l',
    initFile s = (Ok tt, s0) ∧
    getGroupByUuid grpUuid s0 = (Ok (Some parent), s') ∧
    keys (f s') parent = Some ks ∧
    getItems_loop parent classFilter marker limit ks
      (mkLocals [] (match marker with Some _ => false | None => true end) 0 None)
      s' = (Ok l', s') ∧
    its = items l'.
Proof.
  unfold getItems. intros H.
  apply bind_inv_ok in H as ([] & s0 & Hi & H).
  apply bind_inv_ok in H as (p & s1 & Hg & H).
  destruct p as [parent|]; [|discriminate].
  apply bind_inv_ok in H as (ks & s2 & Hk & H).
  apply f_keys_inv in Hk as [Hk ->].
  apply bind_inv_ok in H as (l' & s3 & Hl & H).
  injection H as <- <-.
  assert (s3 = s1) as ->.
  { eapply getItems_loop_inv in Hl as [-> _]; [reflexivity|reflexivity|cbn; lia|].
    apply Forall_nil_2. }
  exists s0, parent, ks, l'. auto.
Qed.

(** X1. With a positive limit a listing never returns more descriptors
    than the limit. *)
Theorem getItems_limit_bound grpUuid classFilter marker limit s its s' :
  0 < limit →
  getItems grpUuid classFilter marker limit s = (Ok (Some its), s') →
  Z.of_nat (length its) ≤ limit.
Proof.
  intros Hl H.
  apply getItems_inv in H as (s0 & parent & ks & l' & _ & _ & _ & Hloop & ->).
  apply getItems_loop_inv in Hloop as (_ & Hc & Hb & _);
    [|reflexivity|cbn; lia|apply Forall_nil_2].
  rewrite <- Hc. auto.
Qed.

(** X2. With a class filter, every descriptor a listing returns is of the
    class the filter names, and no descriptor is named [__db__] whatever
    the filter. *)
Theorem getItems_filter_sound grpUuid classFilter marker limit s its s' it :
  getItems grpUuid classFilter marker limit s = (Ok (Some its), s') →
  it ∈ its →
  (∃ k, dict_get it "name" = Some (VStr k) ∧ k ≠ "__db__") ∧
  (∀ c, classFilter = Some c → c ≠ "" →
     dict_get it "class" = Some (VStr c)).
Proof.
  intros H Hin.
  apply getItems_inv in H as (s0 & parent & ks & l' & _ & _ & _ & Hloop & ->).
  apply getItems_loop_inv in Hloop as (_ & _ & _ & Hf);
    [|reflexivity|cbn; lia|apply Forall_nil_2].
  rewrite Forall_forall in Hf. destruct (Hf it Hin) as (k & cls & Hn & Hk & Hc & Hcf).
  split; [eauto|]. intros c -> Hne.
  assert (Ht : truthy (Some c) = true).
  { cbn. apply negb_true_iff. now apply String.eqb_neq. }
  specialize (Hcf Ht). injection Hcf as ->. exact Hc.
Qed.
(** Without a class filter the loop appends, in order, the members of
    its window that it can describe, until the limit is reached. *)
Lemma getItems_loop_page parent classFilter marker limit ks l s l' s' :
  truthy classFilter = false →
  getItems_loop parent classFilter marker limit ks l s = (Ok l', s') →
  (0 < limit → count l < limit) →
  ∃ new, items l' = (items l ++ new)%list ∧
    map (λ it, dict_get it "name") new
    = map (λ k, Some (VStr k))
          (page limit (count l)
             (filter (λ k, listed (f s) parent k = true)
                     (window marker (gotMarker l) ks))).
Proof.
  intros Hcf. revert l. induction ks as [|k ks IH]; intros l H Hl.
  - injection H as <- <-. exists []. split; [now rewrite app_nil_r|].
    unfold page. cbn [window]. rewrite filter_nil.
    destruct (0 <? limit); [now rewrite take_nil|reflexivity].
  - cbn [getItems_loop] in H. apply bind_inv_ok in H as (fl & s1 & Hb & H).
    apply getItems_body_inv in Hb
      as [-> [(l0 & -> & Hi & Hn & Hg & Hnl)
             |(item & l0 & -> & Hi & Hn & Hg0 & Hg & Ek & Hli & Hnm & _)]].
    + apply IH in H as (new & Hnew & Hnames); [|rewrite Hn; exact Hl].
      exists new. split; [congruence|]. rewrite Hnames, Hn. do 2 f_equal.
      cbn [window]. destruct (String.eqb k "__db__") eqn:Ek; [now rewrite Hg|].
      destruct (gotMarker l) eqn:Eg; cbn [orb] in Hg; rewrite Hg.
      * rewrite filter_cons_False; [reflexivity|].
        rewrite Hnl by auto. discriminate.
      * reflexivity.
    + cbn [window]. rewrite Ek, Hg, filter_cons_True by exact Hli.
      destruct (append_item_inv limit item l0) as [(E & H0 & H1)|(E & Hne)];
        rewrite E in H.
      * injection H as <- <-. cbn [items]. exists [item].
        split; [now rewrite Hi|]. cbn [map]. rewrite Hnm.
        unfold page. rewrite (proj2 (Z.ltb_lt _ _) H0).
        replace (Z.to_nat (limit - count l)) with 1%nat by lia.
        cbn [take]. now rewrite take_0.
      * apply IH in H as (new & Hnew & Hnames).
        2:{ cbn [count]. intros H0. specialize (Hl H0). lia. }
        cbn [items count gotMarker] in Hnew, Hnames. rewrite Hg0 in Hnames.
        exists (item :: new). split.
        { rewrite Hnew, Hi, <- app_assoc. reflexivity. }
        cbn [map]. rewrite Hnm, Hnames, Hn. unfold page.
        destruct (0 <? limit) eqn:E0; [|reflexivity].
        apply Z.ltb_lt in E0. specialize (Hl E0).
        replace (Z.to_nat (limit - count l))
          with (S (Z.to_nat (limit - (count l + 1)))) by lia.
        reflexivity.
Qed.

(** X3. Without a class filter, a listing that returns describes exactly
    the members that follow the marker (all members when there is no
    marker), in the order of the group, up to the limit when it is
    positive; the name [__db__] and the members whose link is neither a
    hard link nor a symbolic link are left out.  The instance is left as
    [getGroupByUuid] left it. *)
Theorem getItems_page grpUuid classFilter marker limit s its s' :
  truthy classFilter = false →
  getItems grpUuid classFilter marker limit s = (Ok (Some its), s') →
  ∃ s0 parent ks,
    initFile s = (Ok tt, s0) ∧
    getGroupByUuid grpUuid s0 = (Ok (Some parent), s') ∧
    keys (f s') parent = Some ks ∧
    map (λ it, dict_get it "name") its
    = map (λ k, Some (VStr k))
          (page limit 0
             (filter (λ k, listed (f s') parent k = true)
                     (window marker
                        (match marker with Some _ => false | None => true end)
                        ks))).
Proof.
  intros Hcf H.
  apply getItems_inv in H as (s0 & parent & ks & l' & Hi & Hg & Hk & Hloop & ->).
  exists s0, parent, ks. split; [exact Hi|]. split; [exact Hg|].
  split; [exact Hk|].
  apply (getItems_loop_page _ _ _ _ _ _ _ _ _ Hcf) in Hloop
    as (new & Hnew & Hnames); [|cbn; lia].
  cbn [items count gotMarker app] in Hnew, Hnames. rewrite Hnew. exact Hnames.
Qed.

(** ** Members with a link of no known class *)

(** A full pass (no marker, no limit) over member names of which one has
    a link of no known class does not come to an end: it raises at that
    member, if not before. *)
Lemma getItems_loop_other parent classFilter limit k ks : ∀ l s,
  limit ≤ 0 → gotMarker l = true →
  k ∈ ks → k ≠ "__db__" →
  getlink (f s) parent k = Some OtherLink →
  ∃ e s', getItems_loop parent classFilter None limit ks l s = (Raise e, s').
Proof.
  induction ks as [|k' ks IH]; intros l s Hlim Hg Hin Hk Hl.
  - apply elem_of_nil in Hin. contradiction.
  - cbn [getItems_loop]. unfold bind at 1.
    destruct (getItems_body parent classFilter None limit k' l s)
      as [[fl|e] s1] eqn:Eb; [|eauto].
    destruct (decide (k' = k)) as [->|Hne].
    { rewrite getItems_body_other in Eb by assumption. discriminate. }
    apply elem_of_cons in Hin as [->|Hin]; [congruence|].
    apply getItems_body_inv in Eb
      as [-> [(l0 & -> & _ & _ & Hg0 & _)
             |(item & l0 & -> & _ & _ & Hg0 & _)]].
    + apply IH; try assumption. rewrite Hg0, Hg.
      now destruct (String.eqb k' "__db__").
    + destruct (append_item_inv limit item l0) as [(_ & H0 & _)|(-> & _)];
        [lia|].
      apply IH; try assumption.
Qed.

(** C7 (as the code has it). When a group has a member whose link is
    neither hard, symbolic nor external, the lookup of the link at line
    299 raises [TypeError] whatever came before, so the branch of lines
    323-325 is not reached for it; a listing of the whole group (no
    marker, no limit) skips nothing and returns no list: it raises. *)
Theorem getItems_unexpected_link_raises grpUuid classFilter s s0 parent s1 ks k :
  initFile s = (Ok tt, s0) →
  getGroupByUuid grpUuid s0 = (Ok (Some parent), s1) →
  keys (f s1) parent = Some ks →
  k ∈ ks → k ≠ "__db__" →
  getlink (f s1) parent k = Some OtherLink →
  (∀ l, gotMarker l = true →
     getItems_body parent classFilter None 0 k l s1 = (Raise TypeError, s1)) ∧
  ∃ e s', getItems grpUuid classFilter None 0 s = (Raise e, s').
Proof.
  intros Hi Hg Hks Hin Hk Hl. split.
  - intros l Hgm. now apply getItems_body_other.
  - destruct (getItems_loop_other parent classFilter 0 k ks
                (mkLocals [] true 0 None) s1) as (e & s' & He);
      [lia|reflexivity|assumption..|].
    exists e, s'. unfold getItems.
    rewrite (bind_ok _ _ _ _ _ Hi), (bind_ok _ _ _ _ _ Hg).
    rewrite (bind_ok _ _ _ _ _ (f_keys_run _ _ _ Hks)).
    now apply bind_raise.
Qed.

(** ** Read-only instances: what never touches the source container *)

Lemma ro_safe_ret {A} (a : A) : ro_safe (ret a).
Proof. intros s H. auto. Qed.

Lemma ro_safe_raise {A} e : ro_safe (@raise A e).
Proof. intros s H. auto. Qed.

Lemma ro_safe_gets {A} (g : Hdf5db → A) : ro_safe (gets g).
Proof. intros s H. auto. Qed.

Lemma ro_safe_lift_opt {A} e (o : option A) : ro_safe (lift_opt e o).
Proof. destruct o; [apply ro_safe_ret|apply ro_safe_raise]. Qed.

Lemma ro_safe_bind {A B} (m : M A) (k : A → M B) :
  ro_safe m → (∀ a, ro_safe (k a)) → ro_safe (bind m k).
Proof.
  intros Hm Hk s H. unfold bind. specialize (Hm s H).
  destruct (m s) as [[a|e] s1]; cbn [snd] in *; [|exact Hm].
  destruct Hm as [Hf Hr]. destruct (Hk a s1 Hr) as [Hf' Hr'].
  split; congruence.
Qed.

Lemma ro_safe_extends {A} (m : M A) : extends m → ro_safe m.
Proof.
  intros He s H. destruct (He s) as (Hr & _ & Hf & _).
  split; [auto|congruence].
Qed.

Lemma ro_safe_status (u : Hdf5db → Z * option string) :
  ro_safe (modify (λ s, set_http (u s).1 (u s).2 s)).
Proof. intros s H. destruct s. split; [reflexivity|exact H]. Qed.

Lemma ro_safe_set_http c m : ro_safe (modify (set_http c m)).
Proof. intros s H. destruct s. split; [reflexivity|exact H]. Qed.

Lemma ro_safe_initFile : ro_safe initFile.
Proof. intros s H. now apply initFile_readonly. Qed.

(** The branch a read-only instance takes after the mode test. *)
Lemma ro_safe_guard {A} (m m' : M A) :
  ro_safe m → ro_safe (ro ← gets readonly; if ro then m else m').
Proof. intros Hm s H. rewrite bind_gets, H. now apply Hm. Qed.

Lemma ro_safe_f_getitem g p : ro_safe (f_getitem g p).
Proof.
  unfold f_getitem. apply ro_safe_bind; [apply ro_safe_gets|].
  intros. apply ro_safe_lift_opt.
Qed.

Lemma ro_safe_f_contains g p : ro_safe (f_contains g p).
Proof.
  unfold f_contains. apply ro_safe_bind; [apply ro_safe_gets|].
  intros. apply ro_safe_ret.
Qed.

Lemma ro_safe_f_delitem_mode g n : ro_safe (f_delitem_mode g n).
Proof. unfold f_delitem_mode. apply ro_safe_guard, ro_safe_raise. Qed.

#[local] Hint Resolve ro_safe_ret ro_safe_raise ro_safe_gets ro_safe_lift_opt
  ro_safe_set_http ro_safe_initFile ro_safe_f_getitem ro_safe_f_contains
  ro_safe_f_delitem_mode : ext.

Ltac ro_safe_step :=
  first
    [ solve [eauto with ext]
    | apply ro_safe_extends; solve [eauto with ext]
    | apply ro_safe_bind; [|intros ?]
    | match goal with |- ro_safe (if ?b then _ else _) => destruct b end
    | match goal with |- ro_safe (match ?o with Some _ => _ | None => _ end) =>
        destruct o end ].

Lemma ro_safe_by_path objUuid cls : ro_safe (by_path objUuid cls).
Proof. unfold by_path, f_root. repeat ro_safe_step. Qed.

Lemma ro_safe_not_found_if_none obj : ro_safe (not_found_if_none obj).
Proof. unfold not_found_if_none. repeat ro_safe_step. Qed.

Lemma ro_safe_getGroupByUuid objUuid : ro_safe (getGroupByUuid objUuid).
Proof.
  unfold getGroupByUuid, f_root.
  repeat first [apply ro_safe_by_path | apply ro_safe_not_found_if_none
               | ro_safe_step].
Qed.

Lemma ro_safe_getDatasetByUuid objUuid : ro_safe (getDatasetByUuid objUuid).
Proof.
  unfold getDatasetByUuid.
  repeat first [apply ro_safe_by_path | apply ro_safe_not_found_if_none
               | ro_safe_step].
Qed.

(** X4. On a read-only instance [createGroup], [createSoftLink] and
    [deleteGroup] never change the source container, and whenever they
    return they return their failure value ([None], [False], [False])
    with status 403. *)
Theorem readonly_updates_refused s :
  readonly s = true →
  (f (createGroup s).2 = f s ∧
   ∀ r s', createGroup s = (Ok r, s') →
     r = None ∧ httpStatus s' = 403 ∧
     httpMessage s' = Some "Updates are not allowed") ∧
  (∀ parentUUID linkPath linkName,
     f (createSoftLink parentUUID linkPath linkName s).2 = f s ∧
     ∀ r s', createSoftLink parentUUID linkPath linkName s = (Ok r, s') →
       r = false ∧ httpStatus s' = 403 ∧
       httpMessage s' = Some "Updates are not allowed") ∧
  (∀ objUuid,
     f (deleteGroup objUuid s).2 = f s ∧
     ∀ r s', deleteGroup objUuid s = (Ok r, s') →
       r = Some false ∧ httpStatus s' = 403 ∧
       httpMessage s' = Some "Updates are not allowed").
Proof.
  intros Hro. destruct (initFile_readonly s Hro) as [Hf Hr].
  split; [|split]; intros; (split; [|intros r s']).
  - unfold createGroup, bind at 1.
    destruct (initFile s) as [[[]|e] s1]; [|exact Hf].
    cbn [snd] in Hr, Hf. destruct s1. mrun. subst. reflexivity.
  - unfold createGroup, bind at 1.
    destruct (initFile s) as [[[]|e] s1]; [|discriminate].
    cbn [snd] in Hr. destruct s1. mrun. subst. intros [= <- <-]. auto.
  - unfold createSoftLink, bind at 1.
    destruct (initFile s) as [[[]|e] s1]; [|exact Hf].
    cbn [snd] in Hr, Hf. destruct s1. mrun. subst. reflexivity.
  - unfold createSoftLink, bind at 1.
    destruct (initFile s) as [[[]|e] s1]; [|discriminate].
    cbn [snd] in Hr. destruct s1. mrun. subst. intros [= <- <-]. auto.
  - unfold deleteGroup, bind at 1.
    destruct (initFile s) as [[[]|e] s1]; [|exact Hf].
    cbn [snd] in Hr, Hf. destruct s1. mrun. subst. reflexivity.
  - unfold deleteGroup, bind at 1.
    destruct (initFile s) as [[[]|e] s1]; [|discriminate].
    cbn [snd] in Hr. destruct s1. mrun. subst. intros [= <- <-]. auto.
Qed.

(** X5. [unlinkItem] has no mode test of its own, and on a read-only
    instance it still never changes the source container: whatever the
    arguments, and also when it raises, the container is as before.  The
    lookups [getGroupByUuid] and [getDatasetByUuid] share this. *)
Theorem readonly_lookups_keep_source s :
  readonly s = true →
  (∀ grpUuid linkName, f (unlinkItem grpUuid linkName s).2 = f s) ∧
  (∀ objUuid, f (getGroupByUuid objUuid s).2 = f s) ∧
  (∀ objUuid, f (getDatasetByUuid objUuid s).2 = f s).
Proof.
  intros Hro. split; [|split].
  - intros grpUuid linkName.
    assert (H : ro_safe (unlinkItem grpUuid linkName)).
    { unfold unlinkItem. apply ro_safe_bind; [apply ro_safe_getGroupByUuid|].
      intros [grp|].
      - apply ro_safe_bind; [apply ro_safe_f_contains|]. intros c.
        destruct c; cbn [negb]; [|apply ro_safe_ret].
        apply ro_safe_bind; [apply ro_safe_f_delitem_mode|].
        intros. apply ro_safe_ret.
      - apply ro_safe_bind; [|intros; apply ro_safe_ret].
        apply (ro_safe_status (λ s, (404, httpMessage s))). }
    now apply H.
  - intros objUuid. now apply ro_safe_getGroupByUuid.
  - intros objUuid. now apply ro_safe_getDatasetByUuid.
Qed.
(** ** Lookups by path *)

Lemma under_db_relative p : under_db p = true → p ≠ "" ∧ absolute p = false.
Proof.
  unfold under_db. destruct p as [|c p]; [discriminate|].
  intros H. apply andb_prop in H as [_ H]. apply String.eqb_eq in H.
  cbn in H. injection H as -> _. split; [discriminate|reflexivity].
Qed.

(** From the root group a relative path and the same path after a slash
    lead to the same handle. *)
Lemma getitem_root_absolute F p :
  p ≠ "" → absolute p = false →
  getitem F (root_group F) ("/" +:+ p) = getitem F (root_group F) p.
Proof.
  intros Hne Ha. unfold getitem, child_name, path_parts.
  rewrite (proj2 (String.eqb_neq p "") Hne), Ha.
  change ("/" +:+ p) with (String "/" p).
  cbn [absolute String.eqb split_slash Ascii.eqb Bool.eqb root_group
       o_addr o_name].
  rewrite filter_cons_False by (cbn; discriminate). reflexivity.
Qed.

(** X6. [getObjByPath] never changes the instance, and its test for the
    index is on the text of the path only: an object below [__db__] is
    withheld under its relative path and returned under the same path
    written with a leading slash. *)
Theorem getObjByPath_prefix_only p s h :
  under_db p = true →
  getitem (f s) (root_group (f s)) p = Some h →
  getObjByPath p s = (Ok None, s) ∧
  getObjByPath ("/" +:+ p) s = (Ok (Some h), s).
Proof.
  intros Hu Hg. destruct (under_db_relative p Hu) as [Hne Ha].
  unfold getObjByPath. rewrite Hu. split; [reflexivity|].
  assert (under_db ("/" +:+ p) = false) as ->.
  { change ("/" +:+ p) with (String "/" p).
    unfold under_db. apply andb_false_iff. right.
    destruct p as [|c p]; reflexivity. }
  rewrite (bind_ok _ _ _ _ _ (f_root_run s)).
  erewrite bind_ok; [reflexivity|].
  apply f_getitem_run. rewrite getitem_root_absolute by assumption. exact Hg.
Qed.

(** [g['/']] is the root group, whatever [g] is. *)
Lemma getitem_slash F g : getitem F g "/" = handle F (root F) "/".
Proof.
  unfold getitem.
  assert (path_parts "/" = []) as -> by reflexivity.
  rewrite walk_nil. cbn [String.eqb Ascii.eqb Bool.eqb absolute child_name].
  unfold handle. destruct (objs F !! root F) eqn:E; [|reflexivity].
  now rewrite E.
Qed.

(** ** Lookups by identifier *)

Lemma by_path_class objUuid cls s o s' :
  by_path objUuid cls s = (Ok (Some o), s') → o_class o = cls.
Proof.
  unfold by_path. intros H.
  apply bind_inv_ok in H as (c & s1 & _ & H).
  destruct c; cbn [negb] in H; [|discriminate].
  apply bind_inv_ok in H as (paths & s2 & _ & H).
  apply bind_inv_ok in H as (c & s3 & _ & H).
  destruct c; [|discriminate].
  apply bind_inv_ok in H as (path & s4 & _ & H).
  apply bind_inv_ok in H as (r & s5 & _ & H).
  apply bind_inv_ok in H as (obj & s6 & _ & H).
  destruct (String.eqb (o_class obj) cls) eqn:E; cbn [negb] in H;
    [|discriminate].
  injection H as <- <-. now apply String.eqb_eq.
Qed.

Lemma not_found_if_none_inv obj s r s' :
  not_found_if_none obj s = (Ok r, s') →
  r = obj ∧
  (obj = None → httpStatus s' = 404 ∧ httpMessage s' = Some "Resource not found") ∧
  (is_Some obj → s' = s).
Proof.
  destruct obj as [o|]; cbn.
  - intros [= <- <-]. split; [reflexivity|]. split; [discriminate|reflexivity].
  - intros [= <- <-]. split; [reflexivity|]. split; [|intros [? [=]]].
    intros _. destruct s. split; reflexivity.
Qed.

(** X7. The two lookups by identifier report absence the same way: a
    result of [None] comes with status 404 and the message
    [Resource not found].  On a read-only instance, where the object is
    reopened by its recorded path, an object that is returned has the
    class asked for ([getGroupByUuid] also returns the root group for the
    root identifier). *)
Theorem lookup_by_uuid_protocol objUuid s :
  (∀ r s', getDatasetByUuid objUuid s = (Ok r, s') →
     (r = None → httpStatus s' = 404 ∧
                 httpMessage s' = Some "Resource not found") ∧
     (∀ o, r = Some o → readonly s = true → o_class o = "Dataset")) ∧
  (∀ r s', getGroupByUuid objUuid s = (Ok r, s') →
     (r = None → httpStatus s' = 404 ∧
                 httpMessage s' = Some "Resource not found") ∧
     (∀ o, r = Some o → readonly s = true →
        o_class o = "Group" ∨ (o_addr o = root (f s) ∧ o_name o = "/"))).
Proof.
  split; intros r s' H.
  - unfold getDatasetByUuid in H.
    apply bind_inv_ok in H as ([] & s0 & Hi & H). rewrite bind_gets in H.
    apply bind_inv_ok in H as (obj & s1 & Ho & H).
    apply not_found_if_none_inv in H as (-> & Hn & _).
    split; [exact Hn|]. intros o -> Hro.
    pose proof (ro_safe_initFile s Hro) as [_ Hr0]. rewrite Hi in Hr0.
    cbn [snd] in Hr0. rewrite Hr0 in Ho. cbn [negb] in Ho.
    now apply by_path_class in Ho.
  - unfold getGroupByUuid in H.
    apply bind_inv_ok in H as ([] & s0 & Hi & H).
    apply bind_inv_ok in H as (g & s1 & Hg & H).
    apply the_dbGrp_inv in Hg as [_ ->].
    apply bind_inv_ok in H as (ru & s1 & Ha & H).
    assert (s1 = s0) as ->.
    { unfold db_attr_get in Ha. apply bind_inv_ok in Ha as (D & s2 & Hd & Ha).
      apply dbfile_inv in Hd as [_ ->]. now apply lift_opt_inv in Ha. }
    rewrite bind_gets in H.
    apply bind_inv_ok in H as (obj & s1 & Ho & H).
    apply not_found_if_none_inv in H as (-> & Hn & _).
    split; [exact Hn|]. intros o -> Hro.
    pose proof (ro_safe_initFile s Hro) as [Hf0 Hr0]. rewrite Hi in Hf0, Hr0.
    cbn [snd] in Hf0, Hr0. rewrite Hr0 in Ho. cbn [negb] in Ho.
    destruct (String.eqb objUuid ru).
    + right. rewrite (bind_ok _ _ _ _ _ (f_root_run s0)) in Ho.
      apply bind_inv_ok in Ho as (o' & s2 & Hgi & Ho).
      cbv [ret] in Ho. injection Ho as -> <-.
      apply f_getitem_inv in Hgi as [Hgi _]. rewrite Hf0 in Hgi.
      rewrite getitem_slash in Hgi. unfold handle in Hgi.
      destruct (objs (f s) !! root (f s)); [|discriminate].
      injection Hgi as <-. split; reflexivity.
    + left. now apply by_path_class in Ho.
Qed.
Lemma db_attr_get_inv o k s v s' :
  db_attr_get o k s = (Ok v, s') →
  ∃ D, the_db s = Some D ∧ attr_get D o k = Some v ∧ s' = s.
Proof.
  unfold db_attr_get. intros H.
  apply bind_inv_ok in H as (D & s1 & Hd & H). apply dbfile_inv in Hd as [HD ->].
  apply lift_opt_inv in H as [Hv ->]. eauto.
Qed.

Lemma f_set_http c m s : f (set_http c m s) = f s.
Proof. destruct s. reflexivity. Qed.

(** A second [initFile] after a completed one only resets the status. *)
Lemma initFile_after s s1 :
  initFile s = (Ok tt, s1) → initFile s1 = (Ok tt, set_http 200 None s1).
Proof.
  intros H. apply initFile_leaves_initialized in H as (Hi & Hs & Hg).
  now apply initFile_again.
Qed.

(** X8. The identifier [getUUIDByPath] gives for the path [/] leads
    back to the root group: [getGroupByUuid] resolves it to the handle of
    the root, named [/], and changes nothing but the status fields. *)
Theorem root_uuid_round_trip s u s1 :
  getUUIDByPath "/" s = (Ok (Some u), s1) →
  is_Some (objs (f s1) !! root (f s1)) →
  ∃ h, getGroupByUuid u s1 = (Ok (Some h), set_http 200 None s1) ∧
       o_addr h = root (f s1) ∧ o_name h = "/".
Proof.
  intros H [o Ho]. unfold getUUIDByPath in H.
  apply bind_inv_ok in H as ([] & s0 & Hi & H).
  change (under_db "/") with false in H.
  change (String.eqb "/" "/") with true in H. cbv beta iota in H.
  apply bind_inv_ok in H as (g & s2 & Hg & H).
  apply the_dbGrp_inv in Hg as [Hg ->].
  apply bind_inv_ok in H as (v & s2 & Ha & H).
  apply db_attr_get_inv in Ha as (D & HD & Ha & ->).
  cbv [ret] in H. injection H as -> <-.
  pose proof (initFile_after _ _ Hi) as Hi2.
  destruct (set_http_props 200 None s0) as (HD2 & Hg2 & _).
  set (s2 := set_http 200 None s0) in *.
  rewrite HD in HD2. rewrite Hg in Hg2.
  exists (mkHL (class_name (kind o)) (root (f s0)) "/").
  split; [|split; reflexivity].
  unfold getGroupByUuid.
  rewrite (bind_ok _ _ _ _ _ Hi2).
  rewrite (bind_ok _ _ _ _ _ (the_dbGrp_run _ _ Hg2)).
  rewrite (bind_ok _ _ _ _ _ (db_attr_get_run _ _ _ _ _ HD2 Ha)).
  rewrite bind_gets, String.eqb_refl. unfold bind at 1.
  rewrite (bind_ok _ _ _ _ _ (f_root_run s2)).
  assert (Hgi : getitem (f s2) (root_group (f s2)) "/"
                = Some (mkHL (class_name (kind o)) (root (f s0)) "/")).
  { unfold s2. rewrite f_set_http, getitem_slash. unfold handle.
    now rewrite Ho. }
  rewrite (bind_ok _ _ _ _ _ (f_getitem_run _ _ _ _ Hgi)).
  reflexivity.
Qed.
(** ** Link tables *)

Lemma assoc_notin n l : n ∉ map fst l → assoc n l = None.
Proof.
  induction l as [|[k v] l IH]; intros Hn; [reflexivity|].
  cbn [map fst] in Hn. apply not_elem_of_cons in Hn as [Hk Hn]. cbn.
  rewrite (proj2 (String.eqb_neq k n)) by congruence. auto.
Qed.

Lemma assoc_elem n l v : assoc n l = Some v → (n, v) ∈ l.
Proof.
  induction l as [|[k x] l IH]; cbn; [discriminate|].
  destruct (String.eqb k n) eqn:E.
  - apply String.eqb_eq in E as ->. intros [= ->]. apply elem_of_cons. now left.
  - intros H. apply elem_of_cons. right. auto.
Qed.


Lemma assoc_cons k x l n :
  assoc n ((k, x) :: l) = if String.eqb k n then Some x else assoc n l.
Proof. reflexivity. Qed.

Lemma assoc_filter_keep (P : string * LinkObj → bool) n l v :
  assoc n l = Some v → P (n, v) = true →
  assoc n (filter (λ e, P e = true) l) = Some v.
Proof.
  unfold LinkTable in *.
  induction l as [|[k x] l IH]; intros H HP; [discriminate|].
  rewrite assoc_cons in H. destruct (String.eqb k n) eqn:E.
  - apply String.eqb_eq in E as ->. injection H as ->.
    rewrite filter_cons_True by exact HP.
    rewrite assoc_cons. now rewrite String.eqb_refl.
  - destruct (P (k, x)) eqn:Ek.
    + rewrite filter_cons_True by exact Ek. rewrite assoc_cons, E. auto.
    + rewrite filter_cons_False by (rewrite Ek; discriminate). auto.
Qed.

Lemma assoc_filter_elem (P : string * LinkObj → bool) n l v :
  assoc n (filter (λ e, P e = true) l) = Some v → P (n, v) = true.
Proof.
  intros H. apply assoc_elem in H. apply list_elem_of_filter in H. tauto.
Qed.

Lemma assoc_remove_link n l : assoc n (remove_link n l) = None.
Proof.
  apply assoc_notin. intros Hin.
  apply list_elem_of_fmap in Hin as ([k v] & -> & Hin).
  apply list_elem_of_filter in Hin as [Hk _]. cbn in Hk.
  rewrite String.eqb_refl in Hk. discriminate.
Qed.

Lemma assoc_remove_link_ne n k l : k ≠ n → assoc k (remove_link n l) = assoc k l.
Proof.
  intros Hne. induction l as [|[j v] l IH]; [reflexivity|].
  unfold remove_link, LinkTable in *. rewrite assoc_cons.
  destruct (String.eqb j n) eqn:E.
  - apply String.eqb_eq in E as ->.
    rewrite filter_cons_False
      by (unfold fst; rewrite String.eqb_refl; discriminate).
    rewrite (proj2 (String.eqb_neq n k)) by congruence. exact IH.
  - rewrite filter_cons_True by (unfold fst; now rewrite E).
    rewrite assoc_cons. now rewrite IH.
Qed.

Lemma remove_link_middle n v pre suf :
  NoDup (map fst (pre ++ (n, v) :: suf)%list) →
  remove_link n (pre ++ (n, v) :: suf)%list = (pre ++ suf)%list.
Proof.
  intros Hnd. unfold remove_link, LinkTable in *. rewrite filter_app, filter_cons_False
    by (cbn; rewrite String.eqb_refl; discriminate).
  rewrite map_app in Hnd. cbn [map fst] in Hnd.
  apply NoDup_app in Hnd as (_ & Hdis & Hnd2).
  apply NoDup_cons in Hnd2 as [Hn _].
  assert (Hkeep : ∀ l : list (string * LinkObj), n ∉ map fst l →
            filter (λ e, negb (String.eqb e.1 n) = true) l = l).
  { intros l Hl. induction l as [|[k x] l IH]; [reflexivity|].
    cbn [map fst] in Hl. apply not_elem_of_cons in Hl as [Hk Hl].
    rewrite filter_cons_True
      by (cbn; now rewrite (proj2 (String.eqb_neq k n)) by congruence).
    now rewrite IH. }
  rewrite !Hkeep; [reflexivity|exact Hn|].
  intros Hin. apply (Hdis n Hin). apply elem_of_cons. now left.
Qed.

(** ** The engine model: rewriting a table *)

Lemma set_links_id F p l : links_of F p = Some l → set_links F p l = F.
Proof.
  unfold links_of, set_links. destruct (objs F !! p) as [[k m]|] eqn:E; [|discriminate].
  destruct k; try discriminate. intros [= ->]. destruct F as [o r]. cbn in *.
  f_equal. now apply insert_id.
Qed.

Lemma set_links_twice F p l1 l2 :
  set_links (set_links F p l1) p l2 = set_links F p l2.
Proof.
  unfold set_links. destruct (objs F !! p) as [o|] eqn:E; [|now rewrite E].
  cbn. rewrite lookup_insert_eq. cbn. f_equal. apply insert_insert_eq.
Qed.

Lemma exists_set_links F p l b :
  is_Some (objs F !! b) → is_Some (objs (set_links F p l) !! b).
Proof.
  unfold set_links. destruct (objs F !! p) as [o|] eqn:E; [|auto]. cbn.
  intros Hb. destruct (decide (b = p)) as [->|Hne].
  - rewrite lookup_insert_eq. eauto.
  - now rewrite lookup_insert_ne.
Qed.

Lemma entry_ok_mono F F' e :
  (∀ b, is_Some (objs F !! b) → is_Some (objs F' !! b)) →
  entry_ok F e = true → entry_ok F' e = true.
Proof.
  intros Hex. unfold entry_ok. intros H. apply andb_prop in H as [Hs Hv].
  rewrite Hs. cbn. destruct e.2; auto.
  apply bool_decide_eq_true in Hv. apply bool_decide_eq_true. auto.
Qed.

(** ** The engine model: one link put or taken *)

Lemma remove_link_notin n l : assoc n l = None → remove_link n l = l.
Proof.
  unfold remove_link, LinkTable in *.
  induction l as [|[k v] l IH]; [reflexivity|]. rewrite assoc_cons.
  destruct (String.eqb k n) eqn:E; [discriminate|]. intros H.
  rewrite filter_cons_True by (unfold fst; now rewrite E). now rewrite IH.
Qed.

Lemma link_at_set_links F a l b k :
  is_Some (objs F !! a) →
  link_at (set_links F a l) b k
  = if decide (b = a) then assoc k l else link_at F b k.
Proof.
  intros Ha. unfold link_at. rewrite links_of_set_links by exact Ha.
  destruct (decide (b = a)); reflexivity.
Qed.

Lemma link_at_links_of F a n v :
  link_at F a n = Some v → ∃ l, links_of F a = Some l ∧ assoc n l = Some v.
Proof. unfold link_at. destruct (links_of F a); [eauto|discriminate]. Qed.

Lemma same_but_refl F p n : same_but F F p n.
Proof. unfold same_but. auto. Qed.

Lemma same_but_trans F1 F2 F3 p n :
  same_but F1 F2 p n → same_but F2 F3 p n → same_but F1 F3 p n.
Proof.
  intros (A1 & B1 & C1 & D1 & E1) (A2 & B2 & C2 & D2 & E2).
  split; [|split; [|split; [|split]]]; intros.
  - rewrite A2, A1 by assumption. reflexivity.
  - rewrite B2, B1 by assumption. reflexivity.
  - now rewrite C2, C1.
  - now rewrite D2, D1.
  - congruence.
Qed.

Lemma same_but_set_links F p l l' n :
  links_of F p = Some l →
  (∀ k, k ≠ n → assoc k l' = assoc k l) →
  same_but F (set_links F p l') p n.
Proof.
  intros Hl Hk.
  assert (Ho : is_Some (objs F !! p)) by eauto using links_of_Some_obj.
  assert (Hn : links_of F p ≠ None) by congruence.
  split; [|split; [|split; [|split]]].
  - intros k Hne. rewrite link_at_set_links, decide_True by auto.
    unfold link_at. rewrite Hl. auto.
  - intros a Ha. rewrite links_of_set_links, decide_False by auto. reflexivity.
  - intros a. now apply attrs_of_set_links.
  - intros a. now apply class_at_set_links.
  - apply root_set_links.
Qed.

Lemma delitem_spec F g n F' :
  delitem F g n = Some F' →
  link_at F' (o_addr g) n = None ∧ same_but F F' (o_addr g) n ∧
  is_Some (links_of F' (o_addr g)).
Proof.
  unfold delitem. destruct (links_of F (o_addr g)) as [l|] eqn:Hl; [|discriminate].
  destruct (assoc n l); [|discriminate]. intros [= <-].
  assert (Ho : is_Some (objs F !! o_addr g)) by eauto using links_of_Some_obj.
  split; [|split].
  - rewrite link_at_set_links, decide_True by auto. apply assoc_remove_link.
  - eapply same_but_set_links; [exact Hl|].
    intros k Hk. now apply assoc_remove_link_ne.
  - rewrite links_of_set_links, decide_True by auto. eauto.
Qed.

Lemma setitem_links F g n o F' :
  setitem F g n o = Some F' →
  link_at F' (o_addr g) n = Some (HardLink (o_addr o)) ∧
  same_but F F' (o_addr g) n.
Proof.
  unfold setitem. destruct (links_of F (o_addr g)) as [l|] eqn:Hl; [|discriminate].
  destruct (objs F !! o_addr o); [|discriminate].
  destruct (assoc n l) eqn:Ea; [discriminate|].
  destruct (simple_name n); [|discriminate]. intros [= <-].
  assert (Ho : is_Some (objs F !! o_addr g)) by eauto using links_of_Some_obj.
  split.
  - rewrite link_at_set_links, decide_True by auto. now apply assoc_add_link_eq.
  - eapply same_but_set_links; [exact Hl|]. intros k Hk.
    now apply assoc_add_link_ne.
Qed.

Lemma setitem_soft_links F g n p F' :
  setitem_soft F g n p = Some F' →
  link_at F' (o_addr g) n = Some (SoftLink p) ∧
  same_but F F' (o_addr g) n.
Proof.
  unfold setitem_soft.
  destruct (links_of F (o_addr g)) as [l|] eqn:Hl; [|discriminate].
  destruct (assoc n l) eqn:Ea; [discriminate|].
  destruct (simple_name n && negb (String.eqb p "")); [|discriminate].
  intros [= <-].
  assert (Ho : is_Some (objs F !! o_addr g)) by eauto using links_of_Some_obj.
  split.
  - rewrite link_at_set_links, decide_True by auto. now apply assoc_add_link_eq.
  - eapply same_but_set_links; [exact Hl|]. intros k Hk.
    now apply assoc_add_link_ne.
Qed.

Lemma delitem_present F g n :
  is_Some (link_at F (o_addr g) n) → is_Some (delitem F g n).
Proof.
  intros [v Hv]. apply link_at_links_of in Hv as (l & Hl & Ha).
  unfold delitem. rewrite Hl, Ha. eauto.
Qed.

Lemma f_delitem_run g n s F' :
  delitem (f s) g n = Some F' → f_delitem g n s = (Ok tt, set_f F' s).
Proof. intros H. unfold f_delitem. rewrite bind_gets, H. reflexivity. Qed.

Lemma f_setitem_run g n o s F' :
  setitem (f s) g n o = Some F' → f_setitem g n o s = (Ok tt, set_f F' s).
Proof. intros H. unfold f_setitem. rewrite bind_gets, H. reflexivity. Qed.

Lemma f_setitem_soft_run g n p s F' :
  setitem_soft (f s) g n p = Some F' →
  f_setitem_soft g n p s = (Ok tt, set_f F' s).
Proof. intros H. unfold f_setitem_soft. rewrite bind_gets, H. reflexivity. Qed.

Lemma f_delitem_mode_run g n s F' :
  readonly s = false → delitem (f s) g n = Some F' →
  f_delitem_mode g n s = (Ok tt, set_f F' s).
Proof.
  intros Hro H. unfold f_delitem_mode. rewrite bind_gets, Hro.
  now apply f_delitem_run.
Qed.

Lemma set_f_id s : set_f (f s) s = s.
Proof. destruct s. reflexivity. Qed.

Lemma set_f_set_f F1 F2 s : set_f F2 (set_f F1 s) = set_f F2 s.
Proof. destruct s. reflexivity. Qed.

Lemma f_set_f F s : f (set_f F s) = F.
Proof. destruct s. reflexivity. Qed.

(** Lines 354-357 and 372-375: the old link goes when the name is in
    the group.  After that the name is free. *)
Lemma unlink_if_present {B} p n (k : M B) s :
  simple_name n = true →
  ∃ F', (c ← f_contains p n;
         (if c then f_delitem p n else ret tt);; k) s = k (set_f F' s) ∧
        link_at F' (o_addr p) n = None ∧
        same_but (f s) F' (o_addr p) n ∧
        (is_Some (links_of (f s) (o_addr p)) → is_Some (links_of F' (o_addr p))).
Proof.
  intros Hn. rewrite (bind_ok _ _ _ _ _ (f_contains_run _ _ _)).
  rewrite (contains_simple _ _ _ Hn).
  destruct (link_at (f s) (o_addr p) n) eqn:Ec.
  - destruct (delitem_present (f s) p n) as [F' HF']; [rewrite Ec; eauto|].
    exists F'. rewrite (bind_ok _ _ _ _ _ (f_delitem_run _ _ _ _ HF')).
    apply delitem_spec in HF' as (H1 & H2 & H3). auto.
  - exists (f s). rewrite bind_ret, set_f_id.
    split; [reflexivity|]. split; [exact Ec|]. split; [apply same_but_refl|auto].
Qed.

(** ** [unlinkItem] *)

(** X9. On a writable instance, for a group that [getGroupByUuid]
    resolves and a single-component link name, [unlinkItem] returns
    [True]; afterwards the group holds no link under the name, whether
    or not the link led to an object, the name is not in the group, and
    nothing else in the container has changed.  When the group held no
    link under the name, the instance is left as the lookup left it. *)
Theorem unlinkItem_unlinks grpUuid linkName s grp s1 :
  getGroupByUuid grpUuid s = (Ok (Some grp), s1) →
  readonly s1 = false →
  simple_name linkName = true →
  ∃ s', unlinkItem grpUuid linkName s = (Ok true, s') ∧
    link_at (f s') (o_addr grp) linkName = None ∧
    contains (f s') grp linkName = false ∧
    same_but (f s1) (f s') (o_addr grp) linkName ∧
    (link_at (f s1) (o_addr grp) linkName = None → s' = s1).
Proof.
  intros Hg Hro Hn. unfold unlinkItem. rewrite (bind_ok _ _ _ _ _ Hg).
  rewrite (bind_ok _ _ _ _ _ (f_contains_run _ _ _)).
  rewrite (contains_simple _ _ _ Hn).
  destruct (link_at (f s1) (o_addr grp) linkName) eqn:Ec; cbn [negb].
  - destruct (delitem_present (f s1) grp linkName) as [F' HF'];
      [rewrite Ec; eauto|].
    exists (set_f F' s1).
    rewrite (bind_ok _ _ _ _ _ (f_delitem_mode_run _ _ _ _ Hro HF')).
    apply delitem_spec in HF' as (H1 & H2 & H3). rewrite f_set_f.
    split; [reflexivity|]. split; [exact H1|].
    split; [now apply contains_absent|]. split; [exact H2|discriminate].
  - exists s1. split; [reflexivity|]. split; [exact Ec|].
    split; [now apply contains_absent|]. split; [apply same_but_refl|reflexivity].
Qed.

(** ** [createSoftLink] and [linkObject] on a writable instance *)

(** X10. On a writable instance, for a parent group that
    [getGroupByUuid] resolves, a single-component link name and a target
    path that is not empty, [createSoftLink] returns [True]; afterwards
    the parent holds a symbolic link to the target path under that name,
    in place of the link it may have held there, and nothing else in the
    container has changed. *)
Theorem createSoftLink_links parentUUID linkPath linkName s s0 p s1 :
  initFile s = (Ok tt, s0) →
  readonly s0 = false →
  getGroupByUuid parentUUID s0 = (Ok (Some p), s1) →
  is_Some (links_of (f s1) (o_addr p)) →
  simple_name linkName = true →
  linkPath ≠ "" →
  ∃ s', createSoftLink parentUUID linkPath linkName s = (Ok true, s') ∧
    link_at (f s') (o_addr p) linkName = Some (SoftLink linkPath) ∧
    same_but (f s1) (f s') (o_addr p) linkName.
Proof.
  intros Hi Hro Hg Hgrp Hn Hp. unfold createSoftLink.
  rewrite (bind_ok _ _ _ _ _ Hi), bind_gets, Hro, (bind_ok _ _ _ _ _ Hg).
  destruct (unlink_if_present p linkName
              (f_setitem_soft p linkName linkPath;; ret true) s1 Hn)
    as (F1 & -> & Hfree & Hsame & Hl).
  destruct (Hl Hgrp) as [l1 Hl1].
  assert (Hs : setitem_soft F1 p linkName linkPath
               = Some (set_links F1 (o_addr p)
                         (add_link linkName (SoftLink linkPath) l1))).
  { unfold setitem_soft. rewrite Hl1. unfold link_at in Hfree.
    rewrite Hl1 in Hfree. rewrite Hfree, Hn.
    now rewrite (proj2 (String.eqb_neq _ _) Hp). }
  rewrite <- (f_set_f F1 s1) in Hs at 1.
  rewrite (bind_ok _ _ _ _ _ (f_setitem_soft_run _ _ _ _ _ Hs)).
  rewrite f_set_f in Hs. apply setitem_soft_links in Hs as [H1 H2].
  eexists. split; [reflexivity|]. rewrite set_f_set_f, f_set_f.
  split; [exact H1|]. eauto using same_but_trans.
Qed.

(** X11. On a writable instance, for a parent group and a child (a
    dataset, or else a group) that the lookups resolve and a
    single-component link name, [linkObject] returns [True]; afterwards
    the parent holds a hard link to the child under that name, in place
    of the link it may have held there, the name resolves to the child,
    and nothing else in the container has changed. *)
Theorem linkObject_links parentUUID childUUID linkName s s0 p s1 c s2 :
  initFile s = (Ok tt, s0) →
  readonly s0 = false →
  getGroupByUuid parentUUID s0 = (Ok (Some p), s1) →
  (getDatasetByUuid childUUID s1 = (Ok (Some c), s2)
   ∨ ∃ sd, getDatasetByUuid childUUID s1 = (Ok None, sd) ∧
           getGroupByUuid childUUID sd = (Ok (Some c), s2)) →
  is_Some (links_of (f s2) (o_addr p)) →
  class_at (f s2) (o_addr c) = Some (o_class c) →
  simple_name linkName = true →
  ∃ s', linkObject parentUUID childUUID linkName s = (Ok true, s') ∧
    link_at (f s') (o_addr p) linkName = Some (HardLink (o_addr c)) ∧
    getitem (f s') p linkName
    = Some (mkHL (o_class c) (o_addr c) (child_name p linkName)) ∧
    same_but (f s2) (f s') (o_addr p) linkName.
Proof.
  intros Hi Hro Hg Hch Hgrp Hcl Hn. unfold linkObject.
  rewrite (bind_ok _ _ _ _ _ Hi), bind_gets, Hro, (bind_ok _ _ _ _ _ Hg).
  assert (Hchild :
    ∀ k : option HLObject → M bool,
      (childObj ← getDatasetByUuid childUUID;
       childObj ← (match childObj with
                   | None => getGroupByUuid childUUID
                   | Some o => ret (Some o)
                   end);
       k childObj) s1 = k (Some c) s2).
  { intros k. destruct Hch as [Hd|(sd & Hd & Hg2)].
    - rewrite (bind_ok _ _ _ _ _ Hd). reflexivity.
    - rewrite (bind_ok _ _ _ _ _ Hd), (bind_ok _ _ _ _ _ Hg2). reflexivity. }
  rewrite Hchild.
  destruct (unlink_if_present p linkName
              (f_setitem p linkName c;; ret true) s2 Hn)
    as (F1 & -> & Hfree & Hsame & Hl).
  destruct (Hl Hgrp) as [l1 Hl1].
  assert (Hex : is_Some (objs F1 !! o_addr c)).
  { destruct Hsame as (_ & _ & _ & Hcls & _). specialize (Hcls (o_addr c)).
    rewrite Hcl in Hcls. unfold class_at in Hcls.
    destruct (objs F1 !! o_addr c); [eauto|discriminate]. }
  assert (Hs : setitem F1 p linkName c
               = Some (set_links F1 (o_addr p)
                         (add_link linkName (HardLink (o_addr c)) l1))).
  { unfold setitem. rewrite Hl1. destruct Hex as [x ->].
    unfold link_at in Hfree. rewrite Hl1 in Hfree. now rewrite Hfree, Hn. }
  rewrite <- (f_set_f F1 s2) in Hs at 1.
  rewrite (bind_ok _ _ _ _ _ (f_setitem_run _ _ _ _ _ Hs)).
  rewrite f_set_f in Hs. apply setitem_links in Hs as [H1 H2].
  eexists. split; [reflexivity|]. rewrite set_f_set_f, f_set_f.
  split; [exact H1|]. split; [|eauto using same_but_trans].
  apply getitem_hard; [exact Hn|exact H1|].
  destruct H2 as (_ & _ & _ & Hc2 & _). destruct Hsame as (_ & _ & _ & Hc1 & _).
  now rewrite Hc2, Hc1.
Qed.

(** ** [createGroup] *)

Lemma initFile_keeps_mode s s1 :
  initFile s = (Ok tt, s1) → readonly s1 = readonly s.
Proof.
  intros H. destruct (initFile_cases _ _ H)
    as [(_ & _ & _ & _ & Hr & _)|(_ & sa & dg & D0 & Hc & Hg & HD & Hr & _)];
    [exact Hr|].
  destruct (initFile_create_spec _ _ _ _ Hg HD Hc)
    as (sc & Dc & ix & D1 & _ & _ & _ & _ & _ & _ & _ & Hr1 & _).
  congruence.
Qed.

Lemma dbGrp_getitem_inv n s h s' :
  dbGrp_getitem n s = (Ok h, s') →
  ∃ g D, dbGrp s = Some g ∧ the_db s = Some D ∧ getitem D g n = Some h ∧ s' = s.
Proof.
  unfold dbGrp_getitem, db_getitem. intros H.
  apply bind_inv_ok in H as (g & s1 & Hg & H). apply the_dbGrp_inv in Hg as [Hg ->].
  apply bind_inv_ok in H as (D & s1 & Hd & H). apply dbfile_inv in Hd as [HD ->].
  apply lift_opt_inv in H as [Hi ->]. eauto 6.
Qed.

Lemma db_create_group_inv g n s h s' :
  db_create_group g n s = (Ok h, s') →
  ∃ D D', the_db s = Some D ∧ create_group D g n = Some (h, D') ∧
          s' = with_db D' s.
Proof.
  unfold db_create_group. intros H.
  apply bind_inv_ok in H as (D & s1 & Hd & H). apply dbfile_inv in Hd as [HD ->].
  apply bind_inv_ok in H as ([h' D'] & s1 & Hl & H).
  apply lift_opt_inv in Hl as [Hs ->].
  unfold bind in H. rewrite put_dbfile_run in H. cbn in H. injection H as <- <-.
  eauto.
Qed.

Lemma db_len_run s D g n :
  the_db s = Some D → group_len D g = Some n → db_len g s = (Ok n, s).
Proof.
  intros HD Hn. unfold db_len.
  rewrite (bind_ok _ _ _ _ _ (dbfile_run _ _ HD)), Hn. reflexivity.
Qed.

Lemma db_len_inv g s n s' :
  db_len g s = (Ok n, s') →
  ∃ D, the_db s = Some D ∧ group_len D g = Some n ∧ s' = s.
Proof.
  unfold db_len. intros H.
  apply bind_inv_ok in H as (D & s1 & Hd & H). apply dbfile_inv in Hd as [HD ->].
  apply lift_opt_inv in H as [Hn ->]. eauto.
Qed.

(** The tables after [create_group]: the parent gained one hard link,
    the new group is empty. *)
Lemma create_group_links F g n h F' :
  create_group F g n = Some (h, F') →
  ∃ l, links_of F (o_addr g) = Some l ∧
       links_of F' (o_addr g) = Some (add_link n (HardLink (o_addr h)) l) ∧
       links_of F' (o_addr h) = Some [] ∧
       (∀ a, a ≠ o_addr g → a ≠ o_addr h → links_of F' a = links_of F a).
Proof.
  unfold create_group.
  destruct (links_of F (o_addr g)) as [l|] eqn:Hl; [|discriminate].
  destruct (assoc n l); [discriminate|].
  destruct (simple_name n); [|discriminate]. intros [= <- <-]. cbn [o_addr].
  pose proof (new_addr_fresh F) as Hf.
  assert (Ho : is_Some (objs F !! o_addr g)) by eauto using links_of_Some_obj.
  assert (Hne : o_addr g ≠ new_addr F).
  { intros E. rewrite E in Ho. rewrite Hf in Ho. now destruct Ho. }
  exists l. split; [reflexivity|].
  set (F1 := set_links F (o_addr g) _).
  split; [|split].
  - unfold links_of at 1. cbn [objs]. rewrite lookup_insert_ne by congruence.
    fold (links_of F1 (o_addr g)). unfold F1.
    now rewrite links_of_set_links, decide_True by auto.
  - unfold links_of. cbn [objs]. now rewrite lookup_insert_eq.
  - intros a Ha1 Ha2. unfold links_of at 1. cbn [objs].
    rewrite lookup_insert_ne by congruence.
    fold (links_of F1 a). unfold F1.
    now rewrite links_of_set_links, decide_False by auto.
Qed.

(** What a completed [createGroup] went through on a writable
    instance. *)
Lemma createGroup_inv s u s' :
  readonly s = false →
  createGroup s = (Ok (Some u), s') →
  ∃ s0 g groups h D1 addrGrp D2,
    initFile s = (Ok tt, s0) ∧ readonly s0 = false ∧ dbGrp s0 = Some g ∧
    getitem (f s0) g "{groups}" = Some groups ∧
    u = uuid_str (uuid_clock s0) ∧
    create_group (f s0) groups u = Some (h, D1) ∧
    getitem D1 g "{addr}" = Some addrGrp ∧
    attr_set D1 addrGrp (str_addr (o_addr h)) u = Some D2 ∧
    f s' = D2 ∧ the_db s' = Some D2 ∧ dbGrp s' = Some g ∧ readonly s' = false.
Proof.
  intros Hro H. unfold createGroup in H.
  apply bind_inv_ok in H as ([] & s0 & Hi & H).
  pose proof (initFile_keeps_mode _ _ Hi) as Hr0. rewrite Hro in Hr0.
  rewrite bind_gets, Hr0 in H.
  apply bind_inv_ok in H as (groups & s1 & Hg & H).
  apply dbGrp_getitem_inv in Hg as (g & D & Hg & HD & Hgi & ->).
  assert (D = f s0) as ->.
  { unfold the_db in HD. rewrite Hr0 in HD. congruence. }
  rewrite (bind_ok _ _ _ _ _ (uuid1_run s0)) in H.
  destruct (set_clock_props (N.succ (uuid_clock s0)) s0) as (HD1 & Hg1 & Hr1 & _).
  set (sa := set_clock _ s0) in *.
  apply bind_inv_ok in H as (h & s2 & Hc & H).
  apply db_create_group_inv in Hc as (D' & D1 & HD' & Hc & ->).
  assert (D' = f s0) as -> by congruence.
  destruct (with_db_props D1 sa) as (Hw1 & Hw2 & Hw3 & _).
  set (sb := with_db D1 sa) in *.
  apply bind_inv_ok in H as (addrGrp & s3 & Ha & H).
  apply dbGrp_getitem_inv in Ha as (g' & Db & Hgb & HDb & Hai & ->).
  assert (Db = D1) as -> by congruence.
  assert (g' = g) as -> by congruence.
  apply bind_inv_ok in H as ([] & s4 & Hs & H).
  apply db_attr_set_inv in Hs as (Dc & D2 & HDc & Hs & ->).
  assert (Dc = D1) as -> by congruence.
  cbv [ret] in H. injection H as <- <-.
  destruct (with_db_props D2 sb) as (Hx1 & Hx2 & Hx3 & _ & _ & _ & Hx4).
  exists s0, g, groups, h, D1, addrGrp, D2.
  split; [exact Hi|]. split; [exact Hr0|]. split; [exact Hg|].
  split; [exact Hgi|]. split; [reflexivity|]. split; [exact Hc|].
  split; [exact Hai|]. split; [exact Hs|].
  split; [apply Hx4; congruence|]. split; [exact Hx1|].
  split; congruence.
Qed.

(** X13. The identifier a completed [createGroup] returns on a writable
    instance is in the index both ways: [getGroupByUuid] resolves it to
    the new group, which is empty, and [getUUIDByAddress] gives the
    identifier back for the address of that group. *)
Theorem createGroup_registers s u s' g r :
  readonly s = false →
  createGroup s = (Ok (Some u), s') →
  dbGrp s' = Some g →
  attr_get (f s') g "rootUUID" = Some r →
  u ≠ r →
  ∃ h, getGroupByUuid u s' = (Ok (Some h), set_http 200 None s') ∧
       getUUIDByAddress (o_addr h) s' = (Ok (Some u), s') ∧
       o_class h = "Group" ∧
       keys (f s') h = Some [].
Proof.
  intros Hro H Hg' Hr Hne.
  destruct (createGroup_inv _ _ _ Hro H)
    as (s0 & g0 & groups & h & D1 & addrGrp & D2 & Hi & Hr0 & Hg0 & Hgi & Hu
        & Hc & Hai & Hs & Hf & HD & Hg & Hrs).
  assert (g0 = g) as -> by congruence.
  destruct (initFile_leaves_initialized _ _ Hi) as (Hini & _ & Hdb).
  rewrite Hr0 in Hdb. unfold initialized in Hini. rewrite Hr0 in Hini.
  pose proof (create_group_spec _ _ _ _ _ Hc)
    as (Hh & Hsn & Hfresh & Hle1 & Hgh & _ & _).
  destruct (create_group_links _ _ _ _ _ Hc) as (l & _ & _ & Hempty & _).
  destruct (attr_set_spec _ _ _ _ _ Hs) as (m & Hm & Hm2 & Hfr & Hle2).
  assert (Hle : file_le (f s0) D2) by eauto using file_le_trans.
  exists h.
  (* the state a second [initFile] finds *)
  assert (Hi2 : initFile s' = (Ok tt, set_http 200 None s')).
  { apply initFile_again.
    - unfold initialized. rewrite Hrs, Hf.
      rewrite (file_le_root_group _ _ Hle). eauto using contains_mono.
    - rewrite Hg. eauto.
    - rewrite Hrs, Hf, (file_le_root_group _ _ Hle), Hg.
      rewrite Hg0 in Hdb. symmetry. eauto using getitem_mono. }
  destruct (set_http_props 200 None s') as (HD3 & Hg3 & Hr3 & _).
  set (s2 := set_http 200 None s') in *.
  rewrite HD in HD3. rewrite Hg in Hg3. rewrite Hrs in Hr3.
  assert (Hgroups : getitem D2 g "{groups}" = Some groups)
    by eauto using getitem_mono.
  assert (Hgh2 : getitem D2 groups u = Some h) by eauto using getitem_mono.
  split; [|split; [|split]].
  - unfold getGroupByUuid. rewrite (bind_ok _ _ _ _ _ Hi2).
    rewrite (bind_ok _ _ _ _ _ (the_dbGrp_run _ _ Hg3)).
    rewrite Hf in Hr.
    rewrite (bind_ok _ _ _ _ _ (db_attr_get_run _ _ _ _ _ HD3 Hr)).
    rewrite bind_gets, (proj2 (String.eqb_neq _ _) Hne), Hr3. cbn [negb].
    unfold bind at 1.
    rewrite (bind_ok _ _ _ _ _ (dbGrp_getitem_run _ _ _ _ _ HD3 Hg3 Hgroups)).
    unfold db_contains.
    rewrite (bind_ok _ _ _ _ _ (bind_ok _ _ _ _ _ (dbfile_run _ _ HD3))).
    rewrite (contains_getitem _ _ _ _ Hsn Hgh2).
    rewrite (bind_ok _ _ _ _ _ (db_getitem_run _ _ _ _ _ HD3 Hgh2)).
    reflexivity.
  - erewrite getUUIDByAddress_run;
      [|exact HD|exact Hg|eauto using getitem_mono|exact Hm2].
    now rewrite lookup_insert_eq.
  - now rewrite Hh.
  - unfold keys. rewrite Hf.
    unfold attr_set in Hs. rewrite Hm in Hs. injection Hs as <-.
    now rewrite links_of_set_attrs, Hempty.
Qed.

(** X14. [getNumberOfGroups] counts the root group and the members of
    [{groups}]: a completed [createGroup] on a writable instance raises
    the count by exactly one. *)
Theorem createGroup_counts s u s' n sn :
  readonly s = false →
  createGroup s = (Ok (Some u), s') →
  getNumberOfGroups s = (Ok n, sn) →
  getNumberOfGroups s' = (Ok (n + 1), set_http 200 None s').
Proof.
  intros Hro H Hn.
  destruct (createGroup_inv _ _ _ Hro H)
    as (s0 & g & groups & h & D1 & addrGrp & D2 & Hi & Hr0 & Hg0 & Hgi & Hu
        & Hc & Hai & Hs & Hf & HD & Hg & Hrs).
  destruct (initFile_leaves_initialized _ _ Hi) as (Hini & _ & Hdb).
  rewrite Hr0 in Hdb. unfold initialized in Hini. rewrite Hr0 in Hini.
  pose proof (create_group_spec _ _ _ _ _ Hc)
    as (Hh & Hsn & Hfresh & Hle1 & Hgh & _ & _).
  destruct (create_group_links _ _ _ _ _ Hc) as (l & Hl & Hl1 & _ & _).
  destruct (attr_set_spec _ _ _ _ _ Hs) as (m & Hm & Hm2 & Hfr & Hle2).
  assert (Hle : file_le (f s0) D2) by eauto using file_le_trans.
  (* the count before *)
  unfold getNumberOfGroups in Hn. rewrite (bind_ok _ _ _ _ _ Hi) in Hn.
  apply bind_inv_ok in Hn as (groups' & s1 & Hg1 & Hn).
  apply dbGrp_getitem_inv in Hg1 as (g' & D & Hg' & HD' & Hgi' & ->).
  assert (g' = g) as -> by congruence.
  assert (D = f s0) as ->.
  { unfold the_db in HD'. rewrite Hr0 in HD'. congruence. }
  assert (groups' = groups) as -> by congruence.
  apply bind_inv_ok in Hn as (k & s1 & Hk & Hn).
  apply db_len_inv in Hk as (D & HDk & Hk & ->).
  assert (D = f s0) as -> by congruence.
  cbv [ret] in Hn. injection Hn as <- <-.
  unfold group_len in Hk. rewrite Hl in Hk. injection Hk as <-.
  (* the count after *)
  assert (Hi2 : initFile s' = (Ok tt, set_http 200 None s')).
  { apply initFile_again.
    - unfold initialized. rewrite Hrs, Hf.
      rewrite (file_le_root_group _ _ Hle). eauto using contains_mono.
    - rewrite Hg. eauto.
    - rewrite Hrs, Hf, (file_le_root_group _ _ Hle), Hg.
      rewrite Hg0 in Hdb. symmetry. eauto using getitem_mono. }
  destruct (set_http_props 200 None s') as (HD3 & Hg3 & _).
  set (s2 := set_http 200 None s') in *.
  rewrite HD in HD3. rewrite Hg in Hg3.
  assert (Hgroups : getitem D2 g "{groups}" = Some groups)
    by eauto using getitem_mono.
  unfold getNumberOfGroups. rewrite (bind_ok _ _ _ _ _ Hi2).
  rewrite (bind_ok _ _ _ _ _ (dbGrp_getitem_run _ _ _ _ _ HD3 Hg3 Hgroups)).
  assert (Hlen : group_len D2 groups = Some (Z.of_nat (length l) + 1)).
  { unfold group_len. unfold attr_set in Hs. rewrite Hm in Hs.
    injection Hs as <-. rewrite links_of_set_attrs, Hl1.
    rewrite length_add_link. f_equal. lia. }
  rewrite (bind_ok _ _ _ _ _ (db_len_run _ _ _ _ HD3 Hlen)).
  reflexivity.
Qed.
(** ** [unlinkObject] *)

Lemma assoc_unlinked a n l :
  NoDup (map fst l) →
  assoc n (filter (λ e, is_hard a e.2 = false) l)
  = match assoc n l with
    | Some v => if is_hard a v then None else Some v
    | None => None
    end.
Proof.
  unfold LinkTable in *.
  induction l as [|[k v] l IH]; intros Hnd; [reflexivity|].
  cbn [map fst] in Hnd. apply NoDup_cons in Hnd as [Hk Hnd].
  rewrite assoc_cons. destruct (is_hard a v) eqn:Eh.
  - rewrite filter_cons_False by (unfold snd; rewrite Eh; discriminate).
    rewrite IH by exact Hnd. destruct (String.eqb k n) eqn:E; [|reflexivity].
    apply String.eqb_eq in E as ->. rewrite Eh.
    now rewrite assoc_notin by exact Hk.
  - rewrite filter_cons_True by (unfold snd; exact Eh).
    rewrite assoc_cons. destruct (String.eqb k n); [now rewrite Eh|].
    now apply IH.
Qed.

(** The container [unlink_all] describes: in the group at [p] the hard
    links to [a] are gone, and nothing else changed. *)
Lemma unlink_all_spec F p a l :
  links_of F p = Some l → NoDup (map fst l) →
  (∀ n, link_at (unlink_all F p a) p n
        = match link_at F p n with
          | Some v => if is_hard a v then None else Some v
          | None => None
          end) ∧
  (∀ q, q ≠ p → links_of (unlink_all F p a) q = links_of F q) ∧
  (∀ q, attrs_of (unlink_all F p a) q = attrs_of F q) ∧
  (∀ q, class_at (unlink_all F p a) q = class_at F q) ∧
  root (unlink_all F p a) = root F.
Proof.
  intros Hl Hnd. unfold unlink_all. rewrite Hl.
  assert (Ho : is_Some (objs F !! p)) by eauto using links_of_Some_obj.
  assert (Hn : links_of F p ≠ None) by congruence.
  split; [|split; [|split; [|split]]].
  - intros n. rewrite link_at_set_links, decide_True by auto.
    unfold link_at. rewrite Hl. now apply assoc_unlinked.
  - intros q Hq. now rewrite links_of_set_links, decide_False by auto.
  - intros q. now apply attrs_of_set_links.
  - intros q. now apply class_at_set_links.
  - apply root_set_links.
Qed.

Lemma entry_ok_hard F n b :
  entry_ok F (n, HardLink b) = true →
  simple_name n = true ∧ ∃ c, class_at F b = Some c.
Proof.
  unfold entry_ok. cbn [fst snd]. intros H. apply andb_prop in H as [Hs Hb].
  split; [exact Hs|]. apply bool_decide_eq_true in Hb as [o Ho].
  unfold class_at. rewrite Ho. eauto.
Qed.

(** The loop of [unlinkObject] over the names [suf] still to come, the
    entries [kept] before them having been gone through. *)
Lemma unlinkObject_loop ph t suf : ∀ kept s,
  readonly s = false →
  links_of (f s) (o_addr ph) = Some (kept ++ suf)%list →
  NoDup (map fst (kept ++ suf)%list) →
  forallb (entry_ok (f s)) suf = true →
  for_ (map fst suf) (λ name,
    linkObj ← f_getlink ph name;
    match linkObj with
    | Some (HardLink _) =>
        obj ← f_getitem ph name;
        if obj_eq obj t then f_delitem_mode ph name else ret tt
    | _ => ret tt
    end) s
  = (Ok tt,
     set_f (set_links (f s) (o_addr ph)
              (kept ++ filter (λ e, is_hard (o_addr t) e.2 = false) suf)%list) s).
Proof.
  unfold LinkTable in *.
  induction suf as [|[n v] suf IH]; intros kept s Hro Hl Hnd Hok.
  - cbn [map for_]. rewrite filter_nil.
    rewrite set_links_id by exact Hl. now rewrite set_f_id.
  - cbn [map fst for_]. cbn [forallb] in Hok.
    apply andb_prop in Hok as [Hev Hok].
    assert (Hn : assoc n (kept ++ (n, v) :: suf)%list = Some v).
    { rewrite assoc_app_None.
      - cbn. now rewrite String.eqb_refl.
      - apply assoc_notin. rewrite map_app in Hnd.
        apply NoDup_app in Hnd as (_ & Hdis & _). intros Hin.
        apply (Hdis n Hin). cbn [map fst]. apply elem_of_cons. now left. }
    assert (Hla : link_at (f s) (o_addr ph) n = Some v).
    { unfold link_at. now rewrite Hl. }
    assert (Hskip :
      for_ (map fst suf) (λ name,
        linkObj ← f_getlink ph name;
        match linkObj with
        | Some (HardLink _) =>
            obj ← f_getitem ph name;
            if obj_eq obj t then f_delitem_mode ph name else ret tt
        | _ => ret tt
        end) s
      = (Ok tt,
         set_f (set_links (f s) (o_addr ph)
                  ((kept ++ [(n, v)]) ++
                   filter (λ e, is_hard (o_addr t) e.2 = false) suf)%list) s)).
    { apply IH; [exact Hro| |now rewrite <- app_assoc|exact Hok].
      now rewrite <- app_assoc. }
    rewrite <- app_assoc in Hskip. cbn [app] in Hskip.
    unfold bind at 1. rewrite bind_f_getlink.
    unfold getlink. rewrite Hl, Hn.
    destruct v as [b|path|fn path|].
    + destruct (entry_ok_hard _ _ _ Hev) as [Hs [c Hc]].
      rewrite (bind_ok _ _ _ _ _
                 (f_getitem_run _ _ _ _ (getitem_hard _ _ _ _ _ Hs Hla Hc))).
      unfold obj_eq. cbn [o_addr].
      destruct (N.eqb b (o_addr t)) eqn:Eb.
      * rewrite filter_cons_False
          by (unfold snd, is_hard; rewrite Eb; discriminate).
        assert (Hd : delitem (f s) ph n
                     = Some (set_links (f s) (o_addr ph) (kept ++ suf)%list)).
        { unfold delitem. rewrite Hl, Hn.
          now rewrite (remove_link_middle n (HardLink b) kept suf Hnd). }
        rewrite (f_delitem_mode_run _ _ _ _ Hro Hd).
        assert (Ho : is_Some (objs (f s) !! o_addr ph))
          by eauto using links_of_Some_obj.
        rewrite (IH kept).
        -- rewrite f_set_f, set_links_twice, set_f_set_f. reflexivity.
        -- now destruct s.
        -- rewrite f_set_f, links_of_set_links by exact Ho.
           now rewrite decide_True.
        -- rewrite map_app in Hnd |- *. cbn [map fst] in Hnd.
           apply NoDup_app in Hnd as (H1 & H2 & H3).
           apply NoDup_cons in H3 as [_ H3].
           apply NoDup_app. split; [exact H1|]. split; [|exact H3].
           intros x Hx Hx'. apply (H2 x Hx). apply elem_of_cons. now right.
        -- rewrite f_set_f. apply forallb_forall. intros e He.
           rewrite forallb_forall in Hok.
           eapply entry_ok_mono; [|now apply Hok].
           intros q. apply exists_set_links.
      * rewrite filter_cons_True by (unfold snd, is_hard; exact Eb).
        exact Hskip.
    + rewrite filter_cons_True by reflexivity. exact Hskip.
    + rewrite filter_cons_True by reflexivity. exact Hskip.
    + apply andb_prop in Hev as [_ Hev]. discriminate Hev.
Qed.

Lemma unlinkObject_run ph t s l :
  readonly s = false →
  links_of (f s) (o_addr ph) = Some l →
  table_ok (f s) l = true →
  unlinkObject ph t s
  = (Ok true, set_f (unlink_all (f s) (o_addr ph) (o_addr t)) s).
Proof.
  intros Hro Hl Hok. unfold table_ok in Hok. apply andb_prop in Hok as [Hnd Hok].
  apply bool_decide_eq_true in Hnd.
  assert (Hk : keys (f s) ph = Some (map fst l)).
  { unfold keys. now rewrite Hl. }
  unfold unlinkObject. rewrite (bind_ok _ _ _ _ _ (f_keys_run _ _ _ Hk)).
  rewrite (bind_ok _ _ _ _ _ (unlinkObject_loop ph t l [] s Hro Hl Hnd Hok)).
  unfold unlink_all. rewrite Hl. reflexivity.
Qed.

(** X15. On a writable instance, for a parent group whose links are
    hard, symbolic or external, [unlinkObject] takes out of the parent
    group exactly the hard links that lead to the target object, however
    many there are, and returns [True]: symbolic and external links, hard
    links to other objects and everything outside the parent group stay
    as they were. *)
Theorem unlinkObject_effect ph t s l :
  readonly s = false →
  links_of (f s) (o_addr ph) = Some l →
  table_ok (f s) l = true →
  ∃ F', unlinkObject ph t s = (Ok true, set_f F' s) ∧
    (∀ n, link_at F' (o_addr ph) n
          = match link_at (f s) (o_addr ph) n with
            | Some v => if is_hard (o_addr t) v then None else Some v
            | None => None
            end) ∧
    (∀ q, q ≠ o_addr ph → links_of F' q = links_of (f s) q) ∧
    (∀ q, attrs_of F' q = attrs_of (f s) q) ∧
    (∀ q, class_at F' q = class_at (f s) q) ∧
    root F' = root (f s).
Proof.
  intros Hro Hl Hok. exists (unlink_all (f s) (o_addr ph) (o_addr t)).
  split; [now apply unlinkObject_run with l|].
  apply unlink_all_spec with l; [exact Hl|].
  unfold table_ok in Hok. apply andb_prop in Hok as [Hnd _].
  now apply bool_decide_eq_true in Hnd.
Qed.
(** ** The cascade of [deleteGroup] *)






















(** ** [deleteGroup] on a writable instance *)


Lemma db_contains_run s D g p :
  the_db s = Some D → db_contains g p s = (Ok (contains D g p), s).
Proof.
  intros HD. unfold db_contains.
  rewrite (bind_ok _ _ _ _ _ (dbfile_run _ _ HD)). reflexivity.
Qed.





(** ** The links a traversal files *)

Lemma setitem_inv F g n o F' :
  setitem F g n o = Some F' →
  simple_name n = true ∧ is_Some (objs F !! o_addr o).
Proof.
  unfold setitem. destruct (links_of F (o_addr g)); [|discriminate].
  destruct (objs F !! o_addr o); [|discriminate].
  destruct (assoc n l); [discriminate|].
  destruct (simple_name n); [eauto|discriminate].
Qed.

Lemma file_le_link D D' a n v :
  file_le D D' → link_at D a n = Some v → link_at D' a n = Some v.
Proof. intros (_ & _ & H). apply H. Qed.

(** On a writable instance [visit] links the object into its collection
    under the identifier it was given. *)
Lemma visit_register_links col obj s s' :
  readonly s = false →
  visit_register col obj s = (Ok tt, s') →
  ∃ D', the_db s' = Some D' ∧
    link_at D' (o_addr col) (uuid_str (uuid_clock s))
    = Some (HardLink (o_addr obj)) ∧
    simple_name (uuid_str (uuid_clock s)) = true ∧
    is_Some (objs D' !! o_addr obj).
Proof.
  intros Hro H. unfold visit_register in H.
  rewrite (bind_ok _ _ _ _ _ (uuid1_run s)) in H.
  destruct (set_clock_props (N.succ (uuid_clock s)) s) as (_ & _ & Hr1 & _).
  set (s1 := set_clock _ s) in *.
  apply bind_inv_ok in H as (addrGrp & s2 & Ha & H).
  apply dbGrp_getitem_inv in Ha as (_ & _ & _ & _ & _ & ->).
  rewrite bind_gets, Hr1, Hro in H. cbn [negb] in H.
  apply bind_inv_ok in H as ([] & s2 & Hs & H).
  apply db_setitem_inv in Hs as (D1 & D2 & HD1 & Hs & ->).
  apply db_attr_set_inv in H as (D2' & D3 & HD2 & Ha & ->).
  rewrite the_db_with_db in HD2. injection HD2 as <-.
  exists D3. split; [apply the_db_with_db|].
  destruct (setitem_links _ _ _ _ _ Hs) as [Hl _].
  destruct (setitem_inv _ _ _ _ _ Hs) as [Hsn Hex].
  destruct (setitem_spec _ _ _ _ _ Hs) as [_ Hle12].
  destruct (attr_set_spec _ _ _ _ _ Ha) as (_ & _ & _ & _ & Hle23).
  split; [eauto using file_le_link|]. split; [exact Hsn|].
  eauto using file_le_exists.
Qed.

Lemma visit_links Dc ix path obj s m c s' :
  laid_out (readonly s) Dc ix →
  traversing Dc ix s m c →
  readonly s = false →
  visit path obj s = (Ok tt, s') →
  registrable (path, obj) = true →
  ∃ D', the_db s' = Some D' ∧
    link_at D' (o_addr (coll ix (o_class obj))) (uuid_str c)
    = Some (HardLink (o_addr obj)) ∧
    simple_name (uuid_str c) = true ∧
    is_Some (objs D' !! o_addr obj).
Proof.
  intros (Hgg & Hgs & Hgt & _) (D & HD & Hle & Hg & Hc & _) Hro H Hreg.
  unfold registrable in Hreg. cbn [fst snd] in Hreg.
  apply andb_prop in Hreg as [Hu Hcls]. apply negb_true_iff in Hu.
  unfold visit in H. rewrite Hu in H. unfold coll. rewrite <- Hc.
  destruct (String.eqb (o_class obj) "Group").
  { rewrite (bind_ok _ _ _ _ _
      (dbGrp_getitem_run _ _ _ _ _ HD Hg (getitem_mono _ _ _ _ _ Hle Hgg))) in H.
    now apply visit_register_links. }
  destruct (String.eqb (o_class obj) "Dataset").
  { rewrite (bind_ok _ _ _ _ _
      (dbGrp_getitem_run _ _ _ _ _ HD Hg (getitem_mono _ _ _ _ _ Hle Hgs))) in H.
    now apply visit_register_links. }
  destruct (String.eqb (o_class obj) "Datatype"); [|discriminate].
  rewrite (bind_ok _ _ _ _ _
    (dbGrp_getitem_run _ _ _ _ _ HD Hg (getitem_mono _ _ _ _ _ Hle Hgt))) in H.
  now apply visit_register_links.
Qed.

(** After a completed traversal on a writable instance every object
    that was given an identifier is a member of its collection under
    that identifier. *)
Lemma traverse_links Dc ix tr : ∀ s m c s',
  laid_out (readonly s) Dc ix →
  traversing Dc ix s m c →
  readonly s = false →
  for_ tr visitObj s = (Ok tt, s') →
  ∃ D', the_db s' = Some D' ∧
    ∀ po, po ∈ tr → registrable po = true →
      ∃ u, (o_addr po.2, u) ∈ assigned c tr ∧
        link_at D' (o_addr (coll ix (o_class po.2))) u
        = Some (HardLink (o_addr po.2)) ∧
        simple_name u = true ∧
        is_Some (objs D' !! o_addr po.2).
Proof.
  induction tr as [|[path obj] tr IH]; intros s m c s' Hlo Ht Hro H.
  - injection H as <-. destruct Ht as (D & HD & _). exists D.
    split; [exact HD|]. intros po Hin. now apply elem_of_nil in Hin.
  - apply for_cons_inv in H as (s1 & H1 & H2).
    destruct (visit_spec _ _ _ _ _ _ _ _ Hlo Ht H1) as [Hr1 Ht1].
    assert (Hro1 : readonly s1 = false) by congruence.
    assert (Hlo1 : laid_out (readonly s1) Dc ix) by now rewrite Hr1.
    pose proof (extends_for tr visitObj extends_visitObj s1) as Hext.
    rewrite H2 in Hext. cbn [snd] in Hext. destruct Hext as (_ & _ & _ & Hext).
    cbn [assigned]. cbn [fst snd] in Ht1.
    destruct (registrable (path, obj)) eqn:Hreg.
    + destruct (IH _ _ _ _ Hlo1 Ht1 Hro1 H2) as (D' & HD' & Hall).
      exists D'. split; [exact HD'|].
      intros po Hin Hr. apply elem_of_cons in Hin as [->|Hin].
      * destruct (visit_links _ _ _ _ _ _ _ _ Hlo Ht Hro H1 Hreg)
          as (D1 & HD1 & Hl & Hs & Hex).
        destruct (Hext _ HD1) as (D'' & HD'' & Hle).
        assert (D'' = D') as -> by congruence.
        exists (uuid_str c). cbn [fst snd].
        split; [apply elem_of_cons; now left|].
        split; [eauto using file_le_link|]. split; [exact Hs|].
        eauto using file_le_exists.
      * destruct (Hall po Hin Hr) as (u & Hu & Hrest).
        exists u. split; [apply elem_of_cons; now right|exact Hrest].
    + destruct (IH _ _ _ _ Hlo1 Ht1 Hro1 H2) as (D' & HD' & Hall).
      exists D'. split; [exact HD'|].
      intros po Hin Hr. apply elem_of_cons in Hin as [->|Hin]; [congruence|].
      now apply Hall.
Qed.

(** X17. After a first [initFile] on a writable container the index
    leads back to what the traversal registered: the identifier given to
    a traversed group is resolved by [getGroupByUuid], and the one given
    to a traversed dataset by [getDatasetByUuid], to a handle of the
    object at the address the traversal reported. *)
Theorem traversal_round_trip s s1 :
  (∀ n n', uuid_str n = uuid_str n' → n = n') →
  readonly s = false →
  initialized s = false →
  initFile s = (Ok tt, s1) →
  ∃ sc,
    initFile_traverse sc = (Ok tt, s1) ∧
    ∀ po, po ∈ h5_visititems (f sc) → registrable po = true →
      ∃ u h,
        (o_addr po.2, u) ∈ assigned (uuid_clock sc) (h5_visititems (f sc)) ∧
        o_addr h = o_addr po.2 ∧
        (o_class po.2 = "Group" →
         getGroupByUuid u s1 = (Ok (Some h), set_http 200 None s1)) ∧
        (o_class po.2 = "Dataset" →
         getDatasetByUuid u s1 = (Ok (Some h), set_http 200 None s1)).
Proof.
  intros Hinj Hro Hi H.
  destruct (initFile_cases _ _ H)
    as [(Hi' & _)|(_ & sa & dg & D0 & Hc & Hg & HD & Hr & Hck & Hm)];
    [congruence|].
  destruct (initFile_create_spec _ _ _ _ Hg HD Hc)
    as (sc & Dc & ix & D1 & Hcol & Ht & HDc & Hle & Hix & Hlo & Hru & Hr1 & Hg1
        & HD1 & Hle1 & Hm1 & Hd1).
  destruct (initFile_collections_spec _ _ _ _ Hg HD Hcol)
    as (Dc' & ix' & HDc' & _ & Hix' & Hgc & Hrc & Hcc & Hlo' & Hea & _).
  assert (Dc' = Dc) as -> by congruence.
  assert (Hrsc : readonly sc = false) by congruence.
  assert (Htr : traversing Dc ix' sc ∅ (N.succ (uuid_clock sa))).
  { exists Dc. rewrite Hix'. auto 8 using file_le_refl. }
  rewrite <- Hrc in Hlo'.
  destruct (traverse_links _ _ _ _ _ _ _ Hlo' Htr Hrsc Ht) as (D' & HD' & Hall).
  assert (D' = D1) as -> by congruence.
  exists sc. split; [unfold initFile_traverse; now rewrite bind_gets|].
  intros po Hin Hreg. rewrite Hcc.
  destruct (Hall po Hin Hreg) as (u & Hu & Hl & Hs & [o Ho]).
  set (hcol := coll ix' (o_class po.2)) in *.
  set (h := mkHL (class_name (kind o)) (o_addr po.2) (child_name hcol u)).
  exists u, h. split; [exact Hu|]. split; [reflexivity|].
  assert (Hgi : getitem D1 hcol u = Some h).
  { apply getitem_hard; [exact Hs|exact Hl|].
    unfold class_at. now rewrite Ho. }
  pose proof (initFile_after _ _ H) as Hi2.
  destruct (set_http_props 200 None s1) as (HD2 & Hg2 & Hr2 & _).
  set (s2 := set_http 200 None s1) in *.
  rewrite HD1 in HD2. rewrite Hg1 in Hg2. rewrite Hr1, Hr, Hro in Hr2.
  rewrite Hrsc in Hlo'. destruct Hlo' as (Hgg & Hgs & _).
  rewrite Hix' in Hgg, Hgs.
  split.
  - intros Hcls. unfold hcol, coll in Hgi. rewrite Hcls in Hgi.
    cbn [String.eqb Ascii.eqb Bool.eqb] in Hgi.
    assert (Hattr : attr_get D1 dg "rootUUID" = Some (uuid_str (uuid_clock sa))).
    { unfold attr_get in *. now rewrite Hd1. }
    assert (Hne : u ≠ uuid_str (uuid_clock sa)).
    { apply assigned_uuid_ge in Hu as (n & Hn & ->).
      intros E. apply Hinj in E. lia. }
    unfold getGroupByUuid. rewrite (bind_ok _ _ _ _ _ Hi2).
    rewrite (bind_ok _ _ _ _ _ (the_dbGrp_run _ _ Hg2)).
    rewrite (bind_ok _ _ _ _ _ (db_attr_get_run _ _ _ _ _ HD2 Hattr)).
    rewrite bind_gets, (proj2 (String.eqb_neq _ _) Hne), Hr2. cbn [negb].
    unfold bind at 1.
    rewrite (bind_ok _ _ _ _ _
               (dbGrp_getitem_run _ _ _ _ _ HD2 Hg2
                  (getitem_mono _ _ _ _ _ Hle1 Hgg))).
    rewrite (bind_ok _ _ _ _ _ (db_contains_run _ _ _ _ HD2)).
    rewrite (contains_getitem _ _ _ _ Hs Hgi).
    rewrite (bind_ok _ _ _ _ _ (db_getitem_run _ _ _ _ _ HD2 Hgi)).
    reflexivity.
  - intros Hcls. unfold hcol, coll in Hgi. rewrite Hcls in Hgi.
    cbn [String.eqb Ascii.eqb Bool.eqb] in Hgi.
    unfold getDatasetByUuid. rewrite (bind_ok _ _ _ _ _ Hi2).
    rewrite bind_gets, Hr2. cbn [negb]. unfold bind at 1.
    rewrite (bind_ok _ _ _ _ _
               (dbGrp_getitem_run _ _ _ _ _ HD2 Hg2
                  (getitem_mono _ _ _ _ _ Hle1 Hgs))).
    rewrite (bind_ok _ _ _ _ _ (db_contains_run _ _ _ _ HD2)).
    rewrite (contains_getitem _ _ _ _ Hs Hgi).
    rewrite (bind_ok _ _ _ _ _ (db_getitem_run _ _ _ _ _ HD2 Hgi)).
    reflexivity.
Qed.
End Methods.

(* ===================================================================== *)
(** * Part 7.  The properties on the sample containers                     *)
(* ===================================================================== *)

Lemma getItems_marker_absent_witness :
  getItems Ex.uuid_str Ex.visititems "uuid-100" None (Some "zz") 2 Ex.db
  = (Ok (Some []), (getItems Ex.uuid_str Ex.visititems "uuid-100" None (Some "zz") 2 Ex.db).2).
Proof.
  eapply (getItems_marker_absent Ex.uuid_str Ex.visititems "uuid-100" None "zz" 2
            Ex.db _ _ (mkHL "Group" 0 "/") ["__db__"; "a"; "b"; "c"; "d"; "e"]).
  - vm_compute. reflexivity.
  - vm_compute. reflexivity.
  - vm_compute. reflexivity.
  - vm_compute. 
    intros H. repeat (apply elem_of_cons in H as [H|H]; [discriminate H|]).
    by apply elem_of_nil in H.
Defined.

Lemma getUUIDByPath_unresolved_raises_witness :
  getUUIDByPath Ex.uuid_str Ex.visititems "nosuch" Ex.db
  = (Raise KeyError, (initFile Ex.uuid_str Ex.visititems Ex.db).2).
Proof.
  apply (getUUIDByPath_unresolved_raises Ex.uuid_str Ex.visititems "nosuch" Ex.db).
  - vm_compute. reflexivity.
  - vm_compute. reflexivity.
  - discriminate.
  - vm_compute. reflexivity.
Defined.

(** C4 does not hold as stated: the path [nosuch] is not [/], is not
    below [__db__] and resolves to nothing, and [getUUIDByPath] returns no
    value for it at all. *)
Lemma getUUIDByPath_absence_counterexample :
  let s1 := (initFile Ex.uuid_str Ex.visititems Ex.db).2 in
  "nosuch" ≠ "/" ∧ under_db "nosuch" = false ∧
  getitem (f s1) (root_group (f s1)) "nosuch" = None ∧
  (getUUIDByPath Ex.uuid_str Ex.visititems "nosuch" Ex.db).1 = Raise KeyError ∧
  ¬ ∃ r s', getUUIDByPath Ex.uuid_str Ex.visititems "nosuch" Ex.db = (Ok r, s').
Proof.
  repeat split; try (vm_compute; reflexivity); try discriminate.
  intros (r & s' & H).
  apply (f_equal fst) in H. vm_compute in H. discriminate H.
Qed.

(** C6 (code bug). A root group whose one member is an external link,
    listed with no filter, no marker and no limit: the listing raises
    [NameError] where the claim has it return the member's descriptor. *)
Theorem getItems_external_link_raises :
  (getItems Ex.uuid_str Ex.visititems_none "uuid-100" None None 0 Ex.db_ext1).1
  = Raise NameError.
Proof. vm_compute. reflexivity. Qed.

(** C7 on a root group whose members are a dataset [a] and a member [z]
    with a link of no known class: the listing raises [TypeError] where
    the claim has it skip [z] and return the descriptor of [a]. *)
Lemma getItems_unexpected_link_raises_witness :
  keys Ex.file_other (root_group Ex.file_other) = Some ["a"; "z"] ∧
  (getItems Ex.uuid_str Ex.visititems_other "uuid-100" None None 0
     Ex.db_other).1 = Raise TypeError ∧
  ∃ e s', getItems Ex.uuid_str Ex.visititems_other "uuid-100" None None 0
            Ex.db_other = (Raise e, s').
Proof.
  split; [vm_compute; reflexivity|]. split; [vm_compute; reflexivity|].
  eapply (getItems_unexpected_link_raises Ex.uuid_str Ex.visititems_other
            "uuid-100" None Ex.db_other _ _ _ ["__db__"; "a"; "z"] "z");
    [vm_compute; reflexivity|vm_compute; reflexivity|vm_compute; reflexivity
    |do 2 (apply elem_of_cons; right); apply elem_of_cons; now left
    |discriminate
    |vm_compute; reflexivity].
Defined.

(** C5 (code bug). Members [a, b, c, d, e] with [c] an external link,
    listed with marker [b] and limit 2: the listing raises [NameError]
    where the claim has it return the descriptors of [c] and [d]. *)
Theorem getItems_page_external_raises :
  keys Ex.file_ext (root_group Ex.file_ext) = Some ["a"; "b"; "c"; "d"; "e"] ∧
  (getItems Ex.uuid_str Ex.visititems_ext "uuid-100" None (Some "b") 2 Ex.db_ext).1
  = Raise NameError.
Proof. split; vm_compute; reflexivity. Qed.

Lemma deleteGroup_result_falsy_witness :
  (deleteGroup Ex.uuid_str Ex.visititems "uuid-101" Ex.db).1 = Ok None ∧
  (deleteGroup Ex.uuid_str Ex.visititems "uuid-100" Ex.db).1 = Ok (Some false) ∧
  (deleteGroup Ex.uuid_str Ex.visititems "uuid-999" Ex.db).1 = Ok (Some false) ∧
  (deleteGroup Ex.uuid_str Ex.visititems "uuid-101" Ex.db_ro).1 = Ok (Some false).
Proof.
  pose (g := mkHL "Group" 4 "/__db__").
  pose (t := mkHL "Group" 1 "/__db__/{groups}/uuid-101").
  split; [|split; [|split]].
  - destruct (deleteGroup_result_falsy Ex.uuid_str Ex.visititems "uuid-101" Ex.db)
      as (_ & _ & _ & _ & H).
    erewrite (H _ g "uuid-100" t); [reflexivity|..];
      try (vm_compute; reflexivity). discriminate.
  - destruct (deleteGroup_result_falsy Ex.uuid_str Ex.visititems "uuid-100" Ex.db)
      as (_ & _ & H & _).
    erewrite (H _ g); [reflexivity|..]; vm_compute; reflexivity.
  - destruct (deleteGroup_result_falsy Ex.uuid_str Ex.visititems "uuid-999" Ex.db)
      as (_ & _ & _ & H & _).
    erewrite (H _ g "uuid-100"); [reflexivity|..];
      try (vm_compute; reflexivity). discriminate.
  - destruct (deleteGroup_result_falsy Ex.uuid_str Ex.visititems "uuid-101" Ex.db_ro)
      as (_ & H & _).
    erewrite H; [reflexivity|..]; vm_compute; reflexivity.
Defined.

Lemma linkObject_readonly_witness :
  f (linkObject Ex.uuid_str Ex.visititems "uuid-100" "uuid-101" "lnk" Ex.db_ro).2
  = Ex.file.
Proof.
  apply (linkObject_readonly Ex.uuid_str Ex.visititems "uuid-100" "uuid-101" "lnk"
           Ex.db_ro).
  reflexivity.
Defined.

(** C8 does not hold as stated: on a read-only instance whose shadow
    container was just created, [linkObject] reports the read-only status
    and has written the index into the shadow container. *)
Lemma linkObject_readonly_counterexample :
  let r := linkObject Ex.uuid_str Ex.visititems "uuid-100" "uuid-101" "lnk" Ex.db_ro in
  readonly Ex.db_ro = true ∧ r.1 = Ok false ∧ httpStatus r.2 = 403 ∧
  dbf r.2 ≠ dbf Ex.db_ro.
Proof.
  cbv zeta. split; [reflexivity|]. split; [vm_compute; reflexivity|].
  split; [vm_compute; reflexivity|].
  intros H.
  apply (f_equal (λ d, match d with
                       | Some D => contains D (root_group D) "{groups}"
                       | None => false
                       end)) in H.
  vm_compute in H. discriminate H.
Qed.

Lemma initFile_idempotent_witness :
  let s1 := (initFile Ex.uuid_str Ex.visititems Ex.db).2 in
  initFile Ex.uuid_str Ex.visititems s1 = (Ok tt, set_http 200 None s1).
Proof.
  cbv zeta.
  apply (initFile_idempotent Ex.uuid_str Ex.visititems Ex.db).
  vm_compute. reflexivity.
Defined.

(** C1 does not hold as stated: in this writable container the index
    root [__db__] holds no [{groups}], so by the claim's test the index is
    not there; [initFile] returns at once all the same, and leaves no
    collection and no root identifier. *)
Lemma initFile_detection_counterexample :
  let s1 := (initFile Ex.uuid_str Ex.visititems_partial Ex.db_partial).2 in
  let g := mkHL "Group" 2 "/__db__" in
  getitem Ex.file_partial (root_group Ex.file_partial) "__db__" = Some g ∧
  contains Ex.file_partial g "{groups}" = false ∧
  (initFile Ex.uuid_str Ex.visititems_partial Ex.db_partial).1 = Ok tt ∧
  dbGrp s1 = Some g ∧
  f s1 = Ex.file_partial ∧
  contains (f s1) g "{groups}" = false ∧
  attr_get (f s1) g "rootUUID" = None.
Proof. cbv zeta. repeat split; vm_compute; reflexivity. Qed.

Lemma traversal_uuids_unique_stable_witness :
  let s1 := (initFile Ex.uuid_str Ex.visititems Ex.db).2 in
  ∃ sc,
    initFile_traverse Ex.uuid_str Ex.visititems sc = (Ok tt, s1) ∧
    (readonly Ex.db = true → f sc = f Ex.db) ∧
    let asg := assigned Ex.uuid_str (uuid_clock sc) (Ex.visititems (f sc)) in
    (∀ po, po ∈ Ex.visititems (f sc) → registrable po = true →
       ∃ u, (o_addr po.2, u) ∈ asg) ∧
    (∀ a u, (a, u) ∈ asg →
       getUUIDByAddress a s1 = (Ok (Some u), s1)) ∧
    (∀ a u a' u', (a, u) ∈ asg → (a', u') ∈ asg → a ≠ a' → u ≠ u') ∧
    (∀ a a' u, getUUIDByAddress a s1 = (Ok (Some u), s1) →
       getUUIDByAddress a' s1 = (Ok (Some u), s1) → a = a').
Proof.
  cbv zeta.
  apply (traversal_uuids_unique_stable Ex.uuid_str Ex.visititems Ex.db).
  - intros n n' E. unfold Ex.uuid_str in E.
    apply (inj (String.append "uuid-")) in E. now apply (inj pretty) in E.
  - intros F. unfold Ex.visititems. cbn [map snd o_addr].
    repeat (apply NoDup_cons; split;
              [intros Hin;
               repeat (apply elem_of_cons in Hin as [Hin|Hin]; [discriminate Hin|]);
               now apply elem_of_nil in Hin|]).
    apply NoDup_nil_2.
  - vm_compute. reflexivity.
  - vm_compute. reflexivity.
Defined.

Lemma getItems_limit_bound_witness :
  ∃ its s',
    getItems Ex.uuid_str Ex.visititems "uuid-100" None None 2 Ex.db
    = (Ok (Some its), s') ∧
    Z.of_nat (length its) ≤ 2.
Proof.
  eexists _, _. split; [vm_compute; reflexivity|].
  eapply (getItems_limit_bound Ex.uuid_str Ex.visititems "uuid-100" None None 2
            Ex.db); [lia|vm_compute; reflexivity].
Defined.

Lemma getItems_filter_sound_witness :
  ∃ its s' it,
    getItems Ex.uuid_str Ex.visititems "uuid-100" (Some "Dataset") None 0 Ex.db
    = (Ok (Some its), s') ∧
    its = [it] ∧
    (∃ k, dict_get it "name" = Some (VStr k) ∧ k ≠ "__db__") ∧
    (∀ c, Some "Dataset" = Some c → c ≠ "" →
       dict_get it "class" = Some (VStr c)).
Proof.
  eexists _, _, _. split; [vm_compute; reflexivity|]. split; [reflexivity|].
  eapply (getItems_filter_sound Ex.uuid_str Ex.visititems "uuid-100"
            (Some "Dataset") None 0 Ex.db); [vm_compute; reflexivity|].
  apply elem_of_cons. left. reflexivity.
Defined.

Lemma getItems_page_witness :
  ∃ its s',
    getItems Ex.uuid_str Ex.visititems "uuid-100" None (Some "b") 2 Ex.db
    = (Ok (Some its), s') ∧
    ∃ s0 parent ks,
      initFile Ex.uuid_str Ex.visititems Ex.db = (Ok tt, s0) ∧
      getGroupByUuid Ex.uuid_str Ex.visititems "uuid-100" s0
      = (Ok (Some parent), s') ∧
      keys (f s') parent = Some ks ∧
      map (λ it, dict_get it "name") its
      = map (λ k, Some (VStr k))
            (page 2 0
               (filter (λ k, listed (f s') parent k = true)
                       (window (Some "b") false ks))).
Proof.
  eexists _, _. split; [vm_compute; reflexivity|].
  apply (getItems_page Ex.uuid_str Ex.visititems "uuid-100" None (Some "b") 2
           Ex.db); [reflexivity|vm_compute; reflexivity].
Defined.

Lemma readonly_updates_refused_witness :
  f (createGroup Ex.uuid_str Ex.visititems Ex.db_ro).2 = Ex.file ∧
  f (createSoftLink Ex.uuid_str Ex.visititems "uuid-100" "/a" "lnk" Ex.db_ro).2
  = Ex.file ∧
  f (deleteGroup Ex.uuid_str Ex.visititems "uuid-101" Ex.db_ro).2 = Ex.file.
Proof.
  destruct (readonly_updates_refused Ex.uuid_str Ex.visititems Ex.db_ro eq_refl)
    as ([H1 _] & H2 & H3).
  split; [exact H1|]. split; [apply H2|apply H3].
Defined.

Lemma readonly_lookups_keep_source_witness :
  f (unlinkItem Ex.uuid_str Ex.visititems "uuid-100" "a" Ex.db_ro).2 = Ex.file.
Proof.
  destruct (readonly_lookups_keep_source Ex.uuid_str Ex.visititems Ex.db_ro
              eq_refl) as (H & _).
  apply H.
Defined.

Lemma getObjByPath_prefix_only_witness :
  let s1 := (initFile Ex.uuid_str Ex.visititems Ex.db).2 in
  ∃ h, getitem (f s1) (root_group (f s1)) "__db__/{groups}" = Some h ∧
    getObjByPath "__db__/{groups}" s1 = (Ok None, s1) ∧
    getObjByPath "/__db__/{groups}" s1 = (Ok (Some h), s1).
Proof.
  cbv zeta. eexists. split; [vm_compute; reflexivity|].
  apply (getObjByPath_prefix_only "__db__/{groups}");
    [reflexivity|vm_compute; reflexivity].
Defined.

Lemma lookup_by_uuid_protocol_witness :
  ∃ o s',
    getDatasetByUuid Ex.uuid_str Ex.visititems "uuid-102" Ex.db_ro
    = (Ok (Some o), s') ∧
    o_class o = "Dataset".
Proof.
  eexists _, _. split; [vm_compute; reflexivity|].
  eapply (proj1 (lookup_by_uuid_protocol Ex.uuid_str Ex.visititems "uuid-102"
                   Ex.db_ro));
    [vm_compute; reflexivity|reflexivity|reflexivity].
Defined.

Lemma root_uuid_round_trip_witness :
  let s1 := (initFile Ex.uuid_str Ex.visititems Ex.db).2 in
  ∃ h, getGroupByUuid Ex.uuid_str Ex.visititems "uuid-100" s1
       = (Ok (Some h), set_http 200 None s1) ∧
       o_addr h = root (f s1) ∧ o_name h = "/".
Proof.
  cbv zeta.
  apply (root_uuid_round_trip Ex.uuid_str Ex.visititems Ex.db);
    [vm_compute; reflexivity|].
  vm_compute. eexists. reflexivity.
Defined.

Lemma unlinkItem_unlinks_witness :
  ∃ grp s1,
    getGroupByUuid Ex.uuid_str Ex.visititems_dangling "uuid-100" Ex.db_dangling
    = (Ok (Some grp), s1) ∧
    link_at (f s1) (o_addr grp) "s" = Some (SoftLink "/nowhere") ∧
    getitem (f s1) grp "s" = None ∧
    ∃ s', unlinkItem Ex.uuid_str Ex.visititems_dangling "uuid-100" "s"
            Ex.db_dangling
          = (Ok true, s') ∧
      link_at (f s') (o_addr grp) "s" = None ∧
      contains (f s') grp "s" = false ∧
      same_but (f s1) (f s') (o_addr grp) "s" ∧
      (link_at (f s1) (o_addr grp) "s" = None → s' = s1).
Proof.
  eexists _, _. split; [vm_compute; reflexivity|].
  split; [vm_compute; reflexivity|]. split; [vm_compute; reflexivity|].
  apply (unlinkItem_unlinks Ex.uuid_str Ex.visititems_dangling "uuid-100" "s"
           Ex.db_dangling);
    [vm_compute; reflexivity|reflexivity|reflexivity].
Defined.

Lemma createSoftLink_links_witness :
  ∃ s0 p s1,
    initFile Ex.uuid_str Ex.visititems_dangling Ex.db_dangling = (Ok tt, s0) ∧
    getGroupByUuid Ex.uuid_str Ex.visititems_dangling "uuid-100" s0
    = (Ok (Some p), s1) ∧
    link_at (f s1) (o_addr p) "s" = Some (SoftLink "/nowhere") ∧
    ∃ s', createSoftLink Ex.uuid_str Ex.visititems_dangling "uuid-100" "/a" "s"
            Ex.db_dangling
          = (Ok true, s') ∧
      link_at (f s') (o_addr p) "s" = Some (SoftLink "/a") ∧
      same_but (f s1) (f s') (o_addr p) "s".
Proof.
  eexists _, _, _. split; [vm_compute; reflexivity|].
  split; [vm_compute; reflexivity|]. split; [vm_compute; reflexivity|].
  eapply (createSoftLink_links Ex.uuid_str Ex.visititems_dangling "uuid-100"
            "/a" "s" Ex.db_dangling);
    [vm_compute; reflexivity|reflexivity|vm_compute; reflexivity
    |vm_compute; eauto|reflexivity|discriminate].
Defined.

Lemma linkObject_links_witness :
  ∃ s0 p s1 c s2,
    initFile Ex.uuid_str Ex.visititems Ex.db = (Ok tt, s0) ∧
    getGroupByUuid Ex.uuid_str Ex.visititems "uuid-101" s0 = (Ok (Some p), s1) ∧
    getDatasetByUuid Ex.uuid_str Ex.visititems "uuid-102" s1
    = (Ok (Some c), s2) ∧
    ∃ s', linkObject Ex.uuid_str Ex.visititems "uuid-101" "uuid-102" "y" Ex.db
          = (Ok true, s') ∧
      link_at (f s') (o_addr p) "y" = Some (HardLink (o_addr c)) ∧
      getitem (f s') p "y"
      = Some (mkHL (o_class c) (o_addr c) (child_name p "y")) ∧
      same_but (f s2) (f s') (o_addr p) "y".
Proof.
  eexists _, _, _, _, _. split; [vm_compute; reflexivity|].
  split; [vm_compute; reflexivity|]. split; [vm_compute; reflexivity|].
  eapply (linkObject_links Ex.uuid_str Ex.visititems "uuid-101" "uuid-102" "y"
            Ex.db);
    [vm_compute; reflexivity|reflexivity|vm_compute; reflexivity
    |left; vm_compute; reflexivity|vm_compute; eauto|vm_compute; reflexivity
    |reflexivity].
Defined.

Lemma createGroup_registers_witness :
  ∃ u s', createGroup Ex.uuid_str Ex.visititems Ex.db = (Ok (Some u), s') ∧
    ∃ h, getGroupByUuid Ex.uuid_str Ex.visititems u s'
         = (Ok (Some h), set_http 200 None s') ∧
         getUUIDByAddress (o_addr h) s' = (Ok (Some u), s') ∧
         o_class h = "Group" ∧
         keys (f s') h = Some [].
Proof.
  eexists _, _. split; [vm_compute; reflexivity|].
  eapply (createGroup_registers Ex.uuid_str Ex.visititems Ex.db);
    [reflexivity|vm_compute; reflexivity|vm_compute; reflexivity
    |vm_compute; reflexivity|discriminate].
Defined.

Lemma createGroup_counts_witness :
  ∃ u s' n sn,
    createGroup Ex.uuid_str Ex.visititems Ex.db = (Ok (Some u), s') ∧
    getNumberOfGroups Ex.uuid_str Ex.visititems Ex.db = (Ok n, sn) ∧
    n = 2 ∧
    getNumberOfGroups Ex.uuid_str Ex.visititems s'
    = (Ok (n + 1), set_http 200 None s').
Proof.
  eexists _, _, _, _. split; [vm_compute; reflexivity|].
  split; [vm_compute; reflexivity|]. split; [reflexivity|].
  eapply (createGroup_counts Ex.uuid_str Ex.visititems Ex.db);
    [reflexivity|vm_compute; reflexivity|vm_compute; reflexivity].
Defined.

Lemma unlinkObject_effect_witness :
  ∃ F', unlinkObject (root_group Ex.file) (mkHL "Group" 1 "/a") Ex.db
        = (Ok true, set_f F' Ex.db) ∧
    (∀ n, link_at F' 0 n
          = match link_at Ex.file 0 n with
            | Some v => if is_hard 1 v then None else Some v
            | None => None
            end) ∧
    (∀ q, q ≠ 0%N → links_of F' q = links_of Ex.file q) ∧
    (∀ q, attrs_of F' q = attrs_of Ex.file q) ∧
    (∀ q, class_at F' q = class_at Ex.file q) ∧
    root F' = root Ex.file.
Proof.
  eapply (unlinkObject_effect (root_group Ex.file) (mkHL "Group" 1 "/a") Ex.db);
    vm_compute; reflexivity.
Defined.



Lemma traversal_round_trip_witness :
  let s1 := (initFile Ex.uuid_str Ex.visititems Ex.db).2 in
  ∃ sc,
    initFile_traverse Ex.uuid_str Ex.visititems sc = (Ok tt, s1) ∧
    ∀ po, po ∈ Ex.visititems (f sc) → registrable po = true →
      ∃ u h,
        (o_addr po.2, u)
        ∈ assigned Ex.uuid_str (uuid_clock sc) (Ex.visititems (f sc)) ∧
        o_addr h = o_addr po.2 ∧
        (o_class po.2 = "Group" →
         getGroupByUuid Ex.uuid_str Ex.visititems u s1
         = (Ok (Some h), set_http 200 None s1)) ∧
        (o_class po.2 = "Dataset" →
         getDatasetByUuid Ex.uuid_str Ex.visititems u s1
         = (Ok (Some h), set_http 200 None s1)).
Proof.
  cbv zeta.
  apply (traversal_round_trip Ex.uuid_str Ex.visititems Ex.db).
  - intros n n' E. unfold Ex.uuid_str in E.
    apply (inj (String.append "uuid-")) in E. now apply (inj pretty) in E.
  - reflexivity.
  - vm_compute. reflexivity.
  - vm_compute. reflexivity.
Defined.
